(** * Time-use survey pipelines: code mapping, key synthesis, schema
      harmonisation and column projection

    Shallow embedding of [src/parse.py] (the pandas pipeline) and
    [src/2019/parse.py] (the polars pipeline), with the Python scalar
    operations the two scripts rely on ([str], [float], [int],
    [float.is_integer]) written out over [Z]. *)

From Stdlib Require Import ZArith Lia Bool Ascii String DecimalString.
From Stdlib Require DecimalZ.
From stdpp Require Import gmap strings list fin_maps.

Local Open Scope string_scope.
Local Open Scope Z_scope.

(** ** Python scalars *)

Module Py.

(** A binary64 number: not-a-number, an infinity, or the finite value
    [(-1)^neg * m * 2^e]. *)
Inductive float :=
| FNan
| FInf (neg : bool)
| FFin (neg : bool) (m : Z) (e : Z).

(** [str] of an [int]: optional minus sign, decimal digits, no padding. *)
Definition str_int (z : Z) : string := NilZero.string_of_int (Z.to_int z).

(** *** Rounding a positive ratio to binary64 *)

Definition round_half_even (n d : Z) : Z :=
  let q := n / d in
  let r := n mod d in
  if 2 * r <? d then q
  else if d <? 2 * r then q + 1
  else if Z.even q then q else q + 1.

(** [ge_pow2 n d k]: [n / d >= 2^k], for positive [n], [d]. *)
Definition ge_pow2 (n d k : Z) : bool :=
  if 0 <=? k then d * 2 ^ k <=? n else d <=? n * 2 ^ (- k).

(** Floor of the binary logarithm of [n / d]. *)
Definition ilog2_ratio (n d : Z) : Z :=
  let e0 := Z.log2 n - Z.log2 d in
  if ge_pow2 n d e0 then e0 else e0 - 1.

(** The magnitude [n / d] (with [0 <= n], [0 < d]) rounded to the nearest
    binary64, ties to even; [None] on overflow.  The result [(m, q)]
    stands for [m * 2^q], with [2^52 <= m < 2^53] or [q = -1074]. *)
Definition round64 (n d : Z) : option (Z * Z) :=
  if n =? 0 then Some (0, -1074)
  else
    let e := ilog2_ratio n d in
    let q := Z.max (e - 52) (-1074) in
    let m := if 0 <=? q then round_half_even n (d * 2 ^ q)
             else round_half_even (n * 2 ^ (- q)) d in
    let '(m, q) := if m =? 2 ^ 53 then (2 ^ 52, q + 1) else (m, q) in
    if 971 <? q then None else Some (m, q).

Definition float_of_ratio (neg : bool) (n d : Z) : float :=
  match round64 n d with
  | Some (m, q) => FFin neg m q
  | None => FInf neg
  end.

(** The value [m * 10^e] as a ratio of integers. *)
Definition ratio_of_decimal (m e : Z) : Z * Z :=
  if 0 <=? e then (m * 10 ^ e, 1) else (m, 10 ^ (- e)).

(** [float.is_integer()] *)
Definition is_integer (f : float) : bool :=
  match f with
  | FFin _ m e => if 0 <=? e then true else m mod 2 ^ (- e) =? 0
  | _ => false
  end.

(** [int(f)]: truncation toward zero; raises on nan and infinities. *)
Definition int_of_float (f : float) : option Z :=
  match f with
  | FFin neg m e =>
      let a := if 0 <=? e then m * 2 ^ e else m / 2 ^ (- e) in
      Some (if neg then - a else a)
  | _ => None
  end.

(** *** [float(s)] for a string [s] *)

Definition is_space (c : ascii) : bool :=
  let n := Z.of_nat (nat_of_ascii c) in
  ((9 <=? n) && (n <=? 13)) || ((28 <=? n) && (n <=? 32)).

Definition digit_of (c : ascii) : option Z :=
  let n := Z.of_nat (nat_of_ascii c) in
  if (48 <=? n) && (n <=? 57) then Some (n - 48) else None.

Definition is_digit (c : ascii) : bool :=
  match digit_of c with Some _ => true | None => false end.

Fixpoint lstrip (s : string) : string :=
  match s with
  | String c s' => if is_space c then lstrip s' else s
  | EmptyString => EmptyString
  end.

Fixpoint rstrip (s : string) : string :=
  match s with
  | String c s' =>
      match rstrip s' with
      | EmptyString => if is_space c then EmptyString else String c EmptyString
      | r => String c r
      end
  | EmptyString => EmptyString
  end.

Definition strip (s : string) : string := rstrip (lstrip s).

(** Underscores are accepted only between two digits; they are removed
    before the number is read. [prev] tells whether the character just
    before is a digit. *)
Fixpoint strip_underscores (prev : bool) (s : string) : option string :=
  match s with
  | EmptyString => Some EmptyString
  | String c s' =>
      if Ascii.eqb c "_" then
        match s' with
        | String c' _ =>
            if prev && is_digit c' then strip_underscores false s' else None
        | EmptyString => None
        end
      else option_map (String c) (strip_underscores (is_digit c) s')
  end.

(** Reads the leading run of digits of [s] after the digits already
    accumulated in [acc]; returns the accumulated value, the number of
    digits read and the rest of the string. *)
Fixpoint scan_digits (s : string) (acc cnt : Z) : Z * Z * string :=
  match s with
  | String c s' =>
      match digit_of c with
      | Some d => scan_digits s' (10 * acc + d) (cnt + 1)
      | None => (acc, cnt, s)
      end
  | EmptyString => (acc, cnt, s)
  end.

Definition scan_sign (s : string) : bool * string :=
  match s with
  | String "-" s' => (true, s')
  | String "+" s' => (false, s')
  | _ => (false, s)
  end.

Definition lower (c : ascii) : ascii :=
  let n := nat_of_ascii c in
  if ((65 <=? n) && (n <=? 90))%nat then ascii_of_nat (n + 32) else c.

Fixpoint lower_string (s : string) : string :=
  match s with
  | String c s' => String (lower c) (lower_string s')
  | EmptyString => EmptyString
  end.

(** The exponent part: empty, or [e]/[E], an optional sign and at least
    one digit, up to the end of the string. *)
Definition scan_exponent (s : string) : option Z :=
  match s with
  | EmptyString => Some 0
  | String c s' =>
      if Ascii.eqb (lower c) "e" then
        let '(neg, s1) := scan_sign s' in
        match scan_digits s1 0 0 with
        | (v, cnt, EmptyString) =>
            if 0 <? cnt then Some (if neg then - v else v) else None
        | _ => None
        end
      else None
  end.

Definition parse_number (neg : bool) (s : string) : option float :=
  let '(ip, ni, s1) := scan_digits s 0 0 in
  let '(mant, nf, s2) :=
    match s1 with
    | String "." s1' => scan_digits s1' ip 0
    | _ => (ip, 0, s1)
    end in
  if 0 <? ni + nf then
    match scan_exponent s2 with
    | Some ex =>
        let '(n, d) := ratio_of_decimal mant (ex - nf) in
        Some (float_of_ratio neg n d)
    | None => None
    end
  else None.

(** [float(s)]; [None] stands for [ValueError]. *)
Definition float_of_string (s : string) : option float :=
  match strip_underscores false (strip s) with
  | Some t =>
      let '(neg, u) := scan_sign t in
      let l := lower_string u in
      if String.eqb l "inf" || String.eqb l "infinity" then Some (FInf neg)
      else if String.eqb l "nan" then Some FNan
      else parse_number neg u
  | None => None
  end.

(** Strings of decimal digits, their value read after the digits
    accumulated in [acc], and strings of zeros. *)
Fixpoint all_digits (s : string) : bool :=
  match s with
  | String c s' => is_digit c && all_digits s'
  | EmptyString => true
  end.

Fixpoint digits_value (s : string) (acc : Z) : Z :=
  match s with
  | String c s' =>
      match digit_of c with
      | Some d => digits_value s' (10 * acc + d)
      | None => acc
      end
  | EmptyString => acc
  end.

Fixpoint all_zeros (s : string) : bool :=
  match s with
  | String c s' => Ascii.eqb c "0" && all_zeros s'
  | EmptyString => true
  end.

(** Strings made of digits, dots and minus signs only. *)
Definition plain_char (c : ascii) : bool :=
  is_digit c || Ascii.eqb c "." || Ascii.eqb c "-".

Fixpoint plain (s : string) : bool :=
  match s with
  | String c s' => plain_char c && plain s'
  | EmptyString => true
  end.

(** [int(s)] for a string [s] in base ten; [None] stands for
    [ValueError]. *)
Definition int_of_string (s : string) : option Z :=
  match strip_underscores false (strip s) with
  | Some t =>
      let '(neg, u) := scan_sign t in
      match scan_digits u 0 0 with
      | (v, cnt, EmptyString) =>
          if 0 <? cnt then Some (if neg then - v else v) else None
      | _ => None
      end
  | None => None
  end.

(** *** [str(f)] for a float [f]: the shortest decimal that reads back
    as [f] *)

Definition ge_pow10 (n d k : Z) : bool :=
  if 0 <=? k then d * 10 ^ k <=? n else d <=? n * 10 ^ (- k).

(** Floor of the decimal logarithm of [n / d]. *)
Definition ilog10_ratio (n d : Z) : Z :=
  let k0 := (ilog2_ratio n d * 1233) / 4096 in
  if ge_pow10 n d (k0 + 1) then k0 + 1
  else if ge_pow10 n d k0 then k0 else k0 - 1.

Definition reads_back (m q c s : Z) : bool :=
  let '(n, d) := ratio_of_decimal c s in
  match round64 n d with
  | Some (m', q') => (m' =? m) && (q' =? q)
  | None => false
  end.

(** The [p]-digit decimals on both sides of [n / d], nearest first, and
    the first of them that reads back as [(m, q)]. *)
Definition try_precision (m q n d k p : Z) : option (Z * Z) :=
  let s := k - p + 1 in
  let '(a, b) := if 0 <=? s then (n, d * 10 ^ s) else (n * 10 ^ (- s), d) in
  let lo := a / b in
  let hi := lo + 1 in
  let r := a mod b in
  let lo_first :=
    if 2 * r <? b then true
    else if b <? 2 * r then false else Z.even lo in
  let '(c1, c2) := if lo_first then (lo, hi) else (hi, lo) in
  if reads_back m q c1 s then Some (c1, s)
  else if reads_back m q c2 s then Some (c2, s)
  else None.

Fixpoint shortest_from (fuel : nat) (m q n d k p : Z) : Z * Z :=
  match fuel with
  | O => (0, 0)
  | S fuel' =>
      match try_precision m q n d k p with
      | Some cs => cs
      | None => shortest_from fuel' m q n d k (p + 1)
      end
  end.

Fixpoint drop_zeros (fuel : nat) (c s : Z) : Z * Z :=
  match fuel with
  | O => (c, s)
  | S fuel' =>
      if (c mod 10 =? 0) && (0 <? c) then drop_zeros fuel' (c / 10) (s + 1)
      else (c, s)
  end.

Fixpoint zeros (n : nat) : string :=
  match n with
  | O => EmptyString
  | S n' => String "0" (zeros n')
  end.

Definition str_exponent (e : Z) : string :=
  let a := str_int (Z.abs e) in
  (if e <? 0 then "-" else "+") +:+ (if Z.abs e <? 10 then "0" else "") +:+ a.

(** The digits [ds] with the decimal point [decpt] places after their
    start, in the layout of [repr]. *)
Definition layout (ds : string) (decpt : Z) : string :=
  let len := Z.of_nat (String.length ds) in
  if (decpt <=? -4) || (16 <? decpt) then
    match ds with
    | String c EmptyString => String c EmptyString +:+ "e" +:+ str_exponent (decpt - 1)
    | String c rest => String c ("." +:+ rest) +:+ "e" +:+ str_exponent (decpt - 1)
    | EmptyString => EmptyString
    end
  else if decpt <=? 0 then "0." +:+ zeros (Z.to_nat (- decpt)) +:+ ds
  else if len <=? decpt then ds +:+ zeros (Z.to_nat (decpt - len)) +:+ ".0"
  else substring 0 (Z.to_nat decpt) ds +:+ "."
       +:+ substring (Z.to_nat decpt) (Z.to_nat (len - decpt)) ds.

Definition str_float (f : float) : string :=
  match f with
  | FNan => "nan"
  | FInf neg => if neg then "-inf" else "inf"
  | FFin neg m0 e0 =>
      let sign := if neg then "-" else "" in
      let '(n0, d0) := if 0 <=? e0 then (m0 * 2 ^ e0, 1) else (m0, 2 ^ (- e0)) in
      match round64 n0 d0 with
      | None => sign +:+ "inf"
      | Some (m, q) =>
          if m =? 0 then sign +:+ "0.0"
          else
            let '(n, d) := if 0 <=? q then (m * 2 ^ q, 1) else (m, 2 ^ (- q)) in
            let k := ilog10_ratio n d in
            let '(c, s) := shortest_from 17 m q n d k 1 in
            let '(c, s) := drop_zeros 17 c s in
            let ds := str_int c in
            sign +:+ layout ds (Z.of_nat (String.length ds) + s)
      end
  end.

End Py.

(** ** Cells and code maps *)

(** A scalar held by a table cell. *)
Inductive value :=
| VInt (z : Z)
| VFloat (f : Py.float)
| VStr (s : string).

(** A cell: [None] is Python's [None] (a polars null); the pandas missing
    value of a numeric column is the float [nan]. *)
Definition cell := option value.

(** [str(v)], which is also what [f"{v}"] inserts. *)
Definition py_str (v : value) : string :=
  match v with
  | VInt z => Py.str_int z
  | VFloat f => Py.str_float f
  | VStr s => s
  end.

(** [pd.isna(val)] on a scalar. *)
Definition pd_isna (c : cell) : bool :=
  match c with
  | None => true
  | Some (VFloat Py.FNan) => true
  | Some _ => false
  end.

(** A code map is a Python [dict] whose keys are strings or [None]
    (the key [None] occurs in the maps written inline in
    [create_individual_profiles]) and whose values are descriptions. *)
Abbreviation CodeMap := (gmap (option string) string).

(** [c in s] for a one-character string [c]. *)
Fixpoint has_char (c : ascii) (s : string) : bool :=
  match s with
  | String c' s' => Ascii.eqb c' c || has_char c s'
  | EmptyString => false
  end.

Definition unknown_of (raw : string) : string := "Unknown (" +:+ raw +:+ ")".

(** [str] of a cell's content. *)
Definition str_cell (c : cell) : string :=
  match c with
  | Some v => py_str v
  | None => "None"
  end.

(** ** Column projection

    Both scripts end with the same three lines ([src/parse.py] 301-307,
    [src/2019/parse.py] 437-443): the wanted columns that exist, in the
    wanted order, then every other column of the frame. *)
Definition final_column_order (desired_column_order cols : list string) : list string :=
  let available_desired_columns := filter (fun col => col ∈ cols) desired_column_order in
  let remaining_columns := filter (fun col => col ∉ desired_column_order) cols in
  available_desired_columns ++ remaining_columns.

(** ** The pandas pipeline, [src/parse.py] *)

Module Pandas.

(** Lines 31-41 of [clean_and_map]: the key looked up for a non-missing
    value.  A rendering with a dot that reads as an integral float is
    replaced by the integer's rendering; a [float] or [int] call that
    raises leaves the rendering as it is. *)
Definition normalize (str_val : string) : string :=
  if has_char "." str_val then
    match Py.float_of_string str_val with
    | Some float_val =>
        if Py.is_integer float_val then
          match Py.int_of_float float_val with
          | Some i => Py.str_int i
          | None => str_val
          end
        else str_val
    | None => str_val
    end
  else str_val.

(** [clean_and_map], lines 26-44. *)
Definition clean_and_map (mapping_dict : CodeMap) (val : cell) : string :=
  match val with
  | Some v =>
      if pd_isna val then "Unknown"
      else
        let str_val := normalize (py_str v) in
        default (unknown_of (py_str v)) (mapping_dict !! Some str_val)
  | None => "Unknown"
  end.

(** *** Data frames

    A frame is its columns in order, each a name and the values of the
    rows; rows are positions. *)
Definition DataFrame := list (string * list cell).

Definition columns (df : DataFrame) : list string := map fst df.

Definition height (df : DataFrame) : nat :=
  match df with
  | (_, vs) :: _ => length vs
  | [] => O
  end.

(** [df[name]] read. *)
Fixpoint get_col (df : DataFrame) (name : string) : option (list cell) :=
  match df with
  | (n, vs) :: df' => if String.eqb n name then Some vs else get_col df' name
  | [] => None
  end.

(** [df[name] = vs]: an existing column is overwritten where it
    stands, a new one is added last. *)
Fixpoint set_col (df : DataFrame) (name : string) (vs : list cell) : DataFrame :=
  match df with
  | (n, old) :: df' =>
      if String.eqb n name then (n, vs) :: df' else (n, old) :: set_col df' name vs
  | [] => [(name, vs)]
  end.

Definition in_columns (name : string) (df : DataFrame) : bool :=
  existsb (String.eqb name) (columns df).

(** *** Exceptions and statements

    A statement runs on the frame bound to [df], which it may update in
    place, and either yields a value or raises. *)
Inductive exn :=
| KeyError (key : string)
| ValueError (what : string)
| TypeError (what : string)
| OverflowError (what : string)
| OSError (path : string).

Definition M (A : Type) : Type := DataFrame -> (exn + A) * DataFrame.

Definition ret {A} (a : A) : M A := fun df => (inr a, df).
Definition raise {A} (e : exn) : M A := fun df => (inl e, df).
Definition bind {A B} (m : M A) (k : A -> M B) : M B :=
  fun df =>
    match m df with
    | (inr a, df') => k a df'
    | (inl e, df') => (inl e, df')
    end.
Definition read_df : M DataFrame := fun df => (inr df, df).
Definition assign (name : string) (vs : list cell) : M unit :=
  fun df => (inr tt, set_col df name vs).
Definition lift {A} (r : exn + A) : M A := fun df => (r, df).

Notation "'do' x <- m ; k" := (bind m (fun x => k))
  (at level 10, x name, m at level 100, k at level 200).
Notation "'run' m ; k" := (bind m (fun _ => k))
  (at level 10, m at level 100, k at level 200).

(** [try: body / except Exception: return df]: whatever happens, the
    caller receives the frame bound to [df], as the body left it. *)
Definition try_return_df (body : M unit) (df : DataFrame) : DataFrame :=
  snd (body df).

(** [map_codes_to_descriptions], lines 6-54. *)
Definition map_codes_body (column_name : string) (mapping_dict : CodeMap) : M unit :=
  do df <- read_df;
  match get_col df column_name with
  | Some vs =>
      assign column_name
        (map (fun val => Some (VStr (clean_and_map mapping_dict val))) vs)
  | None => raise (KeyError column_name)
  end.

Definition map_codes_to_descriptions
    (df : DataFrame) (column_name : string) (mapping_dict : CodeMap) : DataFrame :=
  if negb (in_columns column_name df) then df
  else try_return_df (map_codes_body column_name mapping_dict) df.

(** *** [map_district_codes], lines 56-180 *)

Definition get_or_raise (df : DataFrame) (name : string) : exn + list cell :=
  match get_col df name with
  | Some vs => inr vs
  | None => inl (KeyError name)
  end.

(** What [map_district_codes] meets outside the frame: whether the
    directory of the logs can be made and whether a log can be opened
    and written, and what NumPy makes of a number beyond the 64-bit
    integers.  The frame does not record the NumPy type of a column,
    and the answer depends on it and on the machine (an element of an
    object column raises [OverflowError], an unsigned column wraps
    around, the cast of a float is left to the processor), so it is
    taken from outside, given the column and the value. *)
Record Env := mkEnv {
  can_makedirs : string -> bool;
  can_write : string -> bool;
  out_of_int64 : list cell -> value -> exn + Z
}.

Definition in_int64 (z : Z) : bool := (- 2 ^ 63 <=? z) && (z <? 2 ^ 63).

Section WithEnv.
Variable env : Env.

(** [os.makedirs(path, exist_ok=True)] *)
Definition makedirs (path : string) : exn + unit :=
  if can_makedirs env path then inr tt else inl (OSError path).

(** [with open(path, 'w') as log_file: ...], for a log whose lines are
    not data of the frame. *)
Definition write_log (path : string) : exn + unit :=
  if can_write env path then inr tt else inl (OSError path).

(** The integer [z] read from the value [v] of a column, stored as a
    64-bit integer.  A string is always an element of an object
    column. *)
Definition to_int64 (column : list cell) (v : value) (z : Z) : exn + Z :=
  if in_int64 z then inr z
  else
    match v with
    | VStr _ => inl (OverflowError "Python int too large to convert to C long")
    | _ => out_of_int64 env column v
    end.

(** [int(x)] as [astype(int)] applies it to one element of [column]:
    floats are truncated, strings are read, a missing value cannot be
    converted. *)
Definition int_of_cell (column : list cell) (c : cell) : exn + Z :=
  match c with
  | Some (VInt z) => to_int64 column (VInt z) z
  | Some (VFloat f) =>
      match Py.int_of_float f with
      | Some z => to_int64 column (VFloat f) z
      | None => inl (ValueError "cannot convert non-finite values to integer")
      end
  | Some (VStr s) =>
      match Py.int_of_string s with
      | Some z => to_int64 column (VStr s) z
      | None => inl (ValueError "invalid literal for int()")
      end
  | None => inl (TypeError "int() argument must not be NoneType")
  end.

Fixpoint convert_each (f : cell -> exn + Z) (vs : list cell) : exn + list Z :=
  match vs with
  | [] => inr []
  | c :: vs' =>
      match f c with
      | inl e => inl e
      | inr z =>
          match convert_each f vs' with
          | inl e => inl e
          | inr zs => inr (z :: zs)
          end
      end
  end.

(** [series.astype(int)] *)
Definition astype_int (vs : list cell) : exn + list Z :=
  convert_each (int_of_cell vs) vs.

(** [df[name].astype(int)] *)
Definition int_column (df : DataFrame) (name : string) : exn + list Z :=
  match get_or_raise df name with
  | inl e => inl e
  | inr vs => astype_int vs
  end.

(** [extract_state_code], lines 94-101. *)
Definition extract_state_code (nss_region : cell) : string :=
  let nss_str := str_cell nss_region in
  if Nat.eqb (String.length nss_str) 3 then substring 0 2 nss_str
  else if Nat.eqb (String.length nss_str) 2 then substring 0 1 nss_str
  else nss_str.

Definition mapping_key (a b c : Z) : string :=
  Py.str_int a +:+ "_" +:+ Py.str_int b +:+ "_" +:+ Py.str_int c.

Fixpoint zip3 {A B C} (la : list A) (lb : list B) (lc : list C) : list (A * B * C) :=
  match la, lb, lc with
  | a :: la', b :: lb', c :: lc' => (a, b, c) :: zip3 la' lb' lc'
  | _, _, _ => []
  end.

(** Lines 106-114: the lookup dictionary; a key met again overwrites
    the entry (the duplicate is only written to a log). *)
Definition build_mapping_dict (keys : list string) (names : list (cell * cell))
  : gmap string (cell * cell) :=
  foldl (fun d kv => <[kv.1 := kv.2]> d) ∅ (zip keys names).

(** [df.loc[mask, name] = v] *)
Definition assign_where (mask : list bool) (name : string) (v : cell) : M unit :=
  do df <- read_df;
  match get_col df name with
  | Some old => assign name (zip_with (fun (b : bool) o => if b then v else o) mask old)
  | None => assign name (map (fun b : bool => if b then v else None) mask)
  end.

Fixpoint for_each {A} (l : list A) (f : A -> M unit) : M unit :=
  match l with
  | [] => ret tt
  | a :: l' => run f a; for_each l' f
  end.

(** Binding of a fallible result. *)
Definition and_then {A B} (r : exn + A) (k : A -> exn + B) : exn + B :=
  match r with
  | inl e => inl e
  | inr a => k a
  end.

(** [row[name]] for the rows of [iterrows()]: a table without rows is
    never asked for the field. *)
Definition row_field {A} (df : DataFrame) (rows : list A) (name : string)
  : exn + list cell :=
  match rows with
  | [] => inr []
  | _ :: _ => get_or_raise df name
  end.

(** Lines 110-114, the keys set aside in [duplicate_keys]: those met
    again while the dictionary is filled. *)
Fixpoint duplicate_keys (seen keys : list string) : list string :=
  match keys with
  | [] => []
  | key :: keys' =>
      if bool_decide (key ∈ seen) then key :: duplicate_keys seen keys'
      else duplicate_keys (key :: seen) keys'
  end.

(** Lines 75-128, all that is done before the frame is written to: the
    directory of the logs, the lookup dictionary and the key of every
    row.  [districts_df] is the reference table read from
    [raw/districts.csv]; the frame is only read ([df_for_mapping] is a
    copy).  The reference table has text columns, so [iterrows()]
    hands the integer codes on as integers.  The duplicate keys are
    written to a log, opened only when there are any. *)
Definition prepare_lookup (districts_df df : DataFrame)
  : exn + (gmap string (cell * cell) * list string) :=
  and_then (makedirs "logs") (fun _ =>
  and_then (int_column districts_df "Sub-region Code") (fun sub_region_code =>
  and_then (int_column districts_df "District Code") (fun district_code =>
  and_then (int_column districts_df "State Code") (fun state_code =>
  and_then (int_column df "FOD Sub-Region") (fun fod =>
  and_then (int_column df "District") (fun district =>
  and_then (get_or_raise df "NSS-Region") (fun nss_raw =>
  and_then (astype_int (map (fun c => Some (VStr (extract_state_code c))) nss_raw))
    (fun nss =>
  let rows := zip3 sub_region_code district_code state_code in
  and_then (row_field districts_df rows "State Name") (fun state_name =>
  and_then (row_field districts_df rows "District Name") (fun district_name =>
  let row_keys := map (fun '(a, b, c) => mapping_key a b c) rows in
  and_then (if bool_decide (duplicate_keys [] row_keys = []) then inr tt
            else write_log "logs/duplicate_district_keys.log") (fun _ =>
  inr (build_mapping_dict row_keys (zip state_name district_name),
       map (fun '(a, b, c) => mapping_key a b c) (zip3 fod district nss))))))))))))).

(** Lines 142-149: one turn of the loop over the dictionary. *)
Definition apply_entry (keys : list string) (entry : string * (cell * cell)) : M unit :=
  let '(key, values) := entry in
  let mask := map (String.eqb key) keys in
  if existsb id mask then
    run assign_where mask "state" values.1;
    assign_where mask "district" values.2
  else ret tt.

(** The body of the [try] block, lines 74-174.  The keys of the frame
    are three integers joined by two underscores, so the unpacking of
    line 155 finds its three parts; the log of the keys left unmapped
    is written last (line 163), when the frame already holds the two
    new columns. *)
Definition map_district_body (districts_df : DataFrame) : M unit :=
  do df <- read_df;
  do lookup <- lift (prepare_lookup districts_df df);
  let '(mapping_dict, keys) := lookup in
  run assign "state" (replicate (height df) (Some (VStr "Unknown State")));
  run assign "district" (replicate (height df) (Some (VStr "Unknown District")));
  run for_each (map_to_list mapping_dict) (apply_entry keys);
  lift (write_log "logs/district_mapping_failures.log").

Definition map_district_codes (districts_df df : DataFrame) : DataFrame :=
  if negb (in_columns "FOD Sub-Region" df) || negb (in_columns "District" df) then df
  else try_return_df (map_district_body districts_df) df.

End WithEnv.

(** *** [main]: the person key (line 217) and the final order of the
    columns (lines 293-307) *)

Definition join_keys : list string :=
  ["Schedule ID"; "FSU Serial No."; "Schedule"; "survey year"; "Sector";
   "NSS-Region"; "District"; "Stratum"; "Sub-Stratum"; "Sub-Round";
   "FOD Sub-Region"; "Sample hhld. No."].

(** [series.astype(str)] *)
Definition astype_str (vs : list cell) : list string := map str_cell vs.

(** Element-wise [+] of two string series. *)
Definition series_add (a b : list string) : list string := zip_with String.append a b.

(** The sum of the [astype(str)] of the columns [keys], left to right,
    starting from the series [acc]. *)
Fixpoint add_columns (df : DataFrame) (acc : list string) (keys : list string)
  : exn + list string :=
  match keys with
  | [] => inr acc
  | k :: keys' =>
      match get_or_raise df k with
      | inl e => inl e
      | inr vs => add_columns df (series_add acc (astype_str vs)) keys'
      end
  end.

(** The right-hand side of line 217, for the key columns [keys] and the
    serial-number column [serial]. *)
Definition person_id_series (keys : list string) (serial : string) (df : DataFrame)
  : exn + list string :=
  match keys with
  | [] => inl (KeyError "")
  | k :: keys' =>
      match get_or_raise df k with
      | inl e => inl e
      | inr vs =>
          match add_columns df (astype_str vs) keys' with
          | inl e => inl e
          | inr hh =>
              match get_or_raise df serial with
              | inl e => inl e
              | inr ps =>
                  inr (series_add (map (fun s => s +:+ "_") hh) (astype_str ps))
              end
          end
      end
  end.

Definition add_person_id (df : DataFrame) : exn + DataFrame :=
  match person_id_series join_keys "Person serial no." df with
  | inl e => inl e
  | inr ids => inr (set_col df "person_id" (map (fun s => Some (VStr s)) ids))
  end.

Definition column_order : list string :=
  ["person_id"; "state"; "district"; "gender"; "age"; "marital_status";
   "education"; "religion"; "social_group"; "household_size";
   "monthly_expenditure"; "principal_activity"; "industry";
   "activity_serial_no"; "time_from"; "time_to"; "multiple_activity";
   "simultaneous_activity"; "is_major_activity"; "activity_code";
   "activity_location"; "payment_status"; "enterprise_type"].

(** [df[names]] *)
Fixpoint select (df : DataFrame) (names : list string) : exn + DataFrame :=
  match names with
  | [] => inr []
  | n :: names' =>
      match get_or_raise df n, select df names' with
      | inr vs, inr rest => inr ((n, vs) :: rest)
      | inl e, _ => inl e
      | _, inl e => inl e
      end
  end.

Definition reorder_columns (df : DataFrame) : exn + DataFrame :=
  select df (final_column_order column_order (columns df)).

End Pandas.

(** ** The polars pipeline, [src/2019/parse.py] *)

Module Polars.

Inductive dtype := Int64 | Float64 | Utf8 | Null | Struct.

#[global] Instance dtype_eq_dec : EqDecision dtype.
Proof. solve_decision. Defined.

(** A column of a frame. *)
Record Series := mkSeries {
  name : string;
  dtype_of : dtype;
  values : list cell
}.

#[global] Instance float_eq_dec : EqDecision Py.float.
Proof. solve_decision. Defined.

#[global] Instance value_eq_dec : EqDecision value.
Proof. solve_decision. Defined.

#[global] Instance Series_eq_dec : EqDecision Series.
Proof. solve_decision. Defined.

Definition DataFrame := list Series.

Definition columns (df : DataFrame) : list string := map name df.

Definition schema (df : DataFrame) : list (string * dtype) :=
  map (fun s => (name s, dtype_of s)) df.

Definition height (df : DataFrame) : nat :=
  match df with
  | s :: _ => length (values s)
  | [] => O
  end.

Fixpoint get_column (df : DataFrame) (col : string) : option Series :=
  match df with
  | s :: df' => if String.eqb (name s) col then Some s else get_column df' col
  | [] => None
  end.

(** [df.with_columns(expr.alias(name))]: a column of that name is
    replaced where it stands, a new one is added last. *)
Fixpoint with_column (df : DataFrame) (new : Series) : DataFrame :=
  match df with
  | s :: df' =>
      if String.eqb (name s) (name new) then new :: df'
      else s :: with_column df' new
  | [] => [new]
  end.

Definition drop (df : DataFrame) (col : string) : DataFrame :=
  filter (fun s => name s ≠ col) df.

(** [df.rename({old: new})] *)
Definition rename (df : DataFrame) (old new : string) : DataFrame :=
  map (fun s => if String.eqb (name s) old then mkSeries new (dtype_of s) (values s) else s) df.

Inductive perr :=
  ColumnNotFoundError | SchemaError | ShapeError | DuplicateError | IndexError.

(** [df.select(names)] *)
Fixpoint select_columns (df : DataFrame) (names : list string) : perr + DataFrame :=
  match names with
  | [] => inr []
  | n :: names' =>
      match get_column df n, select_columns df names' with
      | Some s, inr rest => inr (s :: rest)
      | None, _ => inl ColumnNotFoundError
      | _, inl e => inl e
      end
  end.

Definition select (df : DataFrame) (names : list string) : perr + DataFrame :=
  if bool_decide (NoDup names) then select_columns df names else inl DuplicateError.

(** A column of strings: of type [Utf8], each cell a string or null. *)
Definition is_text (s : Series) : Prop :=
  dtype_of s = Utf8 /\ forall c, c ∈ values s -> c = None \/ exists t, c = Some (VStr t).

(** *** [create_individual_profiles]: the files of one table, lines 80-92

    File names are read as ASCII text, as those of the survey are. *)

(** [s.split(sep)] for a one-character separator. *)
Fixpoint split (sep : ascii) (s : string) : list string :=
  match s with
  | EmptyString => [EmptyString]
  | String c s' =>
      if Ascii.eqb c sep then EmptyString :: split sep s'
      else match split sep s' with
           | part :: parts => String c part :: parts
           | [] => [String c EmptyString]
           end
  end.

(** [sep.join(parts)] *)
Fixpoint join (sep : string) (parts : list string) : string :=
  match parts with
  | [] => EmptyString
  | [part] => part
  | part :: parts' => part +:+ sep +:+ join sep parts'
  end.

(** [os.path.basename] on a POSIX path. *)
Definition basename (path : string) : string :=
  List.last (split "/" path) EmptyString.

(** [s.isdigit()] *)
Definition isdigit (s : string) : bool :=
  match s with
  | EmptyString => false
  | _ => Py.all_digits s
  end.

(** Lines 83-88: the name of the table a file belongs to. *)
Definition base_name (file_path : string) : string :=
  let file_name := List.hd EmptyString (split "." (basename file_path)) in
  let base_name := Py.lower_string file_name in
  if has_char "_" base_name && isdigit (List.last (split "_" base_name) EmptyString) then
    let parts := split "_" base_name in
    join "_" (List.removelast parts)
  else base_name.

(** Lines 90-92: [file_groups[base_name].append(file_path)], the keys
    kept in the order in which they came in. *)
Fixpoint append_to_group (file_groups : list (string * list string))
    (base_name file_path : string) : list (string * list string) :=
  match file_groups with
  | [] => [(base_name, [file_path])]
  | (k, file_paths) :: rest =>
      if String.eqb k base_name then (k, file_paths ++ [file_path])%list :: rest
      else (k, file_paths) :: append_to_group rest base_name file_path
  end.

(** Lines 81-92. *)
Definition file_groups (parquet_files : list string) : list (string * list string) :=
  foldl (fun file_groups file_path =>
           append_to_group file_groups (base_name file_path) file_path)
        [] parquet_files.

Section WithFormat.

(** How polars writes a float when it casts it to a string; the
    library's own format, left open. *)
Variable fmt_float : Py.float -> string.

(** The string a value becomes under [cast(pl.Utf8)]. *)
Definition cast_str (v : value) : string :=
  match v with
  | VInt z => Py.str_int z
  | VFloat f => fmt_float f
  | VStr s => s
  end.

Definition cast_cell (c : cell) : cell := option_map (fun v => VStr (cast_str v)) c.

(** [pl.col(col).cast(pl.Utf8).alias(col)] *)
Definition cast_utf8 (s : Series) : Series :=
  mkSeries (name s) Utf8 (map cast_cell (values s)).

(** One row of [pl.concat_str]: the parts are cast to strings and
    joined without a separator; a null part makes the result null. *)
Fixpoint concat_cells (parts : list cell) : option string :=
  match parts with
  | [] => Some EmptyString
  | Some v :: parts' => option_map (String.append (cast_str v)) (concat_cells parts')
  | None :: _ => None
  end.

(** The rows of a list of columns, each [h] cells wide. *)
Fixpoint rows_of (h : nat) (cols : list (list cell)) : list (list cell) :=
  match cols with
  | [] => replicate h []
  | c :: cols' => zip_with cons c (rows_of h cols')
  end.

(** [pl.concat_str([pl.col(c) for c in cols])] *)
Definition concat_str (df : DataFrame) (cols : list string) : perr + list cell :=
  match select_columns df cols with
  | inl e => inl e
  | inr ss =>
      inr (map (fun r => option_map VStr (concat_cells r))
               (rows_of (height df) (map values ss)))
  end.

(** Two frames with the same columns whose cells agree once cast to
    strings. *)
Definition same_text (df df' : DataFrame) : Prop :=
  columns df' = columns df
  /\ height df' = height df
  /\ forall col s, get_column df col = Some s ->
       exists s', get_column df' col = Some s'
         /\ forall i c, values s !! i = Some c ->
              exists c', values s' !! i = Some c' /\ cast_cell c' = cast_cell c.

(** *** [process_parquet_file], lines 20-71 *)

Definition GROUP_BY_COLUMNS : list string :=
  ["FSU Serial No."; "Sector"; "State"; "District"; "Stratum";
   "Sub-Stratum"; "Sub-Round"; "FOD Sub-Region"; "Sample hhld. No."].

Definition COLUMN_ALIASES : list (string * list string) :=
  [("Schedule", [", Schedule"]);
   ("Sl.No.", ["Person serial no."; "Serial no.of member"])].

(** Lines 28-30: the second column, then the fifth and later ones. *)
Definition keep_columns (df : DataFrame) : perr + DataFrame :=
  match df with
  | _ :: second :: rest => inr (second :: List.skipn 2 rest)
  | _ => inl IndexError
  end.

(** Lines 33-36. *)
Definition normalize_names (df : DataFrame) : DataFrame :=
  foldl (fun df '(standard_name, aliases) =>
           foldl (fun df alias =>
                    if bool_decide (alias ∈ columns df)
                       && negb (bool_decide (standard_name ∈ columns df))
                    then rename df alias standard_name else df)
                 df aliases)
        df COLUMN_ALIASES.

(** Lines 50-60, for the design-key columns [group_by]: those present,
    in the order of [group_by], are cast to strings and joined into
    [household_id]. *)
Definition add_household_id (group_by : list string) (df : DataFrame) : option DataFrame :=
  let available_group_cols := filter (fun col => col ∈ columns df) group_by in
  if bool_decide (available_group_cols = []) then None
  else
    let df := foldl (fun df col =>
                       match get_column df col with
                       | Some s => with_column df (cast_utf8 s)
                       | None => df
                       end) df available_group_cols in
    match concat_str df available_group_cols with
    | inr ids => Some (with_column df (mkSeries "household_id" Utf8 ids))
    | inl _ => None
    end.

Definition process_parquet_file (df : DataFrame) : option DataFrame :=
  match keep_columns df with
  | inr df => add_household_id GROUP_BY_COLUMNS (normalize_names df)
  | inl _ => None
  end.

(** *** [create_individual_profiles] *)

(** Lines 174-186: [person_id], the household key followed by the
    member's serial number; the serial column is dropped and the new
    key moved to the front. *)
Definition add_person_id (individual_profile : DataFrame) : perr + DataFrame :=
  if bool_decide ("Sl.No." ∈ columns individual_profile) then
    match concat_str individual_profile ["household_id"; "Sl.No."] with
    | inl e => inl e
    | inr ids =>
        let individual_profile :=
          with_column individual_profile (mkSeries "person_id" Utf8 ids) in
        let individual_profile := drop individual_profile "Sl.No." in
        let new_column_order :=
          "person_id" :: filter (fun col => col ≠ "person_id") (columns individual_profile) in
        select individual_profile new_column_order
    end
  else inr individual_profile.

(** [Series.append]: the column [t] of the second frame put under the
    column [s] of the first.  The names must agree ([ShapeError]
    otherwise) and so must the types ([SchemaError] otherwise), except
    that a column of type [Null] goes under a column of any type, as
    nulls.  The fields of a [Struct] are not told apart. *)
Definition append_series (s t : Series) : perr + Series :=
  if negb (String.eqb (name s) (name t)) then inl ShapeError
  else if bool_decide (dtype_of t = dtype_of s) then
    inr (mkSeries (name s) (dtype_of s) (values s ++ values t))
  else if bool_decide (dtype_of t = Null) then
    inr (mkSeries (name s) (dtype_of s) (values s ++ replicate (length (values t)) None))
  else inl SchemaError.

(** [DataFrame.vstack] on two frames of the same width: the columns
    are appended one after the other, and the first that cannot be
    decides the exception. *)
Fixpoint vstack (a b : DataFrame) : perr + DataFrame :=
  match a, b with
  | s :: a', t :: b' =>
      match append_series s t with
      | inl e => inl e
      | inr st =>
          match vstack a' b' with
          | inl e => inl e
          | inr rest => inr (st :: rest)
          end
      end
  | _, _ => inr []
  end.

(** [pl.concat([a, b], how="vertical")]: the rows of [b] under those of
    [a].  Frames of different widths raise [ShapeError], unless the
    first has no column at all and the result is the second. *)
Definition concat_vertical (a b : DataFrame) : perr + DataFrame :=
  if bool_decide (length a = length b) then vstack a b
  else if bool_decide (length a = 0%nat) then inr b
  else inl ShapeError.

(** [df.with_columns(pl.lit(None).alias(col))] *)
Definition add_null_column (df : DataFrame) (col : string) : DataFrame :=
  with_column df (mkSeries col Null (replicate (height df) None)).

(** One turn of the loop of lines 124-143. *)
Definition harmonize_column (frames : DataFrame * DataFrame) (col : string)
  : DataFrame * DataFrame :=
  let '(combined_df, df) := frames in
  match get_column combined_df col, get_column df col with
  | Some c, Some d =>
      if bool_decide (dtype_of c ≠ dtype_of d) then
        (with_column combined_df (cast_utf8 c), with_column df (cast_utf8 d))
      else (combined_df, df)
  | Some _, None => (combined_df, add_null_column df col)
  | None, Some _ => (add_null_column combined_df col, df)
  | None, None => (combined_df, df)
  end.

(** Lines 121-143. [all_columns] lists the union of the two column
    sets in the order in which the Python set is walked. *)
Definition harmonize (all_columns : list string) (combined_df df : DataFrame)
  : DataFrame * DataFrame :=
  foldl harmonize_column (combined_df, df) all_columns.

(** What the specification asks of the harmonisation for the name [c]:
    a column typed differently on the two sides is cast to strings on
    both, a column missing on one side is added there, filled with
    nulls, and any other column stays as it is. *)
Definition harmonized (a b : DataFrame) (c : string) : option Series * option Series :=
  match get_column a c, get_column b c with
  | Some s, Some t =>
      if bool_decide (dtype_of s <> dtype_of t)
      then (Some (cast_utf8 s), Some (cast_utf8 t)) else (Some s, Some t)
  | Some s, None => (Some s, Some (mkSeries c Null (replicate (height b) None)))
  | None, Some t => (Some (mkSeries c Null (replicate (height a) None)), Some t)
  | None, None => (None, None)
  end.

(** Lines 112-151: the new value of [combined_df] after one more part.
    Line 116 catches [SchemaError] only: any other exception of the
    first concatenation leaves [create_individual_profiles], which no
    caller catches.  Line 149 catches whatever the second one raises. *)
Definition concat_part (all_columns : list string) (combined_df df : DataFrame)
  : perr + DataFrame :=
  match concat_vertical combined_df df with
  | inr both => inr both
  | inl SchemaError =>
      let '(combined_df, df) := harmonize all_columns combined_df df in
      match concat_vertical combined_df df with
      | inr both => inr both
      | inl _ => inr combined_df
      end
  | inl e => inl e
  end.

Definition desired_column_order : list string :=
  ["person_id"; "state"; "district"; "gender"; "age"; "marital_status";
   "education"; "religion"; "social_group"; "household_size";
   "monthly_expenditure"; "principal_activity"; "industry";
   "activity_serial_no"; "time_from"; "time_to"; "multiple_activity";
   "simultaneous_activity"; "is_major_activity"; "activity_code";
   "activity_location"; "payment_status"; "enterprise_type"].

(** Lines 436-446. *)
Definition reorder_columns (df : DataFrame) : perr + DataFrame :=
  select df (final_column_order desired_column_order (columns df)).

(** [map_value], lines 493-499. *)
Definition map_value (mapping_dict : CodeMap) (value : cell) : option string :=
  match value with
  | None => None
  | Some v =>
      let str_value := py_str v in
      match mapping_dict !! Some str_value with
      | Some d => Some d
      | None => Some (unknown_of str_value)
      end
  end.

(** The cell that reaches [map_value] from the column [s]: lines
    481-486 cast a struct column to strings before the mapping. *)
Definition mapped_input (s : Series) (c : cell) : cell :=
  if bool_decide (dtype_of s = Struct) then cast_cell c else c.

(** [pl.col(c).map_elements(f, return_dtype=pl.Utf8).alias(c)] *)
Definition map_elements (f : cell -> option string) (s : Series) : Series :=
  mkSeries (name s) Utf8 (map (fun c => option_map VStr (f c)) (values s)).

(** The [try] block of [map_codes_to_descriptions], lines 479-506. *)
Definition map_codes_body (df : DataFrame) (column_name : string) (mapping_dict : CodeMap)
  : perr + DataFrame :=
  match get_column df column_name with
  | None => inl ColumnNotFoundError
  | Some s =>
      let df := if bool_decide (dtype_of s = Struct)
                then with_column df (cast_utf8 s) else df in
      match get_column df column_name with
      | None => inl ColumnNotFoundError
      | Some s => inr (with_column df (map_elements (map_value mapping_dict) s))
      end
  end.

(** [map_codes_to_descriptions], lines 461-512. *)
Definition map_codes_to_descriptions
    (df : DataFrame) (column_name : string) (mapping_dict : CodeMap) : DataFrame :=
  if negb (bool_decide (column_name ∈ columns df)) then df
  else
    match map_codes_body df column_name mapping_dict with
    | inr df' => df'
    | inl _ => df
    end.

(** [map_district], lines 532-546; [DISTRICT_MAPPING] maps a state code
    to the districts of the state. *)
Definition map_district (DISTRICT_MAPPING : gmap string (gmap string string))
    (state_val district_val : cell) : option string :=
  match state_val, district_val with
  | Some sv, Some dv =>
      let state_str := py_str sv in
      let district_str := py_str dv in
      match DISTRICT_MAPPING !! state_str with
      | Some district_map =>
          match district_map !! district_str with
          | Some d => Some d
          | None => Some ("Unknown District (" +:+ py_str dv +:+ ")")
          end
      | None => Some ("Unknown District (" +:+ py_str dv +:+ ")")
      end
  | _, _ => None
  end.

(** The [try] block of [map_district_codes], lines 530-559. *)
Definition map_district_body (DISTRICT_MAPPING : gmap string (gmap string string))
    (df : DataFrame) : perr + DataFrame :=
  match get_column df "State", get_column df "District" with
  | Some st, Some di =>
      let district_name :=
        mkSeries "district_name" Utf8
          (zip_with (fun s d => option_map VStr (map_district DISTRICT_MAPPING s d))
                    (values st) (values di)) in
      let df := with_column df district_name in
      inr (rename (drop df "District") "district_name" "District")
  | _, _ => inl ColumnNotFoundError
  end.

(** [map_district_codes], lines 514-564. *)
Definition map_district_codes (DISTRICT_MAPPING : gmap string (gmap string string))
    (df : DataFrame) : DataFrame :=
  if negb (bool_decide ("State" ∈ columns df)) || negb (bool_decide ("District" ∈ columns df))
  then df
  else
    match map_district_body DISTRICT_MAPPING df with
    | inr df' => df'
    | inl _ => df
    end.

End WithFormat.

End Polars.

(** ** Sample data *)

Module Samples.

(** The gender map of the specification's examples. *)
Definition GENDER_MAPPING : CodeMap :=
  {[ Some "1" := "male"; Some "2" := "female" ]}.

(** The map written inline for [multiple_activity] and
    [simultaneous_activity] ([src/2019/parse.py], lines 366 and 374). *)
Definition YES_NO_NULL : CodeMap :=
  {[ Some "1" := "yes"; Some "2" := "no"; None := "yes" ]}.

(** The map written inline for [is_major_activity] (line 382). *)
Definition YES_NO : CodeMap :=
  {[ Some "1" := "yes"; Some "2" := "no" ]}.

(** A map one of whose descriptions has the shape of a fallback. *)
Definition CLASHING : CodeMap :=
  {[ Some "9" := "Unknown (3)" ]}.

(** The float [1.0]. *)
Definition one : value := VFloat (Py.FFin false 1 0).

Definition pandas_activity : Pandas.DataFrame :=
  [("person", [Some (VInt 7); Some (VInt 8); Some (VInt 9); Some (VInt 10)]);
   ("multiple_activity",
    [Some one; Some (VFloat Py.FNan); Some (VInt 3); Some (VInt 2)])].

(** The floats [3.0] and [2.0]. *)
Definition three : value := VFloat (Py.FFin false 3 0).
Definition two : value := VFloat (Py.FFin false 2 0).

Definition polars_activity : Polars.DataFrame :=
  [Polars.mkSeries "person" Polars.Int64
     [Some (VInt 7); Some (VInt 8); Some (VInt 9); Some (VInt 10)];
   Polars.mkSeries "multiple_activity" Polars.Float64
     [Some one; None; Some three; Some two]].

(** The same answers held as integers. *)
Definition polars_activity_int : Polars.DataFrame :=
  [Polars.mkSeries "person" Polars.Int64
     [Some (VInt 7); Some (VInt 8); Some (VInt 9); Some (VInt 10)];
   Polars.mkSeries "multiple_activity" Polars.Int64
     [Some (VInt 1); None; Some (VInt 3); Some (VInt 2)]].

(** The household row of the specification's example, with its design
    key in the order sector, state, district, first-stage unit. *)
Definition design_key : list string := ["sector"; "state"; "district"; "fsu"].

Definition polars_household : Polars.DataFrame :=
  [Polars.mkSeries "sector" Polars.Utf8 [Some (VStr "10")];
   Polars.mkSeries "state" Polars.Utf8 [Some (VStr "2")];
   Polars.mkSeries "district" Polars.Utf8 [Some (VStr "07")];
   Polars.mkSeries "fsu" Polars.Utf8 [Some (VStr "003")];
   Polars.mkSeries "Sl.No." Polars.Utf8 [Some (VStr "02")]].

Definition pandas_household : Pandas.DataFrame :=
  [("sector", [Some (VStr "10")]); ("state", [Some (VStr "2")]);
   ("district", [Some (VStr "07")]); ("fsu", [Some (VStr "003")]);
   ("seq", [Some (VStr "02")])].

(** One merged row of the pandas script, with its twelve join keys. *)
Definition pandas_person : Pandas.DataFrame :=
  [("Schedule ID", [Some (VInt 10)]); ("FSU Serial No.", [Some (VInt 41000)]);
   ("Schedule", [Some (VInt 106)]); ("survey year", [Some (VInt 1)]);
   ("Sector", [Some (VInt 1)]); ("NSS-Region", [Some (VInt 72)]);
   ("District", [Some (VInt 7)]); ("Stratum", [Some (VInt 12)]);
   ("Sub-Stratum", [Some (VInt 1)]); ("Sub-Round", [Some (VInt 1)]);
   ("FOD Sub-Region", [Some (VInt 720)]); ("Sample hhld. No.", [Some (VInt 3)]);
   ("Person serial no.", [Some (VInt 2)])].

(** A machine where the logs can be written and a number beyond the
    64-bit integers raises, and one where no log can be written. *)
Definition env_ok : Pandas.Env :=
  Pandas.mkEnv (fun _ => true) (fun _ => true)
    (fun _ _ => inl (Pandas.OverflowError "Python int too large to convert to C long")).

Definition env_no_logs : Pandas.Env :=
  Pandas.mkEnv (fun _ => true) (fun _ => false)
    (fun _ _ => inl (Pandas.OverflowError "Python int too large to convert to C long")).

(** A two-level district map with one state and one district. *)
Definition DISTRICT_MAPPING : gmap string (gmap string string) :=
  {[ "1" := {[ "1" := "Kupwara" ]} ]}.

Definition polars_district : Polars.DataFrame :=
  [Polars.mkSeries "State" Polars.Int64
     [Some (VInt 1); Some (VInt 1); None; Some (VInt 9)];
   Polars.mkSeries "District" Polars.Int64
     [Some (VInt 1); Some (VInt 7); Some (VInt 1); Some (VInt 1)];
   Polars.mkSeries "Age" Polars.Int64
     [Some (VInt 30); Some (VInt 31); Some (VInt 32); Some (VInt 33)]].

(** The same frame with a column that bears the name
    [map_district_codes] uses for its intermediate column. *)
Definition polars_district_clash : Polars.DataFrame :=
  [Polars.mkSeries "State" Polars.Int64 [Some (VInt 1)];
   Polars.mkSeries "District" Polars.Int64 [Some (VInt 1)];
   Polars.mkSeries "district_name" Polars.Utf8 [Some (VStr "as surveyed")]].

(** Two lines of a reference table in the layout of
    [raw/districts.csv], and three merged rows of the pandas script. *)
Definition districts_csv : Pandas.DataFrame :=
  [("Sub-region Code", [Some (VInt 11); Some (VInt 12)]);
   ("District Code", [Some (VInt 1); Some (VInt 2)]);
   ("State Code", [Some (VInt 1); Some (VInt 1)]);
   ("State Name", [Some (VStr "Jammu & Kashmir"); Some (VStr "Jammu & Kashmir")]);
   ("District Name", [Some (VStr "Kupwara"); Some (VStr "Badgam")])].

Definition pandas_district : Pandas.DataFrame :=
  [("FOD Sub-Region", [Some (VInt 11); Some (VInt 99); Some (VStr "012")]);
   ("District", [Some one; Some (VInt 5); Some (VInt 2)]);
   ("NSS-Region", [Some (VInt 11); Some (VInt 12); Some (VInt 13)])].

(** The same rows with a missing district code in the second one. *)
Definition pandas_district_nan : Pandas.DataFrame :=
  [("FOD Sub-Region", [Some (VInt 11); Some (VInt 99); Some (VStr "012")]);
   ("District", [Some one; Some (VFloat Py.FNan); Some (VInt 2)]);
   ("NSS-Region", [Some (VInt 11); Some (VInt 12); Some (VInt 13)])].

(** Two parts of a module as [process_parquet_file] returns them: the
    second lacks the column [X]. *)
Definition part_A : Polars.DataFrame :=
  [Polars.mkSeries "X" Polars.Int64 [Some (VInt 1)];
   Polars.mkSeries "Y" Polars.Int64 [Some (VInt 2)];
   Polars.mkSeries "household_id" Polars.Utf8 [Some (VStr "h1")]].

Definition part_B : Polars.DataFrame :=
  [Polars.mkSeries "Y" Polars.Int64 [Some (VInt 3)];
   Polars.mkSeries "household_id" Polars.Utf8 [Some (VStr "h2")]].

(** Two parts with the same columns in the same order, [Y] typed
    differently. *)
Definition part_C : Polars.DataFrame :=
  [Polars.mkSeries "Y" Polars.Int64 [Some (VInt 2)];
   Polars.mkSeries "X" Polars.Int64 [Some (VInt 1)];
   Polars.mkSeries "household_id" Polars.Utf8 [Some (VStr "h1")]].

Definition part_D : Polars.DataFrame :=
  [Polars.mkSeries "Y" Polars.Utf8 [Some (VStr "3"); Some (VStr "4")];
   Polars.mkSeries "X" Polars.Int64 [Some (VInt 5); Some (VInt 6)];
   Polars.mkSeries "household_id" Polars.Utf8 [Some (VStr "h2"); Some (VStr "h3")]].

(** A part as wide as [part_C], with [Y] typed differently and a column
    [Z] where [part_C] has [X]. *)
Definition part_E : Polars.DataFrame :=
  [Polars.mkSeries "Y" Polars.Utf8 [Some (VStr "3")];
   Polars.mkSeries "Z" Polars.Int64 [Some (VInt 7)];
   Polars.mkSeries "household_id" Polars.Utf8 [Some (VStr "h2")]].

(** Two households whose state and district codes differ but join to
    the same string. *)
Definition polars_two_households : Polars.DataFrame :=
  [Polars.mkSeries "State" Polars.Utf8 [Some (VStr "1"); Some (VStr "12")];
   Polars.mkSeries "District" Polars.Utf8 [Some (VStr "23"); Some (VStr "3")]].

End Samples.

(** * Properties *)

(** ** Python scalars: reading numerals *)

Module PyFacts.
Import Py.

Lemma round_half_even_exact (k d : Z) : 0 < d -> round_half_even (k * d) d = k.
Proof.
  intros Hd. unfold round_half_even.
  rewrite Z.mod_mul by lia. rewrite Z.div_mul by lia.
  destruct (Z.ltb_spec (2 * 0) d); [reflexivity | lia].
Qed.

Lemma ilog2_ratio_unique (n d e : Z) :
  0 < d -> 0 <= e -> d * 2 ^ e <= n < d * 2 ^ (e + 1) -> ilog2_ratio n d = e.
Proof.
  intros Hd He [Hlo Hhi].
  assert (Hpe : 0 < 2 ^ e) by (apply Z.pow_pos_nonneg; lia).
  assert (Hn : 0 < n) by nia.
  pose proof (Z.log2_spec n Hn) as [Hn1 Hn2].
  pose proof (Z.log2_spec d Hd) as [Hd1 Hd2].
  pose proof (Z.log2_nonneg n) as Hln. pose proof (Z.log2_nonneg d) as Hld.
  set (a := Z.log2 n) in *. set (b := Z.log2 d) in *.
  assert (Hab1 : b + e <= a).
  { apply Z.lt_succ_r. apply (Z.pow_lt_mono_r_iff 2); [lia|lia|].
    rewrite Z.pow_add_r by lia. unfold Z.succ. nia. }
  assert (Hab2 : a <= b + e + 1).
  { apply Z.lt_succ_r. apply (Z.pow_lt_mono_r_iff 2); [lia|lia|].
    unfold Z.succ. replace (b + e + 1 + 1) with ((b + 1) + (e + 1)) by lia.
    rewrite Z.pow_add_r by lia.
    assert (0 < 2 ^ (e + 1)) by (apply Z.pow_pos_nonneg; lia). nia. }
  unfold ilog2_ratio. fold a b. unfold ge_pow2.
  destruct (Z.eq_dec (a - b) e) as [E|E].
  - rewrite E. destruct (Z.leb_spec 0 e); [|lia].
    destruct (Z.leb_spec (d * 2 ^ e) n); [reflexivity | lia].
  - assert (E' : a - b = e + 1) by lia. rewrite E'.
    destruct (Z.leb_spec 0 (e + 1)); [|lia].
    destruct (Z.leb_spec (d * 2 ^ (e + 1)) n); lia.
Qed.

(** An integer up to [2^53] is read back exactly. *)
Lemma round64_integer (n D : Z) :
  0 < D -> 0 < n <= 2 ^ 53 ->
  exists m q, round64 (n * D) D = Some (m, q)
    /\ ((0 <= q /\ m * 2 ^ q = n) \/ (q < 0 /\ m = n * 2 ^ (- q))).
Proof.
  intros HD [Hn0 Hn].
  pose proof (Z.log2_spec n Hn0) as [Hl1 Hl2].
  pose proof (Z.log2_nonneg n) as Hl0.
  set (e := Z.log2 n) in *.
  assert (He53 : e <= 53).
  { apply Z.lt_succ_r. apply (Z.pow_lt_mono_r_iff 2); [lia|lia|]. unfold Z.succ.
    change (2 ^ (53 + 1)) with (2 * 2 ^ 53). lia. }
  assert (Hlog : ilog2_ratio (n * D) D = e).
  { apply ilog2_ratio_unique; [lia|lia|]. unfold Z.succ in Hl2. nia. }
  unfold round64.
  destruct (Z.eqb_spec (n * D) 0) as [E0|_]; [nia|].
  rewrite Hlog. rewrite Z.max_l by lia.
  destruct (Z.leb_spec 0 (e - 52)) as [Hq|Hq].
  - assert (Hcase : e = 52 \/ e = 53) by lia. destruct Hcase as [-> | ->].
    + change (52 - 52) with 0. change (2 ^ 0) with 1.
      replace (D * 1) with D by lia. rewrite round_half_even_exact by lia.
      destruct (Z.eqb_spec n (2 ^ 53)) as [E|_].
      { change (Z.succ 52) with 53 in Hl2. lia. }
      change (971 <? 0) with false. cbv iota.
      exists n, 0. split; [reflexivity|]. left. split; [lia|]. change (2 ^ 0) with 1. lia.
    + assert (En : n = 2 ^ 53) by lia. subst n.
      change (53 - 52) with 1. change (2 ^ 1) with 2.
      replace (2 ^ 53 * D) with (2 ^ 52 * (D * 2)) by (change (2 ^ 53) with (2 ^ 52 * 2); lia).
      rewrite round_half_even_exact by lia.
      change (2 ^ 52 =? 2 ^ 53) with false. cbv iota.
      change (971 <? 1 + 1) with false. change (971 <? 1) with false. cbv iota.
      exists (2 ^ 52), 1. split; [reflexivity|]. left. split; [lia|reflexivity].
  - assert (Hp : 0 < 2 ^ (- (e - 52))) by (apply Z.pow_pos_nonneg; lia).
    replace (n * D * 2 ^ (- (e - 52))) with (n * 2 ^ (- (e - 52)) * D) by lia.
    rewrite round_half_even_exact by lia.
    assert (Hlt : n * 2 ^ (- (e - 52)) < 2 ^ 53).
    { replace (2 ^ 53) with (2 ^ (Z.succ e) * 2 ^ (- (e - 52))).
      - apply Z.mul_lt_mono_pos_r; lia.
      - rewrite <- Z.pow_add_r by lia. f_equal. lia. }
    destruct (Z.eqb_spec (n * 2 ^ (- (e - 52))) (2 ^ 53)) as [E|_]; [lia|].
    destruct (Z.ltb_spec 971 (e - 52)); [lia|].
    eexists _, _. split; [reflexivity|]. right. split; [lia|reflexivity].
Qed.

Lemma float_of_ratio_integer (neg : bool) (n D : Z) :
  0 < D -> 0 <= n <= 2 ^ 53 ->
  exists f, float_of_ratio neg (n * D) D = f
    /\ is_integer f = true
    /\ int_of_float f = Some (if neg then - n else n).
Proof.
  intros HD [Hn0 Hn]. unfold float_of_ratio.
  destruct (Z.eq_dec n 0) as [->|Hne].
  - simpl. eexists. split; [reflexivity|]. split; [reflexivity|]. now destruct neg.
  - destruct (round64_integer n D HD) as (m & q & -> & Hmq); [lia|].
    eexists. split; [reflexivity|]. unfold is_integer, int_of_float.
    destruct Hmq as [[Hq Hm] | [Hq Hm]].
    + destruct (Z.leb_spec 0 q); [|lia]. split; [reflexivity|]. now rewrite Hm.
    + destruct (Z.leb_spec 0 q); [lia|].
      assert (Hp : 0 < 2 ^ (- q)) by (apply Z.pow_pos_nonneg; lia).
      subst m. rewrite Z.mod_mul by lia. rewrite Z.div_mul by lia.
      split; reflexivity.
Qed.

(** *** Reading a plain numeral *)

Lemma digit_char (c : ascii) :
  is_digit c = true ->
  is_space c = false /\ Ascii.eqb c "_" = false /\ lower c = c
  /\ Ascii.eqb c "i" = false /\ Ascii.eqb c "n" = false
  /\ (forall r, scan_sign (String c r) = (false, String c r))
  /\ Ascii.eqb c "." = false.
Proof.
  destruct c as [[] [] [] [] [] [] [] []]; intros H; vm_compute in H;
    try discriminate H; vm_compute; repeat split.
Qed.

Lemma plain_char_facts (c : ascii) :
  plain_char c = true -> is_space c = false /\ Ascii.eqb c "_" = false.
Proof.
  destruct c as [[] [] [] [] [] [] [] []]; intros H; vm_compute in H;
    try discriminate H; vm_compute; repeat split.
Qed.

Lemma plain_app (a b : string) : plain (a +:+ b) = plain a && plain b.
Proof.
  induction a as [|c a IH]; simpl; [reflexivity|]. rewrite IH. apply andb_assoc.
Qed.

Lemma all_digits_plain (s : string) : all_digits s = true -> plain s = true.
Proof.
  induction s as [|c s IH]; simpl; [reflexivity|].
  intros H. apply andb_prop in H as [H1 H2]. unfold plain_char. rewrite H1. simpl. auto.
Qed.

Lemma all_zeros_digits (s : string) : all_zeros s = true -> all_digits s = true.
Proof.
  induction s as [|c s IH]; simpl; [reflexivity|].
  intros H. apply andb_prop in H as [H1 H2]. apply Ascii.eqb_eq in H1. subst c.
  simpl. auto.
Qed.

Lemma rstrip_plain (s : string) : plain s = true -> rstrip s = s.
Proof.
  induction s as [|c s IH]; simpl; [reflexivity|].
  intros H. apply andb_prop in H as [H1 H2]. rewrite (IH H2).
  destruct (plain_char_facts c H1) as [Hs _]. rewrite Hs. now destruct s.
Qed.

Lemma strip_plain (s : string) : plain s = true -> strip s = s.
Proof.
  intros H. unfold strip.
  assert (Hl : lstrip s = s).
  { destruct s as [|c s]; [reflexivity|]. simpl in *.
    apply andb_prop in H as [H1 _]. destruct (plain_char_facts c H1) as [Hs _].
    now rewrite Hs. }
  rewrite Hl. now apply rstrip_plain.
Qed.

Lemma strip_underscores_plain (s : string) (prev : bool) :
  plain s = true -> strip_underscores prev s = Some s.
Proof.
  revert prev. induction s as [|c s IH]; intros prev H; simpl; [reflexivity|].
  simpl in H. apply andb_prop in H as [H1 H2].
  destruct (plain_char_facts c H1) as [_ Hu]. rewrite Hu. now rewrite (IH _ H2).
Qed.

Lemma scan_digits_app (ds r : string) (acc cnt : Z) :
  all_digits ds = true ->
  scan_digits (ds +:+ r) acc cnt
  = scan_digits r (digits_value ds acc) (cnt + Z.of_nat (String.length ds)).
Proof.
  revert acc cnt. induction ds as [|c ds IH]; intros acc cnt H.
  - simpl. f_equal. lia.
  - simpl in H. apply andb_prop in H as [H1 H2]. unfold is_digit in H1.
    change (String c ds +:+ r) with (String c (ds +:+ r)).
    cbn [scan_digits digits_value String.length].
    destruct (digit_of c) as [d|]; [|discriminate].
    rewrite (IH _ _ H2). f_equal. lia.
Qed.

Lemma digits_value_zeros (zs : string) (acc : Z) :
  all_zeros zs = true -> digits_value zs acc = acc * 10 ^ Z.of_nat (String.length zs).
Proof.
  revert acc. induction zs as [|c zs IH]; intros acc H.
  - simpl. lia.
  - simpl in H. apply andb_prop in H as [H1 H2]. apply Ascii.eqb_eq in H1. subst c.
    change (digits_value (String "0" zs) acc) with (digits_value zs (10 * acc + 0)).
    cbn [String.length].
    rewrite (IH _ H2). rewrite Nat2Z.inj_succ, Z.pow_succ_r by lia. lia.
Qed.

Lemma scan_digits_end (ds : string) (acc cnt : Z) :
  all_digits ds = true ->
  scan_digits ds acc cnt
  = (digits_value ds acc, cnt + Z.of_nat (String.length ds), EmptyString).
Proof.
  intros H. pose proof (scan_digits_app ds EmptyString acc cnt H) as E.
  assert (Hnil : forall s, s +:+ EmptyString = s).
  { induction s as [|c s IH]; [reflexivity|].
    change (String c s +:+ EmptyString) with (String c (s +:+ EmptyString)).
    now rewrite IH. }
  now rewrite Hnil in E.
Qed.

(** [float] of a numeral with a sign, digits, a dot and zeros. *)
Lemma float_of_string_decimal (neg : bool) (ds zs : string) :
  all_digits ds = true -> ds <> EmptyString -> all_zeros zs = true ->
  exists D, 0 < D
    /\ float_of_string ((if neg then "-" else "") +:+ ds +:+ "." +:+ zs)
       = Some (float_of_ratio neg (digits_value ds 0 * D) D).
Proof.
  intros Hds Hne Hzs.
  destruct ds as [|c ds']; [contradiction|].
  pose proof Hds as Hds0. simpl in Hds0. apply andb_prop in Hds0 as [Hc Hds'].
  destruct (digit_char c Hc) as (Hsp & Hus & Hlow & Hi & Hn & Hsign & Hdot).
  set (ds := String c ds') in *.
  set (u := ds +:+ "." +:+ zs).
  assert (Hplain : plain ((if neg then "-" else "") +:+ u) = true).
  { rewrite plain_app. apply andb_true_intro. split; [now destruct neg|].
    unfold u. rewrite plain_app, (all_digits_plain _ Hds). simpl.
    apply all_digits_plain. now apply all_zeros_digits. }
  unfold float_of_string.
  rewrite (strip_plain _ Hplain), (strip_underscores_plain _ _ Hplain).
  assert (Hsg : scan_sign ((if neg then "-" else "") +:+ u) = (neg, u)).
  { destruct neg; [reflexivity|]. apply Hsign. }
  rewrite Hsg.
  assert (Hspecial : (String.eqb (lower_string u) "inf"
                      || String.eqb (lower_string u) "infinity") = false
                     /\ String.eqb (lower_string u) "nan" = false).
  { change u with (String c (ds' +:+ "." +:+ zs)).
    cbn [lower_string String.eqb]. rewrite Hlow, Hi, Hn. split; reflexivity. }
  destruct Hspecial as [-> ->].
  unfold parse_number. unfold u.
  rewrite (scan_digits_app ds _ 0 0 Hds).
  change ("." +:+ zs) with (String "." zs).
  cbn [scan_digits]. change (digit_of ".") with (@None Z). cbv iota.
  rewrite (scan_digits_end zs _ 0 (all_zeros_digits _ Hzs)).
  rewrite (digits_value_zeros zs _ Hzs).
  set (k := Z.of_nat (String.length zs)).
  assert (Hk : 0 <= k) by (unfold k; lia).
  assert (Hlen : 0 < Z.of_nat (String.length ds)) by (unfold ds; simpl; lia).
  destruct (Z.ltb_spec 0 (0 + Z.of_nat (String.length ds) + (0 + k))); [|lia].
  cbn [scan_exponent]. unfold ratio_of_decimal.
  destruct (Z.leb_spec 0 (0 - (0 + k))) as [Hle|Hgt].
  - assert (k = 0) by lia. exists 1. split; [lia|].
    replace (0 - (0 + k)) with 0 by lia. replace k with 0 by lia.
    simpl (10 ^ 0). do 2 f_equal. lia.
  - exists (10 ^ k). split; [apply Z.pow_pos_nonneg; lia|].
    replace (- (0 - (0 + k))) with k by lia. reflexivity.
Qed.

Lemma has_char_app (c : ascii) (a b : string) :
  has_char c (a +:+ b) = has_char c a || has_char c b.
Proof.
  induction a as [|x a IH]; [reflexivity|].
  change (String x a +:+ b) with (String x (a +:+ b)). simpl.
  rewrite IH. apply orb_assoc.
Qed.

Lemma digit_of_range (c : ascii) (d : Z) : digit_of c = Some d -> 0 <= d <= 9.
Proof.
  unfold digit_of.
  destruct (Z.leb_spec 48 (Z.of_nat (nat_of_ascii c)));
    destruct (Z.leb_spec (Z.of_nat (nat_of_ascii c)) 57); simpl; intros [= <-]; lia.
Qed.

Lemma digits_value_nonneg (s : string) (acc : Z) : 0 <= acc -> 0 <= digits_value s acc.
Proof.
  revert acc. induction s as [|c s IH]; intros acc H; simpl; [exact H|].
  destruct (digit_of c) as [d|] eqn:E; [|exact H].
  apply IH. pose proof (digit_of_range _ _ E). lia.
Qed.

(** The characters of [str(i)] for an integer [i]. *)
Lemma has_char_uint (c : ascii) (d : Decimal.uint) :
  has_char c (NilEmpty.string_of_uint d) = true -> is_digit c = true.
Proof.
  induction d; cbn [NilEmpty.string_of_uint has_char]; [discriminate| | | | | | | | | |];
    (intros H; apply orb_prop in H as [H|H]; [|now apply IHd]);
    apply Ascii.eqb_eq in H; subst c; reflexivity.
Qed.

Lemma has_char_str_int (c : ascii) (z : Z) :
  has_char c (str_int z) = true -> is_digit c = true \/ c = "-"%char.
Proof.
  assert (Hu : forall d, has_char c (NilZero.string_of_uint d) = true -> is_digit c = true).
  { intros d. unfold NilZero.string_of_uint.
    destruct d; try apply has_char_uint.
    cbn [has_char]. intros H. apply orb_prop in H as [H|H]; [|discriminate].
    apply Ascii.eqb_eq in H. subst c. reflexivity. }
  unfold str_int, NilZero.string_of_int.
  destruct (Z.to_int z) as [d|d].
  - intros H. left. now apply (Hu d).
  - cbn [has_char]. intros H. apply orb_prop in H as [H|H].
    + apply Ascii.eqb_eq in H. now right.
    + left. now apply (Hu d).
Qed.

Lemma str_int_no_dot (z : Z) : has_char "." (str_int z) = false.
Proof.
  destruct (has_char "." (str_int z)) eqn:E; [|reflexivity].
  apply has_char_str_int in E as [E|E]; discriminate.
Qed.

Lemma str_int_not_nan (z : Z) : str_int z <> "nan".
Proof.
  intros E. assert (H : has_char "n" (str_int z) = true) by (rewrite E; reflexivity).
  apply has_char_str_int in H as [H|H]; discriminate.
Qed.
End PyFacts.

(** ** Frames: reading and writing columns *)

Module PandasFacts.
Import Pandas.

Lemma in_columns_get (df : DataFrame) (n : string) :
  in_columns n df = true <-> is_Some (get_col df n).
Proof.
  unfold in_columns, columns.
  induction df as [|[n' vs] df IH]; simpl.
  - split; [discriminate | intros [? ?]; discriminate].
  - rewrite (String.eqb_sym n n').
    destruct (String.eqb n' n); simpl; [split; eauto | exact IH].
Qed.

Lemma get_set_eq (df : DataFrame) (n : string) (vs : list cell) :
  get_col (set_col df n vs) n = Some vs.
Proof.
  induction df as [|[n' old] df IH]; simpl.
  - now rewrite String.eqb_refl.
  - destruct (String.eqb n' n) eqn:E; simpl; rewrite E; [reflexivity | exact IH].
Qed.

Lemma get_set_ne (df : DataFrame) (n n' : string) (vs : list cell) :
  n <> n' -> get_col (set_col df n vs) n' = get_col df n'.
Proof.
  intros Hne.
  induction df as [|[k old] df IH]; simpl.
  - apply String.eqb_neq in Hne. now rewrite Hne.
  - destruct (String.eqb k n) eqn:E; simpl.
    + apply String.eqb_eq in E. subst k.
      apply String.eqb_neq in Hne. now rewrite Hne.
    + destruct (String.eqb k n'); [reflexivity | exact IH].
Qed.

Lemma columns_set_present (df : DataFrame) (n : string) (vs : list cell) :
  is_Some (get_col df n) -> columns (set_col df n vs) = columns df.
Proof.
  unfold columns.
  induction df as [|[k old] df IH]; simpl; intros H.
  - destruct H; discriminate.
  - destruct (String.eqb k n) eqn:E; simpl; [reflexivity | f_equal; auto].
Qed.

(** What [map_codes_to_descriptions] leaves in a frame that has the
    column. *)
Lemma pandas_map_codes_unfold (df : DataFrame) (col : string) (m : CodeMap) (vs : list cell) :
  get_col df col = Some vs ->
  map_codes_to_descriptions df col m
  = set_col df col (map (fun val => Some (VStr (clean_and_map m val))) vs).
Proof.
  intros H. unfold map_codes_to_descriptions.
  assert (Hin : in_columns col df = true) by (apply in_columns_get; eauto).
  rewrite Hin. simpl.
  unfold try_return_df, map_codes_body, bind, read_df, assign. now rewrite H.
Qed.

Lemma map_codes_absent (df : DataFrame) (col : string) (m : CodeMap) :
  get_col df col = None -> map_codes_to_descriptions df col m = df.
Proof.
  intros H. unfold map_codes_to_descriptions.
  destruct (in_columns col df) eqn:E; [|reflexivity].
  apply in_columns_get in E. destruct E as [? E]. congruence.
Qed.

End PandasFacts.

Module PolarsFacts.
Import Polars.

Lemma get_column_name (df : DataFrame) (col : string) (s : Series) :
  get_column df col = Some s -> name s = col.
Proof.
  induction df as [|t df IH]; simpl; [discriminate|].
  destruct (String.eqb (name t) col) eqn:E; [|exact IH].
  intros [= <-]. now apply String.eqb_eq.
Qed.

Lemma get_column_in (df : DataFrame) (col : string) :
  col ∈ columns df <-> is_Some (get_column df col).
Proof.
  unfold columns.
  induction df as [|t df IH]; simpl.
  - split; [intros H; inversion H | intros [? ?]; discriminate].
  - rewrite elem_of_cons.
    destruct (String.eqb (name t) col) eqn:E.
    + apply String.eqb_eq in E. split; eauto.
    + apply String.eqb_neq in E. rewrite <- IH. split; [intros [?|?]; congruence | auto].
Qed.

Lemma get_with_eq (df : DataFrame) (s : Series) :
  get_column (with_column df s) (name s) = Some s.
Proof.
  induction df as [|t df IH]; simpl.
  - now rewrite String.eqb_refl.
  - destruct (String.eqb (name t) (name s)) eqn:E; simpl.
    + now rewrite String.eqb_refl.
    + now rewrite E.
Qed.

Lemma get_with_ne (df : DataFrame) (s : Series) (col : string) :
  name s <> col -> get_column (with_column df s) col = get_column df col.
Proof.
  intros Hne.
  induction df as [|t df IH]; simpl.
  - apply String.eqb_neq in Hne. now rewrite Hne.
  - destruct (String.eqb (name t) (name s)) eqn:E; simpl.
    + apply String.eqb_eq in E. apply String.eqb_neq in Hne.
      rewrite Hne. now rewrite E, Hne.
    + destruct (String.eqb (name t) col); [reflexivity | exact IH].
Qed.

Lemma columns_with_present (df : DataFrame) (s : Series) :
  name s ∈ columns df -> columns (with_column df s) = columns df.
Proof.
  unfold columns.
  induction df as [|t df IH]; simpl; intros H.
  - inversion H.
  - destruct (String.eqb (name t) (name s)) eqn:E; simpl.
    + apply String.eqb_eq in E. now rewrite E.
    + f_equal. apply IH. apply elem_of_cons in H as [H|H]; [|exact H].
      apply String.eqb_neq in E. congruence.
Qed.

Section WithFormat.
Variable fmt_float : Py.float -> string.

Lemma polars_map_codes_unfold (df : DataFrame) (col : string) (m : CodeMap) (s : Series) :
  get_column df col = Some s ->
  map_codes_to_descriptions fmt_float df col m
  = with_column df
      (mkSeries col Utf8
         (map (fun c => option_map VStr (map_value m (mapped_input fmt_float s c))) (values s))).
Proof.
  intros H. unfold map_codes_to_descriptions.
  assert (Hin : col ∈ columns df) by (apply get_column_in; eauto).
  rewrite bool_decide_eq_true_2 by exact Hin. simpl.
  unfold map_codes_body. rewrite H.
  pose proof (get_column_name _ _ _ H) as Hn.
  unfold mapped_input.
  destruct (bool_decide (dtype_of s = Struct)) eqn:E.
  - replace col with (name (cast_utf8 fmt_float s)) at 1 by (simpl; exact Hn).
    rewrite get_with_eq. unfold map_elements. simpl. rewrite Hn.
    rewrite map_map.
    assert (Hw : forall df (a b : Series), name a = name b ->
              with_column (with_column df a) b = with_column df b).
    { clear. intros df a b Hab. induction df as [|t df IH]; simpl.
      - rewrite Hab, String.eqb_refl. reflexivity.
      - destruct (String.eqb (name t) (name a)) eqn:E1; simpl.
        + rewrite Hab, String.eqb_refl. rewrite <- Hab, E1. reflexivity.
        + rewrite <- Hab, E1. f_equal. exact IH. }
    apply Hw. simpl. congruence.
  - rewrite H. unfold map_elements. now rewrite Hn.
Qed.

(** The cell a mapped column holds at row [i]. *)
Lemma mapped_cell (df : DataFrame) (col : string) (m : CodeMap) (s : Series)
    (i : nat) (c : cell) :
  get_column df col = Some s ->
  values s !! i = Some c ->
  exists s',
    get_column (map_codes_to_descriptions fmt_float df col m) col = Some s'
    /\ dtype_of s' = Utf8
    /\ values s' !! i = Some (option_map VStr (map_value m (mapped_input fmt_float s c))).
Proof.
  intros Hs Hc. rewrite (polars_map_codes_unfold _ _ _ _ Hs).
  eexists. split.
  - match goal with |- get_column (with_column _ ?t) _ = _ =>
      change col with (name t) at 2 end.
    apply get_with_eq.
  - split; [reflexivity|]. simpl. now rewrite list_lookup_fmap, Hc.
Qed.

End WithFormat.

End PolarsFacts.

Lemma pandas_mapped_cell (df : Pandas.DataFrame) (col : string) (m : CodeMap)
    (vs : list cell) (i : nat) (c : cell) :
  Pandas.get_col df col = Some vs ->
  vs !! i = Some c ->
  exists vs',
    Pandas.get_col (Pandas.map_codes_to_descriptions df col m) col = Some vs'
    /\ vs' !! i = Some (Some (VStr (Pandas.clean_and_map m c))).
Proof.
  intros Hs Hc. rewrite (PandasFacts.pandas_map_codes_unfold _ _ _ _ Hs).
  eexists. split; [apply PandasFacts.get_set_eq|].
  now rewrite list_lookup_fmap, Hc.
Qed.


(** ** Missing values *)

(** C2, as found in the code: a missing cell of the pandas pipeline
    becomes the literal "Unknown" whatever the map holds, and in the
    polars pipeline a null cell of a column mapped with a map that has
    no entry for the null key stays null. *)
Theorem C2_missing_cells (m : CodeMap) :
  (forall df col vs i c,
      Pandas.get_col df col = Some vs -> vs !! i = Some c -> pd_isna c = true ->
      exists vs',
        Pandas.get_col (Pandas.map_codes_to_descriptions df col m) col = Some vs'
        /\ vs' !! i = Some (Some (VStr "Unknown")))
  /\ (forall fmt df col s i,
      m !! None = None ->
      Polars.get_column df col = Some s -> Polars.values s !! i = Some None ->
      exists s',
        Polars.get_column (Polars.map_codes_to_descriptions fmt df col m) col = Some s'
        /\ Polars.values s' !! i = Some None).
Proof.
  split.
  - intros df col vs i c Hs Hc Hna.
    destruct (pandas_mapped_cell df col m vs i c Hs Hc) as (vs' & H1 & H2).
    exists vs'. split; [exact H1|]. rewrite H2. do 3 f_equal.
    unfold Pandas.clean_and_map. destruct c as [v|]; [now rewrite Hna | reflexivity].
  - intros fmt df col s i _ Hs Hc.
    destruct (PolarsFacts.mapped_cell fmt df col m s i None Hs Hc) as (s' & H1 & _ & H2).
    exists s'. split; [exact H1|]. rewrite H2.
    unfold Polars.mapped_input. now destruct (bool_decide _).
Qed.

Lemma C2_missing_cells_witness :
  (exists vs',
      Pandas.get_col
        (Pandas.map_codes_to_descriptions Samples.pandas_activity "multiple_activity"
           Samples.YES_NO) "multiple_activity" = Some vs'
      /\ vs' !! 1%nat = Some (Some (VStr "Unknown")))
  /\ (exists s',
      Polars.get_column
        (Polars.map_codes_to_descriptions Py.str_float Samples.polars_activity
           "multiple_activity" Samples.YES_NO) "multiple_activity" = Some s'
      /\ Polars.values s' !! 1%nat = Some None).
Proof.
  split.
  - eapply (proj1 (C2_missing_cells Samples.YES_NO) Samples.pandas_activity
             "multiple_activity" _ 1%nat (Some (VFloat Py.FNan)));
      reflexivity.
  - eapply (proj2 (C2_missing_cells Samples.YES_NO) Py.str_float Samples.polars_activity
             "multiple_activity" _ 1%nat); reflexivity.
Defined.

(** C2 as stated fails: with the map [{"1": "yes", "2": "no", None: "yes"}]
    a null cell is mapped to null by the polars pipeline and to
    "Unknown" by the pandas pipeline, never to the entry of the null
    key; and with a map without that entry the polars pipeline yields
    null, not "Unknown". *)
Lemma C2_counterexample :
  Samples.YES_NO_NULL !! None = Some "yes"
  /\ Polars.map_value Samples.YES_NO_NULL None <> Some "yes"
  /\ Pandas.clean_and_map Samples.YES_NO_NULL None <> "yes"
  /\ Polars.map_codes_to_descriptions Py.str_float Samples.polars_activity
       "multiple_activity" Samples.YES_NO_NULL
     = [Polars.mkSeries "person" Polars.Int64
          [Some (VInt 7); Some (VInt 8); Some (VInt 9); Some (VInt 10)];
        Polars.mkSeries "multiple_activity" Polars.Utf8
          [Some (VStr "Unknown (1.0)"); None; Some (VStr "Unknown (3.0)");
           Some (VStr "Unknown (2.0)")]]
  /\ Samples.YES_NO !! None = None
  /\ Polars.map_value Samples.YES_NO None <> Some "Unknown".
Proof.
  repeat split; try discriminate; vm_compute; reflexivity.
Qed.

(** ** Codes that the map holds *)

(** C9, as found in the code: when [c] is a key of the code map, every
    non-missing cell whose lookup key is [c] is replaced by the map's
    description of [c].  In the pandas pipeline the lookup key is the
    normalised rendering of the cell; in the polars pipeline it is the
    rendering [str(value)] as it stands, with no normalisation. *)
Theorem C9_present_codes (m : CodeMap) (c d : string) :
  m !! Some c = Some d ->
  (forall df col vs i v,
      Pandas.get_col df col = Some vs -> vs !! i = Some (Some v) ->
      pd_isna (Some v) = false -> Pandas.normalize (py_str v) = c ->
      exists vs',
        Pandas.get_col (Pandas.map_codes_to_descriptions df col m) col = Some vs'
        /\ vs' !! i = Some (Some (VStr d)))
  /\ (forall fmt df col s i v v',
      Polars.get_column df col = Some s -> Polars.values s !! i = Some (Some v) ->
      Polars.mapped_input fmt s (Some v) = Some v' -> py_str v' = c ->
      exists s',
        Polars.get_column (Polars.map_codes_to_descriptions fmt df col m) col = Some s'
        /\ Polars.values s' !! i = Some (Some (VStr d))).
Proof.
  intros Hm. split.
  - intros df col vs i v Hs Hc Hna Hk.
    destruct (pandas_mapped_cell df col m vs i _ Hs Hc) as (vs' & H1 & H2).
    exists vs'. split; [exact H1|]. rewrite H2.
    unfold Pandas.clean_and_map. rewrite Hna, Hk, Hm. reflexivity.
  - intros fmt df col s i v v' Hs Hc Hv Hk.
    destruct (PolarsFacts.mapped_cell fmt df col m s i _ Hs Hc) as (s' & H1 & _ & H2).
    exists s'. split; [exact H1|]. rewrite H2, Hv.
    unfold Polars.map_value. rewrite Hk, Hm. reflexivity.
Qed.

Lemma C9_present_codes_witness :
  (exists vs',
      Pandas.get_col
        (Pandas.map_codes_to_descriptions Samples.pandas_activity "multiple_activity"
           Samples.YES_NO) "multiple_activity" = Some vs'
      /\ vs' !! 0%nat = Some (Some (VStr "yes")))
  /\ (exists s',
      Polars.get_column
        (Polars.map_codes_to_descriptions Py.str_float Samples.polars_activity_int
           "multiple_activity" Samples.YES_NO) "multiple_activity" = Some s'
      /\ Polars.values s' !! 3%nat = Some (Some (VStr "no"))).
Proof.
  split.
  - eapply (proj1 (C9_present_codes Samples.YES_NO "1" "yes" eq_refl)
              Samples.pandas_activity "multiple_activity" _ 0%nat Samples.one);
      reflexivity.
  - eapply (proj2 (C9_present_codes Samples.YES_NO "2" "no" eq_refl)
              Py.str_float Samples.polars_activity_int "multiple_activity" _ 3%nat
              (VInt 2));
      reflexivity.
Defined.

(** C9 as stated fails in the polars pipeline: the float [2.0] of a
    [Float64] column has the normalised string form "2", a key of the
    map [{"1": "yes", "2": "no"}], but [map_value] looks up "2.0" and
    answers "Unknown (2.0)"; the pandas pipeline answers "no". *)
Lemma C9_counterexample :
  Samples.YES_NO !! Some "2" = Some "no"
  /\ py_str Samples.two = "2.0"
  /\ Pandas.normalize (py_str Samples.two) = "2"
  /\ Pandas.clean_and_map Samples.YES_NO (Some Samples.two) = "no"
  /\ Polars.get_column
       (Polars.map_codes_to_descriptions Py.str_float Samples.polars_activity
          "multiple_activity" Samples.YES_NO) "multiple_activity"
     = Some (Polars.mkSeries "multiple_activity" Polars.Utf8
               [Some (VStr "Unknown (1.0)"); None; Some (VStr "Unknown (3.0)");
                Some (VStr "Unknown (2.0)")])
  /\ Some (VStr "Unknown (2.0)") <> Some (VStr "no").
Proof.
  repeat split; try discriminate; vm_compute; reflexivity.
Qed.

(** ** Codes that the map lacks *)

(** C4, as found in the code: a non-missing cell whose lookup key is not
    in the map is replaced by "Unknown (", its raw rendering, ")"; this
    differs from every description of the map that does not itself
    begin with "Unknown (". *)
Theorem C4_absent_codes (m : CodeMap) :
  (forall df col vs i v,
      Pandas.get_col df col = Some vs -> vs !! i = Some (Some v) ->
      pd_isna (Some v) = false -> m !! Some (Pandas.normalize (py_str v)) = None ->
      exists vs',
        Pandas.get_col (Pandas.map_codes_to_descriptions df col m) col = Some vs'
        /\ vs' !! i = Some (Some (VStr ("Unknown (" +:+ py_str v +:+ ")")))
        /\ forall k d, m !! k = Some d -> String.prefix "Unknown (" d = false ->
                       d <> "Unknown (" +:+ py_str v +:+ ")")
  /\ (forall fmt df col s i v v',
      Polars.get_column df col = Some s -> Polars.values s !! i = Some (Some v) ->
      Polars.mapped_input fmt s (Some v) = Some v' -> m !! Some (py_str v') = None ->
      exists s',
        Polars.get_column (Polars.map_codes_to_descriptions fmt df col m) col = Some s'
        /\ Polars.values s' !! i = Some (Some (VStr ("Unknown (" +:+ py_str v' +:+ ")")))
        /\ forall k d, m !! k = Some d -> String.prefix "Unknown (" d = false ->
                       d <> "Unknown (" +:+ py_str v' +:+ ")").
Proof.
  assert (Hp : forall raw d, String.prefix "Unknown (" d = false ->
                 d <> "Unknown (" +:+ raw +:+ ")").
  { intros raw d Hd ->. simpl in Hd.
    match type of Hd with String.prefix _ ?t = _ => destruct t end; discriminate. }
  split.
  - intros df col vs i v Hs Hc Hna Hk.
    destruct (pandas_mapped_cell df col m vs i _ Hs Hc) as (vs' & H1 & H2).
    exists vs'. split; [exact H1|]. split; [|intros; now apply Hp].
    rewrite H2. unfold Pandas.clean_and_map. rewrite Hna, Hk. reflexivity.
  - intros fmt df col s i v v' Hs Hc Hv Hk.
    destruct (PolarsFacts.mapped_cell fmt df col m s i _ Hs Hc) as (s' & H1 & _ & H2).
    exists s'. split; [exact H1|]. split; [|intros; now apply Hp].
    rewrite H2, Hv. unfold Polars.map_value. rewrite Hk. reflexivity.
Qed.

Lemma C4_absent_codes_witness :
  (exists vs',
      Pandas.get_col
        (Pandas.map_codes_to_descriptions Samples.pandas_activity "multiple_activity"
           Samples.YES_NO) "multiple_activity" = Some vs'
      /\ vs' !! 2%nat = Some (Some (VStr "Unknown (3)"))
      /\ forall k d, Samples.YES_NO !! k = Some d ->
                     String.prefix "Unknown (" d = false -> d <> "Unknown (3)")
  /\ (exists s',
      Polars.get_column
        (Polars.map_codes_to_descriptions Py.str_float Samples.polars_activity
           "multiple_activity" Samples.YES_NO) "multiple_activity" = Some s'
      /\ Polars.values s' !! 0%nat = Some (Some (VStr "Unknown (1.0)"))
      /\ forall k d, Samples.YES_NO !! k = Some d ->
                     String.prefix "Unknown (" d = false -> d <> "Unknown (1.0)").
Proof.
  split.
  - eapply (proj1 (C4_absent_codes Samples.YES_NO)
              Samples.pandas_activity "multiple_activity" _ 2%nat (VInt 3));
      reflexivity.
  - eapply (proj2 (C4_absent_codes Samples.YES_NO)
              Py.str_float Samples.polars_activity "multiple_activity" _ 0%nat
              Samples.one Samples.one);
      reflexivity.
Defined.

(** C4 as stated fails: the code 3 is not a key of the map
    [{"9": "Unknown (3)"}], and both pipelines map it to "Unknown (3)",
    which is the description the map gives to the code 9. *)
Lemma C4_counterexample :
  Samples.CLASHING !! Some "3" = None
  /\ Samples.CLASHING !! Some "9" = Some "Unknown (3)"
  /\ Pandas.clean_and_map Samples.CLASHING (Some (VInt 3)) = "Unknown (3)"
  /\ Polars.map_value Samples.CLASHING (Some (VInt 3)) = Some "Unknown (3)"
  /\ ~ (forall k d, Samples.CLASHING !! k = Some d ->
          d <> Pandas.clean_and_map Samples.CLASHING (Some (VInt 3))).
Proof.
  repeat split; try (vm_compute; reflexivity).
  intros H. apply (H (Some "9") "Unknown (3)"); vm_compute; reflexivity.
Qed.

(** ** The type of a mapped column *)

(** C10: after [map_codes_to_descriptions] on a column the frame has,
    the pandas column holds a string in every row, missing ones
    included, and the polars column has type [Utf8] and holds in every
    row a string or null; the number of rows is kept. *)
Theorem C10_mapped_column_is_text (m : CodeMap) :
  (forall df col vs,
      Pandas.get_col df col = Some vs ->
      exists vs',
        Pandas.get_col (Pandas.map_codes_to_descriptions df col m) col = Some vs'
        /\ length vs' = length vs
        /\ Forall (fun c : cell => exists t, c = Some (VStr t)) vs')
  /\ (forall fmt df col s,
      Polars.get_column df col = Some s ->
      exists s',
        Polars.get_column (Polars.map_codes_to_descriptions fmt df col m) col = Some s'
        /\ Polars.dtype_of s' = Polars.Utf8
        /\ length (Polars.values s') = length (Polars.values s)
        /\ Forall (fun c : cell => c = None \/ exists t, c = Some (VStr t))
                  (Polars.values s')).
Proof.
  split.
  - intros df col vs Hs. rewrite (PandasFacts.pandas_map_codes_unfold _ _ _ _ Hs).
    eexists. split; [apply PandasFacts.get_set_eq|].
    split; [apply length_map|].
    apply Forall_forall. intros c Hc. apply list_elem_of_fmap in Hc as (x & -> & _). eauto.
  - intros fmt df col s Hs. rewrite (PolarsFacts.polars_map_codes_unfold _ _ _ _ _ Hs).
    eexists. split.
    + match goal with |- Polars.get_column (Polars.with_column _ ?t) _ = _ =>
        change col with (Polars.name t) at 2 end.
      apply PolarsFacts.get_with_eq.
    + split; [reflexivity|]. split; [apply length_map|]. simpl.
      apply Forall_forall. intros c Hc. apply list_elem_of_fmap in Hc as (x & -> & _).
      destruct (Polars.map_value m _); simpl; eauto.
Qed.

Lemma C10_mapped_column_is_text_witness :
  (exists vs',
      Pandas.get_col
        (Pandas.map_codes_to_descriptions Samples.pandas_activity "multiple_activity"
           Samples.YES_NO) "multiple_activity" = Some vs'
      /\ length vs' = 4%nat
      /\ Forall (fun c : cell => exists t, c = Some (VStr t)) vs')
  /\ (exists s',
      Polars.get_column
        (Polars.map_codes_to_descriptions Py.str_float Samples.polars_activity
           "multiple_activity" Samples.YES_NO) "multiple_activity" = Some s'
      /\ Polars.dtype_of s' = Polars.Utf8
      /\ length (Polars.values s') = 4%nat
      /\ Forall (fun c : cell => c = None \/ exists t, c = Some (VStr t))
                (Polars.values s')).
Proof.
  split.
  - exact (proj1 (C10_mapped_column_is_text Samples.YES_NO)
             Samples.pandas_activity "multiple_activity" _ eq_refl).
  - exact (proj2 (C10_mapped_column_is_text Samples.YES_NO)
             Py.str_float Samples.polars_activity "multiple_activity" _ eq_refl).
Defined.

(** ** Column projection *)

Lemma pandas_select_ok (df : Pandas.DataFrame) (names : list string) :
  (forall n, n ∈ names -> is_Some (Pandas.get_col df n)) ->
  exists df',
    Pandas.select df names = inr df'
    /\ Pandas.columns df' = names
    /\ forall c, c ∈ names -> Pandas.get_col df' c = Pandas.get_col df c.
Proof.
  induction names as [|n names IH]; intros Hall.
  - exists []. repeat split. intros c Hc. inversion Hc.
  - destruct IH as (rest & Hsel & Hcols & Hget).
    { intros k Hk. apply Hall. now right. }
    destruct (Hall n) as [vs Hvs]; [now left|].
    exists ((n, vs) :: rest). simpl. unfold Pandas.get_or_raise.
    rewrite Hvs, Hsel. split; [reflexivity|]. split.
    + unfold Pandas.columns in *. simpl. now rewrite Hcols.
    + intros c Hc. simpl. destruct (String.eqb n c) eqn:E.
      * apply String.eqb_eq in E. now subst.
      * apply Hget. apply elem_of_cons in Hc as [->|Hc]; [|exact Hc].
        now rewrite String.eqb_refl in E.
Qed.

Lemma polars_select_ok (df : Polars.DataFrame) (names : list string) :
  (forall n, n ∈ names -> n ∈ Polars.columns df) ->
  exists df',
    Polars.select_columns df names = inr df'
    /\ Polars.columns df' = names
    /\ forall c, c ∈ names -> Polars.get_column df' c = Polars.get_column df c.
Proof.
  induction names as [|n names IH]; intros Hall.
  - exists []. repeat split. intros c Hc. inversion Hc.
  - destruct IH as (rest & Hsel & Hcols & Hget).
    { intros k Hk. apply Hall. now right. }
    destruct (proj1 (PolarsFacts.get_column_in df n)) as [s Hs]; [apply Hall; now left|].
    exists (s :: rest). simpl. rewrite Hs, Hsel. split; [reflexivity|].
    pose proof (PolarsFacts.get_column_name _ _ _ Hs) as Hn. split.
    + unfold Polars.columns in *. simpl. now rewrite Hcols, Hn.
    + intros c Hc. simpl. rewrite Hn. destruct (String.eqb n c) eqn:E.
      * apply String.eqb_eq in E. now subst.
      * apply Hget. apply elem_of_cons in Hc as [->|Hc]; [|exact Hc].
        now rewrite String.eqb_refl in E.
Qed.

Lemma final_column_order_elem (desired cols : list string) (c : string) :
  c ∈ final_column_order desired cols <-> c ∈ cols.
Proof.
  unfold final_column_order. rewrite elem_of_app, !list_elem_of_filter.
  destruct (decide (c ∈ desired)); tauto.
Qed.

Lemma final_column_order_NoDup (desired cols : list string) :
  NoDup desired -> NoDup cols -> NoDup (final_column_order desired cols).
Proof.
  intros Hd Hc. unfold final_column_order. apply NoDup_app.
  split; [now apply NoDup_filter|]. split; [|now apply NoDup_filter].
  intros x Hx Hx'. apply list_elem_of_filter in Hx as [_ Hx].
  apply list_elem_of_filter in Hx' as [Hx' _]. contradiction.
Qed.

(** C8: the final order is a run of wanted columns, those of the frame
    in the wanted order, followed by the frame's other columns in their
    own order; it holds exactly the columns of the frame, each once when
    neither list repeats a name, and both scripts' last selection keeps
    every column's values. *)
Theorem C8_column_projection (desired cols : list string) :
  (exists front back,
      final_column_order desired cols = (front ++ back)%list
      /\ front `sublist_of` desired
      /\ back `sublist_of` cols
      /\ (forall c, c ∈ front <-> c ∈ desired /\ c ∈ cols)
      /\ (forall c, c ∈ back <-> c ∈ cols /\ c ∉ desired))
  /\ (forall c, c ∈ cols <-> c ∈ final_column_order desired cols)
  /\ (NoDup desired -> NoDup cols -> final_column_order desired cols ≡ₚ cols)
  /\ final_column_order ["a"; "b"] ["b"; "c"; "a"] = ["a"; "b"; "c"]
  /\ (forall df : Pandas.DataFrame,
      exists df',
        Pandas.reorder_columns df = inr df'
        /\ Pandas.columns df'
           = final_column_order Pandas.column_order (Pandas.columns df)
        /\ forall c, Pandas.get_col df' c = Pandas.get_col df c)
  /\ (forall df : Polars.DataFrame,
      NoDup (Polars.columns df) ->
      exists df',
        Polars.reorder_columns df = inr df'
        /\ Polars.columns df'
           = final_column_order Polars.desired_column_order (Polars.columns df)
        /\ forall c, Polars.get_column df' c = Polars.get_column df c).
Proof.
  split.
  { exists (filter (fun col => col ∈ cols) desired),
           (filter (fun col => col ∉ desired) cols).
    split; [reflexivity|]. split; [apply sublist_filter|].
    split; [apply sublist_filter|]. split.
    - intros c. rewrite list_elem_of_filter. tauto.
    - intros c. rewrite list_elem_of_filter. tauto. }
  split; [intros c; symmetry; apply final_column_order_elem|].
  split.
  { intros Hd Hc. apply NoDup_Permutation; [now apply final_column_order_NoDup|exact Hc|].
    intros x. apply final_column_order_elem. }
  split; [vm_compute; reflexivity|].
  split.
  - intros df. unfold Pandas.reorder_columns.
    destruct (pandas_select_ok df (final_column_order Pandas.column_order (Pandas.columns df)))
      as (df' & Hsel & Hcols & Hget).
    { intros n Hn. apply final_column_order_elem in Hn.
      apply PandasFacts.in_columns_get. unfold Pandas.in_columns.
      apply existsb_exists. exists n. split; [now apply list_elem_of_In|].
      apply String.eqb_refl. }
    exists df'. split; [exact Hsel|]. split; [exact Hcols|].
    intros c. destruct (decide (c ∈ Pandas.columns df)) as [Hc|Hc].
    + apply Hget. now apply final_column_order_elem.
    + assert (H1 : Pandas.get_col df c = None).
      { destruct (Pandas.get_col df c) eqn:E; [|reflexivity]. exfalso. apply Hc.
        assert (Hin : Pandas.in_columns c df = true)
          by (apply PandasFacts.in_columns_get; eauto).
        unfold Pandas.in_columns in Hin. apply existsb_exists in Hin as (x & Hx & Hxc).
        apply String.eqb_eq in Hxc. subst. now apply list_elem_of_In. }
      assert (H2 : Pandas.get_col df' c = None).
      { destruct (Pandas.get_col df' c) eqn:E; [|reflexivity]. exfalso. apply Hc.
        assert (Hin : Pandas.in_columns c df' = true)
          by (apply PandasFacts.in_columns_get; eauto).
        unfold Pandas.in_columns in Hin. apply existsb_exists in Hin as (x & Hx & Hxc).
        apply String.eqb_eq in Hxc. subst x. rewrite Hcols in Hx.
        apply list_elem_of_In in Hx. now apply final_column_order_elem in Hx. }
      congruence.
  - intros df Hnd. unfold Polars.reorder_columns, Polars.select.
    rewrite bool_decide_eq_true_2.
    2:{ apply final_column_order_NoDup; [|exact Hnd].
        eapply bool_decide_unpack; vm_compute; exact I. }
    destruct (polars_select_ok df
                (final_column_order Polars.desired_column_order (Polars.columns df)))
      as (df' & Hsel & Hcols & Hget).
    { intros n Hn. now apply final_column_order_elem in Hn. }
    exists df'. split; [exact Hsel|]. split; [exact Hcols|].
    intros c. destruct (decide (c ∈ Polars.columns df)) as [Hc|Hc].
    + apply Hget. now apply final_column_order_elem.
    + assert (H1 : Polars.get_column df c = None).
      { destruct (Polars.get_column df c) eqn:E; [|reflexivity]. exfalso. apply Hc.
        apply PolarsFacts.get_column_in. eauto. }
      assert (H2 : Polars.get_column df' c = None).
      { destruct (Polars.get_column df' c) eqn:E; [|reflexivity]. exfalso. apply Hc.
        assert (Hin : c ∈ Polars.columns df') by (apply PolarsFacts.get_column_in; eauto).
        rewrite Hcols in Hin. now apply final_column_order_elem in Hin. }
      congruence.
Qed.

Lemma C8_column_projection_witness :
  final_column_order ["a"; "b"] ["b"; "c"; "a"] ≡ₚ ["b"; "c"; "a"]
  /\ exists df',
       Polars.reorder_columns Samples.polars_activity = inr df'
       /\ Polars.columns df' = ["multiple_activity"; "person"]
       /\ forall c, Polars.get_column df' c = Polars.get_column Samples.polars_activity c.
Proof.
  pose proof (C8_column_projection ["a"; "b"] ["b"; "c"; "a"])
    as (_ & _ & Hperm & _ & _ & Hpolars).
  split.
  - apply Hperm; eapply bool_decide_unpack; vm_compute; exact I.
  - apply (Hpolars Samples.polars_activity).
    eapply bool_decide_unpack; vm_compute; exact I.
Defined.

(** ** Normalisation of numerals with a zero fractional part *)

Lemma normalize_decimal (neg : bool) (ds zs : string) :
  Py.all_digits ds = true -> ds <> EmptyString -> Py.all_zeros zs = true ->
  Py.digits_value ds 0 <= 2 ^ 53 ->
  Pandas.normalize ((if neg then "-" else "") +:+ ds +:+ "." +:+ zs)
  = Py.str_int (if neg then - Py.digits_value ds 0 else Py.digits_value ds 0).
Proof.
  intros Hds Hne Hzs Hn. unfold Pandas.normalize.
  assert (Hdot : has_char "." ((if neg then "-" else "") +:+ ds +:+ "." +:+ zs) = true).
  { rewrite !PyFacts.has_char_app. simpl. now rewrite !orb_true_r. }
  rewrite Hdot.
  destruct (PyFacts.float_of_string_decimal neg ds zs Hds Hne Hzs) as (D & HD & ->).
  destruct (PyFacts.float_of_ratio_integer neg (Py.digits_value ds 0) D HD)
    as (f & -> & Hint & ->).
  { split; [apply PyFacts.digits_value_nonneg; lia | exact Hn]. }
  now rewrite Hint.
Qed.

Lemma normalize_str_int (z : Z) : Pandas.normalize (Py.str_int z) = Py.str_int z.
Proof. unfold Pandas.normalize. now rewrite PyFacts.str_int_no_dot. Qed.

(** C1, as found in the code: in the pandas pipeline a non-missing cell
    whose rendering is an optional minus sign, digits, a dot and zeros
    only, with an integer part of at most [2^53], is looked up under
    the rendering of that integer, in every map and every column; so a
    cell rendered "1.0" and a cell rendered "1" reach the same entry of
    the map.  (The polars pipeline looks the rendering up as it is.) *)
Theorem C1_pandas_normalises_decimals
    (m : CodeMap) (neg : bool) (ds zs : string) (v : value) :
  Py.all_digits ds = true -> ds <> EmptyString -> Py.all_zeros zs = true ->
  Py.digits_value ds 0 <= 2 ^ 53 ->
  py_str v = (if neg then "-" else "") +:+ ds +:+ "." +:+ zs ->
  let n := if neg then - Py.digits_value ds 0 else Py.digits_value ds 0 in
  Pandas.normalize (py_str v) = Py.str_int n
  /\ (forall df col vs i,
        Pandas.get_col df col = Some vs -> vs !! i = Some (Some v) ->
        exists vs',
          Pandas.get_col (Pandas.map_codes_to_descriptions df col m) col = Some vs'
          /\ vs' !! i
             = Some (Some (VStr (default ("Unknown (" +:+ py_str v +:+ ")")
                                         (m !! Some (Py.str_int n))))))
  /\ (forall w d,
        py_str w = Py.str_int n -> m !! Some (Py.str_int n) = Some d ->
        Pandas.clean_and_map m (Some v) = d /\ Pandas.clean_and_map m (Some w) = d).
Proof.
  intros Hds Hne Hzs Hn Hv n.
  assert (Hnorm : Pandas.normalize (py_str v) = Py.str_int n).
  { rewrite Hv. now apply normalize_decimal. }
  assert (Hna : pd_isna (Some v) = false).
  { destruct v as [z|f|t]; try reflexivity. destruct f; try reflexivity.
    exfalso. simpl in Hv.
    assert (Hdot : has_char "." ((if neg then "-" else "") +:+ ds +:+ "." +:+ zs) = true).
    { rewrite !PyFacts.has_char_app. simpl. now rewrite !orb_true_r. }
    rewrite <- Hv in Hdot. discriminate. }
  assert (Hcell : Pandas.clean_and_map m (Some v)
                  = default ("Unknown (" +:+ py_str v +:+ ")") (m !! Some (Py.str_int n))).
  { unfold Pandas.clean_and_map. now rewrite Hna, Hnorm. }
  split; [exact Hnorm|]. split.
  - intros df col vs i Hs Hc.
    destruct (pandas_mapped_cell df col m vs i _ Hs Hc) as (vs' & H1 & H2).
    exists vs'. split; [exact H1|]. now rewrite H2, Hcell.
  - intros w d Hw Hd. split; [now rewrite Hcell, Hd|].
    assert (Hnaw : pd_isna (Some w) = false).
    { destruct w as [z|f|t]; try reflexivity. destruct f; try reflexivity.
      exfalso. simpl in Hw. symmetry in Hw. now apply PyFacts.str_int_not_nan in Hw. }
    unfold Pandas.clean_and_map. rewrite Hnaw, Hw, normalize_str_int, Hd. reflexivity.
Qed.

Lemma C1_pandas_normalises_decimals_witness :
  Pandas.normalize (py_str Samples.one) = "1"
  /\ Pandas.clean_and_map Samples.GENDER_MAPPING (Some Samples.one) = "male"
  /\ Pandas.clean_and_map Samples.GENDER_MAPPING (Some (VInt 1)) = "male".
Proof.
  pose proof (C1_pandas_normalises_decimals Samples.GENDER_MAPPING false "1" "0" Samples.one
                eq_refl ltac:(discriminate) eq_refl
                ltac:(vm_compute; discriminate) ltac:(vm_compute; reflexivity))
    as (H1 & _ & H3).
  split; [exact H1|]. apply (H3 (VInt 1) "male"); reflexivity.
Defined.

(** C1 as stated fails in the polars pipeline: the float 1.0 renders as
    "1.0" and is looked up under that string, so with the map
    [{"1": "male", "2": "female"}] it becomes "Unknown (1.0)" while the
    integer 1 becomes "male".  In the pandas pipeline the key goes
    through a float, so beyond [2^53] it need not be the integer
    written: "9007199254740993.0" is looked up as "9007199254740992". *)
Lemma C1_counterexample :
  py_str Samples.one = "1.0"
  /\ py_str (VInt 1) = "1"
  /\ Polars.map_value Samples.GENDER_MAPPING (Some (VInt 1)) = Some "male"
  /\ Polars.map_value Samples.GENDER_MAPPING (Some Samples.one) = Some "Unknown (1.0)"
  /\ Polars.map_value Samples.GENDER_MAPPING (Some Samples.one)
     <> Polars.map_value Samples.GENDER_MAPPING (Some (VInt 1))
  /\ Pandas.normalize "9007199254740993.0" = "9007199254740992".
Proof.
  repeat split; try (vm_compute; reflexivity). vm_compute. discriminate.
Qed.

(** ** Household and person keys *)

Module KeyFacts.
Import Polars.

Section WithFormat.
Variable fmt_float : Py.float -> string.

Local Abbreviation cast_cell := (cast_cell fmt_float).
Local Abbreviation concat_cells := (concat_cells fmt_float).
Local Abbreviation same_text := (same_text fmt_float).

Lemma cast_cell_idem (c : cell) : cast_cell (cast_cell c) = cast_cell c.
Proof. now destruct c as [[z|f|s]|]. Qed.

Lemma concat_cells_cast (r r' : list cell) :
  Forall2 (fun c c' => cast_cell c' = cast_cell c) r r' ->
  concat_cells r' = concat_cells r.
Proof.
  induction 1 as [|c c' r r' Hc _ IH]; [reflexivity|].
  destruct c as [v|], c' as [v'|]; simpl in *; try discriminate; [|reflexivity].
  rewrite IH. injection Hc as Hc. now rewrite Hc.
Qed.

(** A row of strings is joined with nothing in between. *)
Lemma concat_cells_strings (strs : list string) :
  concat_cells (map (fun s => Some (VStr s)) strs)
  = Some (foldr String.append EmptyString strs).
Proof.
  induction strs as [|s strs IH]; [reflexivity|]. simpl. now rewrite IH.
Qed.

Lemma rows_of_lookup (h i : nat) (cols : list (list cell)) (r : list cell) :
  (i < h)%nat ->
  Forall2 (fun col x => col !! i = Some x) cols r ->
  rows_of h cols !! i = Some r.
Proof.
  intros Hi. induction 1 as [|col x cols r Hx _ IH]; simpl.
  - now apply lookup_replicate_2.
  - rewrite lookup_zip_with, Hx. simpl. now rewrite IH.
Qed.

Lemma same_text_refl (df : DataFrame) : same_text df df.
Proof. repeat split. intros col s Hs. exists s. split; [exact Hs|]. eauto. Qed.

Lemma same_text_trans (a b c : DataFrame) :
  same_text a b -> same_text b c -> same_text a c.
Proof.
  intros (Hc1 & Hh1 & H1) (Hc2 & Hh2 & H2). split; [congruence|]. split; [congruence|].
  intros col s Hs. destruct (H1 col s Hs) as (s1 & Hs1 & Hv1).
  destruct (H2 col s1 Hs1) as (s2 & Hs2 & Hv2). exists s2. split; [exact Hs2|].
  intros i x Hx. destruct (Hv1 i x Hx) as (x1 & Hx1 & E1).
  destruct (Hv2 i x1 Hx1) as (x2 & Hx2 & E2). exists x2. split; [exact Hx2|congruence].
Qed.

Lemma height_with_present (df : DataFrame) (s t : Series) :
  get_column df (name t) = Some s -> length (values t) = length (values s) ->
  height (with_column df t) = height df.
Proof.
  destruct df as [|u df]; simpl; [discriminate|].
  destruct (String.eqb (name u) (name t)); simpl; [|reflexivity].
  intros [= ->]. auto.
Qed.

Lemma same_text_cast (df : DataFrame) (col : string) (s : Series) :
  get_column df col = Some s -> same_text df (with_column df (cast_utf8 fmt_float s)).
Proof.
  intros Hs. pose proof (PolarsFacts.get_column_name _ _ _ Hs) as Hn.
  split; [|split].
  - apply PolarsFacts.columns_with_present. simpl. rewrite Hn.
    apply PolarsFacts.get_column_in. eauto.
  - apply (height_with_present df s); simpl; [now rewrite Hn | apply length_map].
  - intros col' s' Hs'. destruct (String.eqb_spec col col') as [<-|Hne].
    + assert (s' = s) by congruence. subst s'.
      exists (cast_utf8 fmt_float s). split.
      * replace col with (name (cast_utf8 fmt_float s)) by (simpl; exact Hn).
        apply PolarsFacts.get_with_eq.
      * intros i c Hc. exists (cast_cell c). simpl. rewrite list_lookup_fmap, Hc.
        split; [reflexivity | apply cast_cell_idem].
    + exists s'. split; [|eauto].
      rewrite PolarsFacts.get_with_ne; [exact Hs' | simpl; congruence].
Qed.

Lemma same_text_cast_all (cols : list string) (df : DataFrame) :
  same_text df
    (foldl (fun df col =>
              match get_column df col with
              | Some s => with_column df (cast_utf8 fmt_float s)
              | None => df
              end) df cols).
Proof.
  revert df. induction cols as [|col cols IH]; intros df; simpl.
  - apply same_text_refl.
  - eapply same_text_trans; [|apply IH].
    destruct (get_column df col) as [s|] eqn:E;
      [now apply (same_text_cast df col) | apply same_text_refl].
Qed.

Lemma select_columns_present (df : DataFrame) (names : list string) :
  Forall (fun n => n ∈ columns df) names ->
  exists ss, select_columns df names = inr ss
    /\ Forall2 (fun n s => get_column df n = Some s) names ss.
Proof.
  induction 1 as [|n names Hn _ (ss & Hsel & Hall)]; simpl.
  - exists []. split; [reflexivity | constructor].
  - apply PolarsFacts.get_column_in in Hn as [s Hs]. rewrite Hs, Hsel.
    exists (s :: ss). split; [reflexivity | now constructor].
Qed.

Lemma columns_with_absent (df : DataFrame) (s : Series) :
  name s ∉ columns df -> columns (with_column df s) = (columns df ++ [name s])%list.
Proof.
  unfold columns. induction df as [|t df IH]; simpl; intros H; [reflexivity|].
  rewrite not_elem_of_cons in H. destruct H as [H1 H2].
  destruct (String.eqb_spec (name t) (name s)) as [E|_]; [congruence|].
  simpl. f_equal. now apply IH.
Qed.

Lemma selected_row (df df1 : DataFrame) (names : list string) (cells : list cell)
    (ss : list Series) (i : nat) :
  (forall col s, get_column df col = Some s ->
     exists s', get_column df1 col = Some s'
       /\ forall i c, values s !! i = Some c ->
            exists c', values s' !! i = Some c' /\ cast_cell c' = cast_cell c) ->
  Forall2 (fun col c => exists s, get_column df col = Some s /\ values s !! i = Some c)
          names cells ->
  Forall2 (fun n s => get_column df1 n = Some s) names ss ->
  exists r, Forall2 (fun col x => col !! i = Some x) (map values ss) r
            /\ Forall2 (fun c c' => cast_cell c' = cast_cell c) cells r.
Proof.
  intros Hsame Hcells. revert ss.
  induction Hcells as [|col c cols cells (s & Hs & Hc) _ IH]; intros ss Hss.
  - inversion Hss. subst. exists []. split; constructor.
  - inversion Hss as [|? s1 ? ss' Hs1 Hss']. subst.
    destruct (IH _ Hss') as (r & Hr1 & Hr2).
    destruct (Hsame col s Hs) as (s' & Hs' & Hv).
    assert (s' = s1) by congruence. subst s'.
    destruct (Hv i c Hc) as (c' & Hc' & Ec).
    exists (c' :: r). split; constructor; auto.
Qed.

(** The household key of row [i]: the cells of the key columns the frame
    has, taken in the order of [group_by], cast to strings and joined;
    the key is appended as the column [household_id]. *)
Lemma add_household_id_row (group_by : list string) (df : DataFrame)
    (i : nat) (cells : list cell) :
  filter (fun col => col ∈ columns df) group_by <> [] ->
  "household_id" ∉ columns df ->
  (i < height df)%nat ->
  Forall2 (fun col c => exists s, get_column df col = Some s /\ values s !! i = Some c)
          (filter (fun col => col ∈ columns df) group_by) cells ->
  exists df' hh,
    add_household_id fmt_float group_by df = Some df'
    /\ columns df' = (columns df ++ ["household_id"])%list
    /\ get_column df' "household_id" = Some hh
    /\ dtype_of hh = Utf8
    /\ values hh !! i = Some (option_map VStr (concat_cells cells)).
Proof.
  intros Hne Hfresh Hi Hcells. unfold add_household_id.
  set (avail := filter (fun col => col ∈ columns df) group_by) in *.
  rewrite bool_decide_eq_false_2 by exact Hne.
  pose proof (same_text_cast_all avail df) as (Hcols & Hheight & Hsame).
  set (df1 := foldl _ df avail) in *.
  destruct (select_columns_present df1 avail) as (ss & Hsel & Hss).
  { apply Forall_forall. intros n Hn. rewrite Hcols.
    unfold avail in Hn. now apply list_elem_of_filter in Hn as [Hn _]. }
  unfold concat_str. rewrite Hsel.
  eexists _, _. split; [reflexivity|]. split.
  { rewrite columns_with_absent; simpl; rewrite Hcols; [reflexivity | exact Hfresh]. }
  split.
  { match goal with |- get_column (with_column _ ?t) _ = _ =>
      change "household_id" with (name t) at 2 end.
    apply PolarsFacts.get_with_eq. }
  split; [reflexivity|]. simpl. rewrite list_lookup_fmap.
  destruct (selected_row df df1 avail cells ss i Hsame Hcells Hss) as (r & Hr1 & Hr2).
  rewrite (rows_of_lookup _ _ _ r); [|rewrite Hheight; exact Hi | exact Hr1].
  simpl. now rewrite (concat_cells_cast _ _ Hr2).
Qed.


Lemma filter_all {A} (P : A -> Prop) `{!forall x, Decision (P x)} (l : list A) :
  (forall x, x ∈ l -> P x) -> filter P l = l.
Proof.
  induction l as [|x l IH]; intros Hall; [reflexivity|].
  rewrite filter_cons_True by (apply Hall; now left).
  f_equal. apply IH. intros y Hy. apply Hall. now right.
Qed.

Lemma columns_drop (df : DataFrame) (c : string) :
  columns (drop df c) = filter (fun n => n <> c) (columns df).
Proof.
  unfold columns, drop. induction df as [|t df IH]; [reflexivity|].
  cbn [map]. destruct (decide (name t <> c)) as [Hn|Hn].
  - rewrite (filter_cons_True (fun s => name s <> c)) by exact Hn.
    rewrite (filter_cons_True (fun n => n <> c)) by exact Hn.
    cbn [map]. f_equal. exact IH.
  - rewrite (filter_cons_False (fun s => name s <> c)) by exact Hn.
    rewrite (filter_cons_False (fun n => n <> c)) by exact Hn. exact IH.
Qed.

Lemma get_column_drop_ne (df : DataFrame) (c c' : string) :
  c' <> c -> get_column (drop df c) c' = get_column df c'.
Proof.
  intros Hne. unfold drop. induction df as [|t df IH]; [reflexivity|].
  destruct (decide (name t <> c)) as [Hn|Hn].
  - rewrite (filter_cons_True (fun s => name s <> c)) by exact Hn.
    cbn [get_column]. destruct (String.eqb (name t) c'); [reflexivity | exact IH].
  - rewrite (filter_cons_False (fun s => name s <> c)) by exact Hn.
    cbn [get_column]. destruct (String.eqb_spec (name t) c') as [E|_]; [|exact IH].
    exfalso. apply Hne. apply dec_stable in Hn. congruence.
Qed.

(** The person key of row [i]: the household key followed by the
    serial number, both cast to strings; the serial column is dropped
    and the key comes first. *)
Lemma add_person_id_row (ip : DataFrame) (i : nat) (h p : cell) :
  NoDup (columns ip) -> "person_id" ∉ columns ip -> (i < height ip)%nat ->
  (exists s, get_column ip "household_id" = Some s /\ values s !! i = Some h) ->
  (exists s, get_column ip "Sl.No." = Some s /\ values s !! i = Some p) ->
  exists df2 pid,
    add_person_id fmt_float ip = inr df2
    /\ columns df2 = "person_id" :: filter (fun n => n <> "Sl.No.") (columns ip)
    /\ get_column df2 "person_id" = Some pid
    /\ values pid !! i = Some (option_map VStr (concat_cells [h; p])).
Proof.
  intros Hnd Hfresh Hi (s1 & Hs1 & Hh) (s2 & Hs2 & Hp).
  unfold add_person_id.
  assert (Hsl : "Sl.No." ∈ columns ip) by (apply PolarsFacts.get_column_in; eauto).
  rewrite bool_decide_eq_true_2 by exact Hsl.
  unfold concat_str. cbn [select_columns]. rewrite Hs1, Hs2.
  set (pid := mkSeries "person_id" Utf8 _).
  set (dropped := drop (with_column ip pid) "Sl.No.").
  assert (Hcols : columns dropped
                  = (filter (fun n => n <> "Sl.No.") (columns ip) ++ ["person_id"])%list).
  { unfold dropped. rewrite columns_drop, columns_with_absent by exact Hfresh.
    rewrite filter_app. reflexivity. }
  assert (Horder : ("person_id" :: filter (fun col => col <> "person_id") (columns dropped))
                   = "person_id" :: filter (fun n => n <> "Sl.No.") (columns ip)).
  { f_equal. rewrite Hcols, filter_app. simpl. rewrite app_nil_r.
    apply filter_all. intros x Hx ->.
    apply list_elem_of_filter in Hx as [_ Hx]. contradiction. }
  rewrite Horder. unfold select.
  assert (Hnd2 : NoDup ("person_id" :: filter (fun n => n <> "Sl.No.") (columns ip))).
  { constructor; [|now apply NoDup_filter].
    intros Hx. apply list_elem_of_filter in Hx as [_ Hx]. contradiction. }
  rewrite bool_decide_eq_true_2 by exact Hnd2.
  destruct (polars_select_ok dropped
              ("person_id" :: filter (fun n => n <> "Sl.No.") (columns ip)))
    as (df2 & Hsel & Hc2 & Hget).
  { intros n Hn. rewrite Hcols, elem_of_app, list_elem_of_singleton.
    apply elem_of_cons in Hn as [->|Hn]; auto. }
  exists df2, pid. split; [exact Hsel|]. split; [exact Hc2|]. split.
  - rewrite Hget by now left. unfold dropped.
    rewrite get_column_drop_ne by discriminate.
    exact (PolarsFacts.get_with_eq ip pid).
  - unfold pid. cbn [values]. rewrite list_lookup_fmap.
    rewrite (rows_of_lookup (height ip) i (map values [s1; s2]) [h; p]);
      [reflexivity | exact Hi |].
    repeat constructor; assumption.
Qed.

End WithFormat.
End KeyFacts.

Lemma string_app_nil_r (s : string) : s +:+ EmptyString = s.
Proof.
  induction s as [|c s IH]; [reflexivity|].
  change (String c s +:+ EmptyString) with (String c (s +:+ EmptyString)). now rewrite IH.
Qed.

Lemma string_app_assoc (a b c : string) : (a +:+ b) +:+ c = a +:+ (b +:+ c).
Proof.
  induction a as [|x a IH]; [reflexivity|].
  change ((String x a +:+ b) +:+ c) with (String x ((a +:+ b) +:+ c)). now rewrite IH.
Qed.

(** A row of the sum of the key columns of the pandas frame. *)
Lemma pandas_add_columns_row (df : Pandas.DataFrame) (keys : list string)
    (acc r : list string) (i : nat) (x : string) :
  Pandas.add_columns df acc keys = inr r -> r !! i = Some x ->
  exists a cells,
    acc !! i = Some a
    /\ Forall2 (fun k c => exists vs, Pandas.get_col df k = Some vs /\ vs !! i = Some c)
               keys cells
    /\ x = a +:+ foldr String.append EmptyString (map str_cell cells).
Proof.
  revert acc. induction keys as [|k keys IH]; intros acc Hr Hx; simpl in Hr.
  - injection Hr as <-. exists x, []. split; [exact Hx|]. split; [constructor|].
    simpl. now rewrite string_app_nil_r.
  - unfold Pandas.get_or_raise in Hr.
    destruct (Pandas.get_col df k) as [vs|] eqn:Hk; [|discriminate].
    destruct (IH _ Hr Hx) as (a' & cells & Ha' & Hcells & ->).
    unfold Pandas.series_add in Ha'.
    apply lookup_zip_with_Some in Ha' as (a & y & -> & Ha & Hy).
    unfold Pandas.astype_str in Hy. rewrite list_lookup_fmap in Hy.
    destruct (vs !! i) as [c|] eqn:Hc; [|discriminate]. injection Hy as <-.
    exists a, (c :: cells). split; [exact Ha|]. split.
    + constructor; [eauto | exact Hcells].
    + simpl. apply string_app_assoc.
Qed.

(** Line 217 of the pandas script: the key columns joined, an
    underscore, the serial number. *)
Lemma pandas_person_id_row (df : Pandas.DataFrame) (keys : list string) (serial : string)
    (ids : list string) (i : nat) (id : string) :
  Pandas.person_id_series keys serial df = inr ids -> ids !! i = Some id ->
  exists cells p,
    Forall2 (fun k c => exists vs, Pandas.get_col df k = Some vs /\ vs !! i = Some c)
            keys cells
    /\ (exists vs, Pandas.get_col df serial = Some vs /\ vs !! i = Some p)
    /\ id = foldr String.append EmptyString (map str_cell cells) +:+ "_" +:+ str_cell p.
Proof.
  unfold Pandas.person_id_series. destruct keys as [|k keys]; [discriminate|].
  unfold Pandas.get_or_raise.
  destruct (Pandas.get_col df k) as [vs|] eqn:Hk; [|discriminate].
  destruct (Pandas.add_columns df (Pandas.astype_str vs) keys) as [|hh] eqn:Hhh;
    [discriminate|].
  destruct (Pandas.get_col df serial) as [ps|] eqn:Hps; [|discriminate].
  intros [= <-] Hid.
  unfold Pandas.series_add in Hid.
  apply lookup_zip_with_Some in Hid as (x & y & -> & Hx & Hy).
  rewrite list_lookup_fmap in Hx.
  destruct (hh !! i) as [h|] eqn:Hh; [|discriminate]. injection Hx as <-.
  unfold Pandas.astype_str in Hy. rewrite list_lookup_fmap in Hy.
  destruct (ps !! i) as [p|] eqn:Hp; [|discriminate]. injection Hy as <-.
  destruct (pandas_add_columns_row _ _ _ _ _ _ Hhh Hh) as (a & cells & Ha & Hcells & ->).
  unfold Pandas.astype_str in Ha. rewrite list_lookup_fmap in Ha.
  destruct (vs !! i) as [c|] eqn:Hc; [|discriminate]. injection Ha as <-.
  exists (c :: cells), p. split; [constructor; eauto|]. split; [eauto|].
  simpl. now rewrite !string_app_assoc.
Qed.

(** C3, as found in the code: the polars pipeline casts the cells of the
    design-key columns the frame has to strings, joins them in the
    order of the key list with nothing in between (a null part makes
    the key null) and appends the result as [household_id]; its person
    key is the household key followed by the serial number.  The row
    "10", "2", "07", "003" gets the household key "10207003" and, with
    serial number "02", the person key "1020700302".  The pandas
    pipeline builds only a person key, from its join-key columns joined
    in order, an underscore, and the serial number. *)
Theorem C3_keys :
  (forall fmt group_by df i cells,
      filter (fun col => col ∈ Polars.columns df) group_by <> [] ->
      "household_id" ∉ Polars.columns df ->
      (i < Polars.height df)%nat ->
      Forall2 (fun col c => exists s, Polars.get_column df col = Some s
                                      /\ Polars.values s !! i = Some c)
              (filter (fun col => col ∈ Polars.columns df) group_by) cells ->
      exists df' hh,
        Polars.add_household_id fmt group_by df = Some df'
        /\ Polars.columns df' = (Polars.columns df ++ ["household_id"])%list
        /\ Polars.get_column df' "household_id" = Some hh
        /\ Polars.dtype_of hh = Polars.Utf8
        /\ Polars.values hh !! i = Some (option_map VStr (Polars.concat_cells fmt cells)))
  /\ (forall fmt strs,
      Polars.concat_cells fmt (map (fun s => Some (VStr s)) strs)
      = Some (foldr String.append EmptyString strs))
  /\ (forall fmt ip i h p,
      NoDup (Polars.columns ip) -> "person_id" ∉ Polars.columns ip ->
      (i < Polars.height ip)%nat ->
      (exists s, Polars.get_column ip "household_id" = Some s
                 /\ Polars.values s !! i = Some h) ->
      (exists s, Polars.get_column ip "Sl.No." = Some s /\ Polars.values s !! i = Some p) ->
      exists df2 pid,
        Polars.add_person_id fmt ip = inr df2
        /\ Polars.columns df2
           = "person_id" :: filter (fun n => n <> "Sl.No.") (Polars.columns ip)
        /\ Polars.get_column df2 "person_id" = Some pid
        /\ Polars.values pid !! i
           = Some (option_map VStr (Polars.concat_cells fmt [h; p])))
  /\ (exists df' df2,
      Polars.add_household_id Py.str_float Samples.design_key Samples.polars_household
      = Some df'
      /\ Polars.get_column df' "household_id"
         = Some (Polars.mkSeries "household_id" Polars.Utf8 [Some (VStr "10207003")])
      /\ Polars.add_person_id Py.str_float df' = inr df2
      /\ Polars.get_column df2 "person_id"
         = Some (Polars.mkSeries "person_id" Polars.Utf8 [Some (VStr "1020700302")]))
  /\ (forall df keys serial ids i id,
      Pandas.person_id_series keys serial df = inr ids -> ids !! i = Some id ->
      exists cells p,
        Forall2 (fun k c => exists vs, Pandas.get_col df k = Some vs /\ vs !! i = Some c)
                keys cells
        /\ (exists vs, Pandas.get_col df serial = Some vs /\ vs !! i = Some p)
        /\ id = foldr String.append EmptyString (map str_cell cells)
                +:+ "_" +:+ str_cell p).
Proof.
  split; [intros; now apply KeyFacts.add_household_id_row|].
  split; [intros; apply KeyFacts.concat_cells_strings|].
  split; [intros; now apply KeyFacts.add_person_id_row|].
  split; [|intros df keys serial ids i id H1 H2;
            exact (pandas_person_id_row _ _ _ _ _ _ H1 H2)].
  eexists _, _. split; [vm_compute; reflexivity|].
  split; [vm_compute; reflexivity|]. split; vm_compute; reflexivity.
Qed.

Lemma C3_keys_witness :
  exists df' hh,
    Polars.add_household_id Py.str_float Samples.design_key Samples.polars_household
    = Some df'
    /\ Polars.get_column df' "household_id" = Some hh
    /\ Polars.values hh !! 0%nat = Some (Some (VStr "10207003")).
Proof.
  destruct (proj1 C3_keys Py.str_float Samples.design_key Samples.polars_household 0%nat
              [Some (VStr "10"); Some (VStr "2"); Some (VStr "07"); Some (VStr "003")])
    as (df' & hh & H1 & _ & H3 & _ & H5).
  - vm_compute. discriminate.
  - eapply bool_decide_unpack; vm_compute; exact I.
  - vm_compute. lia.
  - vm_compute. repeat constructor; eexists; split; reflexivity.
  - exists df', hh. split; [exact H1|]. split; [exact H3 | exact H5].
Defined.

(** C3 as stated fails in the pandas pipeline: line 217 puts an
    underscore before the serial number, so the example row gets the
    person key "10207003_02", not "1020700302". *)
Lemma C3_counterexample :
  Pandas.person_id_series Samples.design_key "seq" Samples.pandas_household
  = inr ["10207003_02"]
  /\ Pandas.person_id_series Samples.design_key "seq" Samples.pandas_household
     <> inr ["1020700302"]
  /\ Pandas.person_id_series Pandas.join_keys "Person serial no." Samples.pandas_person
     = inr ["10410001061172712117203_2"].
Proof.
  split; [vm_compute; reflexivity|]. split; [vm_compute; discriminate|].
  vm_compute. reflexivity.
Qed.

(** ** District names *)

Module DistrictFacts.
Import Pandas.

Section WithEnv.
Variable env : Env.

Local Abbreviation prepare_lookup := (prepare_lookup env).
Local Abbreviation map_district_body := (map_district_body env).
Local Abbreviation map_district_codes := (map_district_codes env).

Lemma district_body_raise (districts_df df : DataFrame) (e : exn) :
  prepare_lookup districts_df df = inl e ->
  map_district_body districts_df df = (inl e, df).
Proof.
  intros H. unfold Pandas.map_district_body, bind, read_df, lift. now rewrite H.
Qed.

(** [df.loc[mask, name] = v] on a frame that has the column. *)
Lemma assign_where_present (mask : list bool) (name : string) (v : cell)
    (df : DataFrame) (old : list cell) :
  get_col df name = Some old ->
  assign_where mask name v df
  = (inr tt, set_col df name (zip_with (fun (b : bool) o => if b then v else o) mask old)).
Proof.
  intros H. unfold assign_where, bind, read_df, assign. now rewrite H.
Qed.

Lemma assign_where_state (mask : list bool) (name : string) (v : cell) (df : DataFrame) :
  exists vs, assign_where mask name v df = (inr tt, set_col df name vs).
Proof.
  unfold assign_where, bind, read_df, assign.
  destruct (get_col df name); eauto.
Qed.

(** One turn of the loop writes only [state] and [district], and only
    in the rows whose key is the entry's. *)
Lemma apply_entry_spec (keys : list string) (entry : string * (cell * cell))
    (df : DataFrame) :
  exists df',
    apply_entry keys entry df = (inr tt, df')
    /\ (forall c, c <> "state" -> c <> "district" -> get_col df' c = get_col df c)
    /\ (forall name vs,
          name = "state" \/ name = "district" ->
          get_col df name = Some vs ->
          exists vs', get_col df' name = Some vs'
            /\ forall i k, keys !! i = Some k -> k <> entry.1 -> vs' !! i = vs !! i).
Proof.
  destruct entry as [key [v1 v2]]. unfold apply_entry.
  destruct (existsb id (map (String.eqb key) keys)).
  2:{ exists df. split; [reflexivity|]. split; [reflexivity|]. eauto. }
  set (mask := map (String.eqb key) keys).
  assert (Hrow : forall (v : cell) (old : list cell) i k,
             keys !! i = Some k -> k <> key ->
             zip_with (fun (b : bool) o => if b then v else o) mask old !! i = old !! i).
  { intros v old i k Hk Hne. rewrite lookup_zip_with. unfold mask.
    rewrite list_lookup_fmap, Hk. simpl.
    assert (E : String.eqb key k = false) by (apply String.eqb_neq; congruence).
    rewrite E. now destruct (old !! i). }
  unfold bind.
  destruct (assign_where_state mask "state" v1 df) as (s1 & E1).
  cbn [fst snd]. rewrite E1.
  destruct (assign_where_state mask "district" v2 (set_col df "state" s1)) as (s2 & E2).
  rewrite E2. eexists. split; [reflexivity|]. split.
  - intros c Hc1 Hc2. rewrite !PandasFacts.get_set_ne by congruence. reflexivity.
  - intros name vs [-> | ->] Hvs.
    + rewrite (assign_where_present _ _ _ _ _ Hvs) in E1. injection E1 as <-.
      rewrite PandasFacts.get_set_ne by discriminate.
      rewrite PandasFacts.get_set_eq. eexists. split; [reflexivity|].
      intros i k Hk Hne. now apply (Hrow v1 vs i k).
    + assert (Hvs' : get_col (set_col df "state" s1) "district" = Some vs)
        by (rewrite PandasFacts.get_set_ne by discriminate; exact Hvs).
      rewrite (assign_where_present _ _ _ _ _ Hvs') in E2. injection E2 as <-.
      rewrite PandasFacts.get_set_eq. eexists. split; [reflexivity|].
      intros i k Hk Hne. now apply (Hrow v2 vs i k).
Qed.

Lemma for_each_entries (keys : list string) (entries : list (string * (cell * cell)))
    (df : DataFrame) :
  exists df',
    for_each entries (apply_entry keys) df = (inr tt, df')
    /\ (forall c, c <> "state" -> c <> "district" -> get_col df' c = get_col df c)
    /\ (forall name vs,
          name = "state" \/ name = "district" ->
          get_col df name = Some vs ->
          exists vs', get_col df' name = Some vs'
            /\ forall i k, keys !! i = Some k -> k ∉ map fst entries ->
                           vs' !! i = vs !! i).
Proof.
  revert df. induction entries as [|entry entries IH]; intros df.
  - exists df. split; [reflexivity|]. split; [reflexivity|]. eauto.
  - destruct (apply_entry_spec keys entry df) as (df1 & E1 & Ho1 & Hr1).
    destruct (IH df1) as (df2 & E2 & Ho2 & Hr2).
    exists df2. split.
    { cbn [for_each]. unfold bind. now rewrite E1. }
    split.
    { intros c Hc1 Hc2. rewrite Ho2, Ho1 by assumption. reflexivity. }
    intros name vs Hname Hvs.
    destruct (Hr1 name vs Hname Hvs) as (vs1 & Hvs1 & Hrow1).
    destruct (Hr2 name vs1 Hname Hvs1) as (vs2 & Hvs2 & Hrow2).
    exists vs2. split; [exact Hvs2|].
    intros i k Hk Hnot. cbn [map] in Hnot. apply not_elem_of_cons in Hnot as [Hne Hnot].
    rewrite (Hrow2 i k Hk Hnot). now apply (Hrow1 i k Hk).
Qed.

(** Once the lookup is prepared the body writes the two columns, runs
    the loop, which does not raise, and ends with the log of line 163:
    whether or not that log can be written, the frame is the one the
    loop left. *)
Lemma district_body_ok (districts_df df : DataFrame)
    (mapping_dict : gmap string (cell * cell)) (keys : list string) :
  prepare_lookup districts_df df = inr (mapping_dict, keys) ->
  map_district_body districts_df df
  = (write_log env "logs/district_mapping_failures.log",
     (for_each (map_to_list mapping_dict) (apply_entry keys)
        (set_col
           (set_col df "state" (replicate (height df) (Some (VStr "Unknown State"))))
           "district" (replicate (height df) (Some (VStr "Unknown District"))))).2).
Proof.
  intros H. unfold Pandas.map_district_body, bind, read_df, lift, assign. rewrite H.
  match goal with |- context [for_each ?l ?f ?d] =>
    destruct (for_each_entries keys l d) as (d' & -> & _) end.
  reflexivity.
Qed.

(** The pandas step leaves every column but [state] and [district] as
    it was. *)
Lemma pandas_district_other_columns (districts_df df : DataFrame) (c : string) :
  c <> "state" -> c <> "district" ->
  get_col (map_district_codes districts_df df) c = get_col df c.
Proof.
  intros Hc1 Hc2. unfold Pandas.map_district_codes.
  destruct (negb _ || negb _); [reflexivity|]. unfold try_return_df.
  destruct (prepare_lookup districts_df df) as [e|[md keys]] eqn:E.
  - now rewrite (district_body_raise _ _ _ E).
  - rewrite (district_body_ok _ _ _ _ E).
    destruct (for_each_entries keys (map_to_list md)
                (set_col (set_col df "state"
                            (replicate (height df) (Some (VStr "Unknown State"))))
                   "district" (replicate (height df) (Some (VStr "Unknown District")))))
      as (df' & -> & Ho & _).
    cbn [snd]. rewrite Ho by assumption.
    rewrite !PandasFacts.get_set_ne by congruence. reflexivity.
Qed.

(** When a step of the preparation raises, the frame comes back as it
    was given. *)
Lemma pandas_district_failure (districts_df df : DataFrame) (e : exn) :
  prepare_lookup districts_df df = inl e -> map_district_codes districts_df df = df.
Proof.
  intros E. unfold Pandas.map_district_codes.
  destruct (negb _ || negb _); [reflexivity|]. unfold try_return_df.
  now rewrite (district_body_raise _ _ _ E).
Qed.

(** A row whose key the dictionary lacks keeps the two defaults. *)
Lemma pandas_district_unmapped (districts_df df : DataFrame)
    (md : gmap string (cell * cell)) (keys : list string) (i : nat) (k : string) :
  in_columns "FOD Sub-Region" df = true -> in_columns "District" df = true ->
  prepare_lookup districts_df df = inr (md, keys) ->
  (i < height df)%nat -> keys !! i = Some k -> md !! k = None ->
  exists st di,
    get_col (map_district_codes districts_df df) "state" = Some st
    /\ st !! i = Some (Some (VStr "Unknown State"))
    /\ get_col (map_district_codes districts_df df) "district" = Some di
    /\ di !! i = Some (Some (VStr "Unknown District")).
Proof.
  intros H1 H2 E Hi Hk Hmd. unfold Pandas.map_district_codes. rewrite H1, H2.
  cbn [negb orb].
  unfold try_return_df. rewrite (district_body_ok _ _ _ _ E).
  set (df0 := set_col (set_col df "state" _) "district" _).
  destruct (for_each_entries keys (map_to_list md) df0) as (df' & -> & _ & Hr).
  cbn [snd].
  assert (Hnot : k ∉ map fst (map_to_list md)).
  { intros Hin. apply list_elem_of_fmap in Hin as ([k' v] & -> & Hin).
    apply elem_of_map_to_list in Hin. simpl in Hmd. congruence. }
  destruct (Hr "state" (replicate (height df) (Some (VStr "Unknown State"))))
    as (st & Hst & Hrow1); [now left | |].
  { unfold df0. rewrite PandasFacts.get_set_ne by discriminate.
    apply PandasFacts.get_set_eq. }
  destruct (Hr "district" (replicate (height df) (Some (VStr "Unknown District"))))
    as (di & Hdi & Hrow2); [now right | apply PandasFacts.get_set_eq |].
  exists st, di. split; [exact Hst|]. split.
  { etransitivity; [exact (Hrow1 i k Hk Hnot)|]. now apply lookup_replicate_2. }
  split; [exact Hdi|].
  etransitivity; [exact (Hrow2 i k Hk Hnot)|]. now apply lookup_replicate_2.
Qed.

End WithEnv.
End DistrictFacts.

Module PolarsDistrictFacts.
Import Polars.

Lemma get_column_rename (df : DataFrame) (old new : string) (s : Series) :
  get_column df old = Some s -> new ∉ columns df ->
  get_column (rename df old new) new = Some (mkSeries new (dtype_of s) (values s)).
Proof.
  unfold columns. induction df as [|t df IH]; cbn [get_column rename map]; [discriminate|].
  intros Hs Hnew. apply not_elem_of_cons in Hnew as [Hn1 Hn2].
  destruct (String.eqb_spec (name t) old) as [E|E].
  - injection Hs as <-. cbn [get_column name]. now rewrite String.eqb_refl.
  - cbn [get_column]. destruct (String.eqb_spec (name t) new) as [E'|_]; [congruence|].
    now apply IH.
Qed.

Lemma get_column_rename_ne (df : DataFrame) (old new c : string) :
  c <> old -> c <> new -> get_column (rename df old new) c = get_column df c.
Proof.
  intros H1 H2. induction df as [|t df IH]; cbn [get_column rename map]; [reflexivity|].
  destruct (String.eqb_spec (name t) old) as [E|E]; cbn [get_column name].
  - destruct (String.eqb_spec new c) as [E'|_]; [congruence|].
    destruct (String.eqb_spec (name t) c) as [E'|_]; [congruence|]. exact IH.
  - destruct (String.eqb_spec (name t) c); [reflexivity | exact IH].
Qed.

Lemma get_column_rename_old (df : DataFrame) (old new : string) :
  old <> new -> get_column (rename df old new) old = None.
Proof.
  intros Hne. induction df as [|t df IH]; cbn [get_column rename map]; [reflexivity|].
  destruct (String.eqb_spec (name t) old) as [E|E]; cbn [get_column name].
  - destruct (String.eqb_spec new old) as [E'|_]; [congruence | exact IH].
  - destruct (String.eqb_spec (name t) old) as [E'|_]; [congruence | exact IH].
Qed.

(** The frame [map_district_codes] returns when both columns are there. *)
Lemma district_unfold (DM : gmap string (gmap string string)) (df : DataFrame)
    (st di : Series) :
  get_column df "State" = Some st -> get_column df "District" = Some di ->
  map_district_codes DM df
  = rename
      (drop
         (with_column df
            (mkSeries "district_name" Utf8
               (zip_with (fun s d => option_map VStr (map_district DM s d))
                         (values st) (values di))))
         "District")
      "district_name" "District".
Proof.
  intros Hst Hdi. unfold map_district_codes.
  rewrite !bool_decide_eq_true_2 by (apply PolarsFacts.get_column_in; eauto).
  cbn [negb orb]. unfold map_district_body. now rewrite Hst, Hdi.
Qed.

Lemma district_column (DM : gmap string (gmap string string)) (df : DataFrame)
    (st di : Series) :
  get_column df "State" = Some st -> get_column df "District" = Some di ->
  get_column (map_district_codes DM df) "District"
  = Some (mkSeries "District" Utf8
            (zip_with (fun s d => option_map VStr (map_district DM s d))
                      (values st) (values di))).
Proof.
  intros Hst Hdi. rewrite (district_unfold DM df st di Hst Hdi).
  set (dn := mkSeries "district_name" Utf8 _).
  rewrite (get_column_rename _ _ _ dn); [reflexivity| |].
  - rewrite KeyFacts.get_column_drop_ne by discriminate.
    exact (PolarsFacts.get_with_eq df dn).
  - rewrite KeyFacts.columns_drop. intros Hin.
    apply list_elem_of_filter in Hin as [Hin _]. now apply Hin.
Qed.

Lemma district_other_columns (DM : gmap string (gmap string string)) (df : DataFrame)
    (c : string) :
  "district_name" ∉ columns df -> c <> "District" ->
  get_column (map_district_codes DM df) c = get_column df c.
Proof.
  intros Hfresh Hc. unfold map_district_codes.
  destruct (negb _ || negb _); [reflexivity|]. unfold map_district_body.
  destruct (get_column df "State") as [st|]; [|reflexivity].
  destruct (get_column df "District") as [di|]; [|reflexivity].
  set (dn := mkSeries "district_name" Utf8 _).
  destruct (String.eqb_spec c "district_name") as [->|Hne].
  - rewrite get_column_rename_old by discriminate.
    destruct (get_column df "district_name") eqn:E; [|reflexivity].
    exfalso. apply Hfresh. apply PolarsFacts.get_column_in. eauto.
  - rewrite get_column_rename_ne by assumption.
    rewrite KeyFacts.get_column_drop_ne by assumption.
    apply PolarsFacts.get_with_ne. simpl. congruence.
Qed.

End PolarsDistrictFacts.

(** C5, as found in the code.  The polars pipeline renders the state and
    district codes of a row as strings, looks the pair up in the
    two-level map and puts the result in the [District] column (now of
    type [Utf8]): the name found, or "Unknown District (" with the raw
    district code and ")" when the state or the district is not in the
    map, or null when either code is null.  The pandas pipeline leaves
    [District] as it is and writes the columns [state] and [district];
    a row whose key is not in the dictionary gets "Unknown State" and
    "Unknown District". *)
Theorem C5_district_names :
  (forall DM df st di i sv dv,
      Polars.get_column df "State" = Some st ->
      Polars.get_column df "District" = Some di ->
      Polars.values st !! i = Some sv -> Polars.values di !! i = Some dv ->
      exists s',
        Polars.get_column (Polars.map_district_codes DM df) "District" = Some s'
        /\ Polars.dtype_of s' = Polars.Utf8
        /\ Polars.values s' !! i = Some (option_map VStr (Polars.map_district DM sv dv)))
  /\ (forall DM a b,
      Polars.map_district DM (Some a) (Some b)
      = Some (default ("Unknown District (" +:+ py_str b +:+ ")")
                      (DM !! py_str a ≫= fun district_map => district_map !! py_str b)))
  /\ (forall DM sv dv, sv = None \/ dv = None -> Polars.map_district DM sv dv = None)
  /\ (forall env districts_df df md keys i k,
      Pandas.in_columns "FOD Sub-Region" df = true ->
      Pandas.in_columns "District" df = true ->
      Pandas.prepare_lookup env districts_df df = inr (md, keys) ->
      (i < Pandas.height df)%nat -> keys !! i = Some k -> md !! k = None ->
      exists st di,
        Pandas.get_col (Pandas.map_district_codes env districts_df df) "state" = Some st
        /\ st !! i = Some (Some (VStr "Unknown State"))
        /\ Pandas.get_col (Pandas.map_district_codes env districts_df df) "district"
           = Some di
        /\ di !! i = Some (Some (VStr "Unknown District")))
  /\ (forall env districts_df df,
      Pandas.get_col (Pandas.map_district_codes env districts_df df) "District"
      = Pandas.get_col df "District").
Proof.
  split.
  { intros DM df st di i sv dv Hst Hdi Hsv Hdv.
    eexists. split; [apply (PolarsDistrictFacts.district_column DM df st di Hst Hdi)|].
    split; [reflexivity|]. cbn [Polars.values].
    now rewrite lookup_zip_with, Hsv, Hdv. }
  split.
  { intros DM a b. unfold Polars.map_district.
    destruct (DM !! py_str a) as [dm|]; [|reflexivity]. simpl.
    now destruct (dm !! py_str b). }
  split.
  { intros DM sv dv [-> | ->]; [reflexivity|]. now destruct sv. }
  split.
  { intros env districts_df df md keys i k H1 H2 H3 H4 H5 H6.
    exact (DistrictFacts.pandas_district_unmapped env _ _ _ _ _ _ H1 H2 H3 H4 H5 H6). }
  intros. apply DistrictFacts.pandas_district_other_columns; discriminate.
Qed.

Lemma C5_district_names_witness :
  (exists s',
      Polars.get_column
        (Polars.map_district_codes Samples.DISTRICT_MAPPING Samples.polars_district)
        "District" = Some s'
      /\ Polars.values s' !! 1%nat = Some (Some (VStr "Unknown District (7)")))
  /\ (exists di,
      Pandas.get_col
        (Pandas.map_district_codes Samples.env_ok Samples.districts_csv
           Samples.pandas_district)
        "district" = Some di
      /\ di !! 1%nat = Some (Some (VStr "Unknown District"))).
Proof.
  destruct C5_district_names as (Hpolars & _ & _ & Hpandas & _). split.
  - destruct (Hpolars Samples.DISTRICT_MAPPING Samples.polars_district _ _ 1%nat
                (Some (VInt 1)) (Some (VInt 7)) eq_refl eq_refl eq_refl eq_refl)
      as (s' & H1 & _ & H2).
    exists s'. split; [exact H1 | exact H2].
  - destruct (Hpandas Samples.env_ok Samples.districts_csv Samples.pandas_district
                _ _ 1%nat "99_5_1"
                eq_refl eq_refl ltac:(vm_compute; reflexivity)
                ltac:(vm_compute; lia) ltac:(vm_compute; reflexivity)
                ltac:(vm_compute; reflexivity))
      as (st & di & _ & _ & H3 & H4).
    exists di. split; [exact H3 | exact H4].
Defined.

(** C5 as stated fails: in the pandas pipeline the unresolved second row
    gets "Unknown District" with no code in it and the [District] column
    keeps its codes; in the polars pipeline a row with a null state gets
    null. *)
Lemma C5_counterexample :
  Pandas.map_district_codes Samples.env_ok Samples.districts_csv Samples.pandas_district
  = (Samples.pandas_district
     ++ [("state", [Some (VStr "Jammu & Kashmir"); Some (VStr "Unknown State");
                    Some (VStr "Jammu & Kashmir")]);
         ("district", [Some (VStr "Kupwara"); Some (VStr "Unknown District");
                       Some (VStr "Badgam")])])%list
  /\ Polars.map_district_codes Samples.DISTRICT_MAPPING Samples.polars_district
     = [Polars.mkSeries "State" Polars.Int64
          [Some (VInt 1); Some (VInt 1); None; Some (VInt 9)];
        Polars.mkSeries "Age" Polars.Int64
          [Some (VInt 30); Some (VInt 31); Some (VInt 32); Some (VInt 33)];
        Polars.mkSeries "District" Polars.Utf8
          [Some (VStr "Kupwara"); Some (VStr "Unknown District (7)"); None;
           Some (VStr "Unknown District (1)")]]
  /\ Some (VStr "Unknown District") <> Some (VStr "Unknown District (5)")
  /\ (None : cell) <> Some (VStr "Unknown District (1)").
Proof.
  split; [vm_compute; reflexivity|]. split; [vm_compute; reflexivity|].
  split; discriminate.
Qed.

(** ** Column-locality and tolerance of the mapping steps *)

Lemma pandas_map_codes_local (df : Pandas.DataFrame) (col : string) (m : CodeMap) :
  Pandas.columns (Pandas.map_codes_to_descriptions df col m) = Pandas.columns df
  /\ forall c, c <> col ->
       Pandas.get_col (Pandas.map_codes_to_descriptions df col m) c = Pandas.get_col df c.
Proof.
  destruct (Pandas.get_col df col) as [vs|] eqn:E.
  - rewrite (PandasFacts.pandas_map_codes_unfold _ _ _ _ E). split.
    + apply PandasFacts.columns_set_present. eauto.
    + intros c Hc. apply PandasFacts.get_set_ne. congruence.
  - rewrite (PandasFacts.map_codes_absent _ _ _ E). split; reflexivity.
Qed.

Lemma polars_map_codes_local (fmt : Py.float -> string) (df : Polars.DataFrame)
    (col : string) (m : CodeMap) :
  Polars.columns (Polars.map_codes_to_descriptions fmt df col m) = Polars.columns df
  /\ forall c, c <> col ->
       Polars.get_column (Polars.map_codes_to_descriptions fmt df col m) c
       = Polars.get_column df c.
Proof.
  destruct (Polars.get_column df col) as [s|] eqn:E.
  - rewrite (PolarsFacts.polars_map_codes_unfold _ _ _ _ _ E). split.
    + apply PolarsFacts.columns_with_present. simpl.
      apply PolarsFacts.get_column_in. eauto.
    + intros c Hc. apply PolarsFacts.get_with_ne. simpl. congruence.
  - unfold Polars.map_codes_to_descriptions.
    rewrite bool_decide_eq_false_2; [split; reflexivity|].
    intros Hin. apply PolarsFacts.get_column_in in Hin as [? ?]. congruence.
Qed.

(** C6, as found in the code.  [map_codes_to_descriptions] keeps the
    names and order of the columns and the values of every column but
    the one it maps, in both pipelines.  The polars [map_district_codes]
    keeps the values of every column but [District], provided the frame
    has no column called [district_name] already; the pandas one keeps
    every column but [state] and [district].  When the pandas
    [map_district_codes] raises before it writes to the frame (lines
    75-128) or the pandas [map_codes_to_descriptions] raises, the frame
    is still as it was given and is returned so.  Once the lookup is
    prepared, the pandas [map_district_codes] can raise only where it
    writes its last log (line 163); the frame then holds the columns
    [state] and [district] already and is returned with them, the same
    frame as when the log is written.  The bodies of the polars steps,
    and of the pandas [map_codes_to_descriptions], do not raise once
    the guard on the columns has passed. *)
Theorem C6_local_and_tolerant :
  (forall df col m,
      Pandas.columns (Pandas.map_codes_to_descriptions df col m) = Pandas.columns df
      /\ forall c, c <> col ->
           Pandas.get_col (Pandas.map_codes_to_descriptions df col m) c
           = Pandas.get_col df c)
  /\ (forall fmt df col m,
      Polars.columns (Polars.map_codes_to_descriptions fmt df col m) = Polars.columns df
      /\ forall c, c <> col ->
           Polars.get_column (Polars.map_codes_to_descriptions fmt df col m) c
           = Polars.get_column df c)
  /\ (forall DM df c,
      "district_name" ∉ Polars.columns df -> c <> "District" ->
      Polars.get_column (Polars.map_district_codes DM df) c = Polars.get_column df c)
  /\ (forall env districts_df df c,
      c <> "state" -> c <> "district" ->
      Pandas.get_col (Pandas.map_district_codes env districts_df df) c
      = Pandas.get_col df c)
  /\ (forall env districts_df df e,
      Pandas.prepare_lookup env districts_df df = inl e ->
      Pandas.map_district_body env districts_df df = (inl e, df)
      /\ Pandas.map_district_codes env districts_df df = df)
  /\ (forall env districts_df df md keys,
      Pandas.in_columns "FOD Sub-Region" df = true ->
      Pandas.in_columns "District" df = true ->
      Pandas.prepare_lookup env districts_df df = inr (md, keys) ->
      exists df',
        Pandas.map_district_body env districts_df df
        = (Pandas.write_log env "logs/district_mapping_failures.log", df')
        /\ Pandas.map_district_codes env districts_df df = df'
        /\ is_Some (Pandas.get_col df' "state")
        /\ is_Some (Pandas.get_col df' "district"))
  /\ (forall col m df e df',
      Pandas.map_codes_body col m df = (inl e, df') ->
      df' = df /\ Pandas.map_codes_to_descriptions df col m = df)
  /\ (forall df col m,
      Pandas.in_columns col df = true ->
      exists df', Pandas.map_codes_body col m df = (inr tt, df'))
  /\ (forall fmt df col m,
      col ∈ Polars.columns df ->
      exists df', Polars.map_codes_body fmt df col m = inr df')
  /\ (forall DM df,
      "State" ∈ Polars.columns df -> "District" ∈ Polars.columns df ->
      exists df', Polars.map_district_body DM df = inr df').
Proof.
  split; [exact pandas_map_codes_local|].
  split; [exact polars_map_codes_local|].
  split; [exact PolarsDistrictFacts.district_other_columns|].
  split; [exact DistrictFacts.pandas_district_other_columns|].
  split.
  { intros env districts_df df e E. split.
    - now apply DistrictFacts.district_body_raise.
    - now apply (DistrictFacts.pandas_district_failure env _ _ e). }
  split.
  { intros env districts_df df md keys H1 H2 E.
    eexists. split; [exact (DistrictFacts.district_body_ok env _ _ _ _ E)|].
    split.
    { unfold Pandas.map_district_codes. rewrite H1, H2. cbn [negb orb].
      unfold Pandas.try_return_df.
      now rewrite (DistrictFacts.district_body_ok env _ _ _ _ E). }
    match goal with |- context [Pandas.for_each ?l ?f ?d] =>
      destruct (DistrictFacts.for_each_entries keys l d) as (d' & -> & _ & Hr) end.
    cbn [snd]. split.
    - destruct (Hr "state" (replicate (Pandas.height df) (Some (VStr "Unknown State"))))
        as (st & -> & _); [now left | | eauto].
      rewrite PandasFacts.get_set_ne by discriminate. apply PandasFacts.get_set_eq.
    - destruct (Hr "district"
                  (replicate (Pandas.height df) (Some (VStr "Unknown District"))))
        as (di & -> & _); [now right | apply PandasFacts.get_set_eq | eauto]. }
  split.
  { intros col m df e df' H. unfold Pandas.map_codes_body, Pandas.bind, Pandas.read_df in H.
    destruct (Pandas.get_col df col) as [vs|] eqn:E; [discriminate|].
    injection H as _ <-. split; [reflexivity|]. now apply PandasFacts.map_codes_absent. }
  split.
  { intros df col m H. apply PandasFacts.in_columns_get in H as [vs Hvs].
    unfold Pandas.map_codes_body, Pandas.bind, Pandas.read_df, Pandas.assign.
    rewrite Hvs. eauto. }
  split.
  { intros fmt df col m H. apply PolarsFacts.get_column_in in H as [s Hs].
    unfold Polars.map_codes_body. rewrite Hs.
    pose proof (PolarsFacts.get_column_name _ _ _ Hs) as Hn.
    destruct (bool_decide (Polars.dtype_of s = Polars.Struct)).
    - assert (Hg : Polars.get_column (Polars.with_column df (Polars.cast_utf8 fmt s)) col
                   = Some (Polars.cast_utf8 fmt s)).
      { rewrite <- Hn. exact (PolarsFacts.get_with_eq df (Polars.cast_utf8 fmt s)). }
      cbv zeta. rewrite Hg. eauto.
    - cbv zeta. rewrite Hs. eauto. }
  intros DM df H1 H2.
  apply PolarsFacts.get_column_in in H1 as [st Hst].
  apply PolarsFacts.get_column_in in H2 as [di Hdi].
  unfold Polars.map_district_body. rewrite Hst, Hdi. eauto.
Qed.

Lemma C6_local_and_tolerant_witness :
  Polars.get_column
    (Polars.map_district_codes Samples.DISTRICT_MAPPING Samples.polars_district) "Age"
  = Polars.get_column Samples.polars_district "Age"
  /\ Pandas.map_district_codes Samples.env_ok Samples.districts_csv
       Samples.pandas_district_nan
     = Samples.pandas_district_nan
  /\ (exists df',
        Pandas.map_district_body Samples.env_no_logs Samples.districts_csv
          Samples.pandas_district
        = (inl (Pandas.OSError "logs/district_mapping_failures.log"), df')
        /\ Pandas.map_district_codes Samples.env_no_logs Samples.districts_csv
             Samples.pandas_district = df'
        /\ is_Some (Pandas.get_col df' "state")).
Proof.
  destruct C6_local_and_tolerant as (_ & _ & Hpolars & _ & Hfail & Hlog & _). split.
  - apply Hpolars; [eapply bool_decide_unpack; vm_compute; exact I | discriminate].
  - split.
    + eapply (Hfail Samples.env_ok Samples.districts_csv Samples.pandas_district_nan).
      vm_compute. reflexivity.
    + destruct (Hlog Samples.env_no_logs Samples.districts_csv Samples.pandas_district
                  _ _ eq_refl eq_refl ltac:(vm_compute; reflexivity))
        as (df' & Hbody & Hcodes & Hstate & _).
      exists df'. split; [exact Hbody|]. split; [exact Hcodes | exact Hstate].
Defined.

(** C6 as stated fails: on a frame that already has a column called
    [district_name], the polars [map_district_codes] overwrites that
    column with its intermediate result and renames it, so the
    column's values are lost. *)
Lemma C6_counterexample :
  Polars.get_column Samples.polars_district_clash "district_name"
  = Some (Polars.mkSeries "district_name" Polars.Utf8 [Some (VStr "as surveyed")])
  /\ Polars.map_district_codes Samples.DISTRICT_MAPPING Samples.polars_district_clash
     = [Polars.mkSeries "State" Polars.Int64 [Some (VInt 1)];
        Polars.mkSeries "District" Polars.Utf8 [Some (VStr "Kupwara")]]
  /\ Polars.get_column
       (Polars.map_district_codes Samples.DISTRICT_MAPPING Samples.polars_district_clash)
       "district_name"
     <> Polars.get_column Samples.polars_district_clash "district_name".
Proof.
  split; [vm_compute; reflexivity|]. split; [vm_compute; reflexivity|].
  vm_compute. discriminate.
Qed.

(** ** Harmonising two parts of a module *)

Module HarmonizeFacts.
Import Polars.

Section WithFormat.
Variable fmt_float : Py.float -> string.

Local Abbreviation harmonize_column := (harmonize_column fmt_float).
Local Abbreviation harmonize := (harmonize fmt_float).
Local Abbreviation cast_utf8 := (cast_utf8 fmt_float).
Local Abbreviation harmonized := (harmonized fmt_float).

Lemma height_add_null (df : DataFrame) (c : string) :
  get_column df c = None -> height (add_null_column df c) = height df.
Proof.
  unfold add_null_column. destruct df as [|t df]; cbn [with_column height name].
  - intros _. reflexivity.
  - cbn [get_column]. destruct (String.eqb (name t) c); [discriminate | reflexivity].
Qed.

Lemma height_cast (df : DataFrame) (s : Series) (c : string) :
  get_column df c = Some s -> height (with_column df (cast_utf8 s)) = height df.
Proof.
  intros Hs. apply (KeyFacts.height_with_present df s).
  - simpl. now rewrite (PolarsFacts.get_column_name _ _ _ Hs).
  - apply length_map.
Qed.

Lemma get_add_null_eq (df : DataFrame) (c : string) :
  get_column (add_null_column df c) c
  = Some (mkSeries c Null (replicate (height df) None)).
Proof. exact (PolarsFacts.get_with_eq df (mkSeries c Null _)). Qed.

Lemma get_add_null_ne (df : DataFrame) (c x : string) :
  x <> c -> get_column (add_null_column df c) x = get_column df x.
Proof. intros H. apply PolarsFacts.get_with_ne. simpl. congruence. Qed.

Lemma get_cast_eq (df : DataFrame) (s : Series) (c : string) :
  get_column df c = Some s -> get_column (with_column df (cast_utf8 s)) c = Some (cast_utf8 s).
Proof.
  intros Hs. rewrite <- (PolarsFacts.get_column_name _ _ _ Hs).
  exact (PolarsFacts.get_with_eq df (cast_utf8 s)).
Qed.

Lemma get_cast_ne (df : DataFrame) (s : Series) (c x : string) :
  get_column df c = Some s -> x <> c ->
  get_column (with_column df (cast_utf8 s)) x = get_column df x.
Proof.
  intros Hs Hx. apply PolarsFacts.get_with_ne. simpl.
  rewrite (PolarsFacts.get_column_name _ _ _ Hs). congruence.
Qed.

Lemma harmonize_column_spec (a b : DataFrame) (c : string) :
  let '(a1, b1) := harmonize_column (a, b) c in
  height a1 = height a /\ height b1 = height b
  /\ (get_column a1 c, get_column b1 c) = harmonized a b c
  /\ forall x, x <> c -> get_column a1 x = get_column a x /\ get_column b1 x = get_column b x.
Proof.
  unfold Polars.harmonize_column, harmonized.
  destruct (get_column a c) as [s|] eqn:Ha, (get_column b c) as [t|] eqn:Hb.
  - destruct (bool_decide (dtype_of s <> dtype_of t)).
    + split; [now apply (height_cast a s c)|]. split; [now apply (height_cast b t c)|].
      split; [now rewrite (get_cast_eq a s c Ha), (get_cast_eq b t c Hb)|].
      intros x Hx. now rewrite (get_cast_ne a s c x Ha Hx), (get_cast_ne b t c x Hb Hx).
    + repeat split. now rewrite Ha, Hb.
  - split; [reflexivity|]. split; [now apply height_add_null|].
    split; [now rewrite Ha, get_add_null_eq|].
    intros x Hx. now rewrite get_add_null_ne.
  - split; [now apply height_add_null|]. split; [reflexivity|].
    split; [now rewrite Hb, get_add_null_eq|].
    intros x Hx. now rewrite get_add_null_ne.
  - repeat split. now rewrite Ha, Hb.
Qed.

Lemma harmonize_other (cols : list string) (a b : DataFrame) (x : string) :
  x ∉ cols ->
  let '(a', b') := harmonize cols a b in
  height a' = height a /\ height b' = height b
  /\ get_column a' x = get_column a x /\ get_column b' x = get_column b x.
Proof.
  unfold Polars.harmonize. revert a b.
  induction cols as [|c cols IH]; intros a b Hx; cbn [foldl]; [repeat split|].
  apply not_elem_of_cons in Hx as [Hxc Hx].
  pose proof (harmonize_column_spec a b c) as Hc.
  destruct (harmonize_column (a, b) c) as [a1 b1].
  destruct Hc as (Hh1 & Hh2 & _ & Ho).
  specialize (IH a1 b1 Hx).
  destruct (foldl harmonize_column (a1, b1) cols) as [a' b'].
  destruct IH as (H1 & H2 & H3 & H4). destruct (Ho x Hxc) as [H5 H6].
  repeat split; congruence.
Qed.

(** The loop of lines 124-143 on a walk [all_columns] without
    repetition: each name it meets ends as [harmonized] says. *)
Lemma harmonize_spec (all_columns : list string) (a b : DataFrame) (c : string) :
  NoDup all_columns -> c ∈ all_columns ->
  let '(a', b') := harmonize all_columns a b in
  (get_column a' c, get_column b' c) = harmonized a b c.
Proof.
  unfold Polars.harmonize. revert a b.
  induction all_columns as [|c0 cols IH]; intros a b Hnd Hc; [inversion Hc|].
  apply NoDup_cons in Hnd as [Hc0 Hnd]. cbn [foldl].
  pose proof (harmonize_column_spec a b c0) as Hstep.
  destruct (harmonize_column (a, b) c0) as [a1 b1].
  destruct Hstep as (Hh1 & Hh2 & Hat & Ho).
  destruct (decide (c = c0)) as [->|Hne].
  - pose proof (harmonize_other cols a1 b1 c0 Hc0) as Hrest.
    unfold Polars.harmonize in Hrest.
    destruct (foldl harmonize_column (a1, b1) cols) as [a' b'].
    destruct Hrest as (_ & _ & H3 & H4). now rewrite H3, H4.
  - apply elem_of_cons in Hc as [Hc|Hc]; [contradiction|].
    specialize (IH a1 b1 Hnd Hc).
    destruct (foldl harmonize_column (a1, b1) cols) as [a' b'].
    rewrite IH. unfold harmonized. destruct (Ho c Hne) as [-> ->].
    now rewrite Hh1, Hh2.
Qed.

(** *** The vertical concatenation *)

Lemma append_series_inv (s t st : Series) :
  append_series s t = inr st ->
  name s = name t
  /\ exists rest, st = mkSeries (name s) (dtype_of s) (values s ++ rest)
                  /\ length rest = length (values t).
Proof.
  unfold append_series.
  destruct (String.eqb_spec (name s) (name t)) as [En|_]; cbn [negb]; [|discriminate].
  destruct (bool_decide (dtype_of t = dtype_of s)).
  - intros [= <-]. split; [exact En|]. eauto.
  - destruct (bool_decide (dtype_of t = Null)); [|discriminate].
    intros [= <-]. split; [exact En|]. eexists. split; [reflexivity|].
    apply length_replicate.
Qed.

Lemma append_series_error (s t : Series) (e : perr) :
  append_series s t = inl e -> e = ShapeError \/ e = SchemaError.
Proof.
  unfold append_series. destruct (negb _); [intros [= <-]; now left|].
  destruct (bool_decide _); [discriminate|].
  destruct (bool_decide _); [discriminate|]. intros [= <-]. now right.
Qed.

Lemma vstack_error (a b : DataFrame) (e : perr) :
  vstack a b = inl e -> e = ShapeError \/ e = SchemaError.
Proof.
  revert b. induction a as [|s a IH]; intros [|t b]; cbn [vstack]; try discriminate.
  destruct (append_series s t) as [e'|st] eqn:E.
  - intros [= <-]. exact (append_series_error s t e' E).
  - destruct (vstack a b) as [e'|r] eqn:E'; [|discriminate].
    intros [= <-]. exact (IH b E').
Qed.

Lemma vstack_names (a b r : DataFrame) :
  length a = length b -> vstack a b = inr r -> columns a = columns b.
Proof.
  revert b r. induction a as [|s a IH]; intros [|t b] r Hlen; cbn [vstack];
    try discriminate; [reflexivity|].
  destruct (append_series s t) as [e'|st] eqn:E; [discriminate|].
  destruct (vstack a b) as [e'|r'] eqn:E'; [discriminate|]. intros _.
  destruct (append_series_inv s t st E) as (En & _).
  cbn [columns map]. rewrite En. f_equal.
  apply (IH b r'); [cbn in Hlen; lia | exact E'].
Qed.

Lemma vstack_prefix (a b r : DataFrame) (c : string) (s : Series) :
  length a = length b -> vstack a b = inr r -> get_column a c = Some s ->
  exists rest, get_column r c = Some (mkSeries (name s) (dtype_of s) (values s ++ rest)).
Proof.
  revert b r. induction a as [|u a IH]; intros [|v b] r Hlen; cbn [vstack];
    try discriminate.
  destruct (append_series u v) as [e'|st] eqn:E; [discriminate|].
  destruct (vstack a b) as [e'|r'] eqn:E'; [discriminate|]. intros [= <-].
  destruct (append_series_inv u v st E) as (_ & rest & -> & _).
  cbn [get_column name].
  destruct (String.eqb (name u) c).
  - intros [= <-]. eauto.
  - apply (IH b r'); [cbn in Hlen; lia | exact E'].
Qed.

Lemma vstack_height (a b r : DataFrame) :
  length a = length b -> vstack a b = inr r ->
  height r = (height a + height b)%nat.
Proof.
  destruct a as [|s a], b as [|t b]; cbn [vstack]; try discriminate.
  - intros _ [= <-]. reflexivity.
  - intros _. destruct (append_series s t) as [e'|st] eqn:E; [discriminate|].
    destruct (vstack a b) as [e'|r']; [discriminate|]. intros [= <-].
    destruct (append_series_inv s t st E) as (_ & rest & -> & Hrest).
    cbn [height values]. rewrite length_app. lia.
Qed.

Lemma concat_vertical_error (a b : DataFrame) (e : perr) :
  concat_vertical a b = inl e -> e = ShapeError \/ e = SchemaError.
Proof.
  unfold concat_vertical. destruct (bool_decide (length a = length b)).
  - apply vstack_error.
  - destruct (bool_decide _); [discriminate|]. intros [= <-]. now left.
Qed.

(** Only frames of the same width raise [SchemaError]. *)
Lemma concat_vertical_schema_error (a b : DataFrame) :
  concat_vertical a b = inl SchemaError -> length a = length b.
Proof.
  unfold concat_vertical. destruct (bool_decide (length a = length b)) eqn:E.
  - intros _. now apply bool_decide_eq_true_1 in E.
  - destruct (bool_decide (length a = 0%nat)); intros H; discriminate H.
Qed.

(** A concatenation that succeeds on a first frame with columns finds
    the same names in the same order on both sides. *)
Lemma concat_vertical_names (a b r : DataFrame) :
  a <> [] -> concat_vertical a b = inr r -> columns a = columns b.
Proof.
  intros Ha. unfold concat_vertical.
  destruct (bool_decide (length a = length b)) eqn:E.
  - apply bool_decide_eq_true_1 in E. now apply vstack_names.
  - destruct (bool_decide (length a = 0%nat)) eqn:E0; [|discriminate].
    apply bool_decide_eq_true_1 in E0. destruct a; [contradiction | discriminate].
Qed.

Lemma concat_vertical_height (a b r : DataFrame) :
  concat_vertical a b = inr r -> height r = (height a + height b)%nat.
Proof.
  unfold concat_vertical. destruct (bool_decide (length a = length b)) eqn:E.
  - apply bool_decide_eq_true_1 in E. now apply vstack_height.
  - destruct (bool_decide (length a = 0%nat)) eqn:E0; [|discriminate].
    apply bool_decide_eq_true_1 in E0. destruct a; [|discriminate].
    intros [= <-]. reflexivity.
Qed.

(** A concatenation that succeeds keeps each column of the first frame
    under its name and type, its cells first. *)
Lemma concat_vertical_prefix (a b r : DataFrame) (c : string) (s : Series) :
  concat_vertical a b = inr r -> get_column a c = Some s ->
  exists rest, get_column r c = Some (mkSeries (name s) (dtype_of s) (values s ++ rest)).
Proof.
  unfold concat_vertical. destruct (bool_decide (length a = length b)) eqn:E.
  - apply bool_decide_eq_true_1 in E. now apply vstack_prefix.
  - destruct (bool_decide (length a = 0%nat)) eqn:E0; [|discriminate].
    apply bool_decide_eq_true_1 in E0. destruct a; discriminate.
Qed.

(** The harmonisation keeps the columns of each frame where they are
    and puts the columns it adds after them. *)
Lemma harmonize_column_columns (a b : DataFrame) (c : string) :
  exists la lb,
    columns (harmonize_column (a, b) c).1 = (columns a ++ la)%list
    /\ columns (harmonize_column (a, b) c).2 = (columns b ++ lb)%list.
Proof.
  unfold Polars.harmonize_column.
  destruct (get_column a c) as [s|] eqn:Ha, (get_column b c) as [t|] eqn:Hb.
  - destruct (bool_decide (dtype_of s <> dtype_of t)); cbn [fst snd].
    + exists [], []. rewrite !app_nil_r. split.
      * apply PolarsFacts.columns_with_present. cbn.
        rewrite (PolarsFacts.get_column_name _ _ _ Ha).
        apply PolarsFacts.get_column_in. eauto.
      * apply PolarsFacts.columns_with_present. cbn.
        rewrite (PolarsFacts.get_column_name _ _ _ Hb).
        apply PolarsFacts.get_column_in. eauto.
    + exists [], []. now rewrite !app_nil_r.
  - exists [], [c]. cbn [fst snd]. rewrite app_nil_r. split; [reflexivity|].
    apply KeyFacts.columns_with_absent. cbn. intros Hin.
    apply PolarsFacts.get_column_in in Hin as [? ?]. congruence.
  - exists [c], []. cbn [fst snd]. rewrite app_nil_r. split; [|reflexivity].
    apply KeyFacts.columns_with_absent. cbn. intros Hin.
    apply PolarsFacts.get_column_in in Hin as [? ?]. congruence.
  - exists [], []. now rewrite !app_nil_r.
Qed.

Lemma harmonize_columns (cols : list string) (a b : DataFrame) :
  exists la lb,
    columns (harmonize cols a b).1 = (columns a ++ la)%list
    /\ columns (harmonize cols a b).2 = (columns b ++ lb)%list.
Proof.
  unfold Polars.harmonize. revert a b.
  induction cols as [|c cols IH]; intros a b; cbn [foldl].
  - exists [], []. now rewrite !app_nil_r.
  - destruct (harmonize_column_columns a b c) as (la & lb & H1 & H2).
    destruct (harmonize_column (a, b) c) as [a1 b1]. cbn [fst snd] in H1, H2.
    destruct (IH a1 b1) as (la' & lb' & H3 & H4).
    exists (la ++ la')%list, (lb ++ lb')%list.
    rewrite H3, H4, H1, H2, !app_assoc. split; reflexivity.
Qed.

Lemma harmonize_height (all_columns : list string) (a b : DataFrame) :
  height (harmonize all_columns a b).1 = height a
  /\ height (harmonize all_columns a b).2 = height b.
Proof.
  unfold Polars.harmonize. revert a b.
  induction all_columns as [|c cols IH]; intros a b; cbn [foldl]; [split; reflexivity|].
  pose proof (harmonize_column_spec a b c) as Hc.
  destruct (harmonize_column (a, b) c) as [a1 b1].
  destruct Hc as (Hh1 & Hh2 & _). rewrite <- Hh1, <- Hh2. apply IH.
Qed.

(** Two parts whose columns are not the same names in the same order
    are never put together: the first concatenation raises
    [ShapeError], or it raises [SchemaError] for an earlier column and
    the second one fails, which leaves the harmonised first part. *)
Lemma columns_differ_not_merged (all_columns : list string) (a b : DataFrame) :
  a <> [] -> columns a <> columns b ->
  concat_part fmt_float all_columns a b = inl ShapeError
  \/ (concat_vertical a b = inl SchemaError
      /\ concat_part fmt_float all_columns a b = inr (harmonize all_columns a b).1).
Proof.
  intros Ha Hcols. unfold Polars.concat_part.
  destruct (concat_vertical a b) as [e|r] eqn:E1.
  2:{ destruct Hcols. exact (concat_vertical_names a b r Ha E1). }
  destruct (concat_vertical_error a b e E1) as [-> | ->]; [now left|].
  right. split; [reflexivity|].
  pose proof (concat_vertical_schema_error a b E1) as Hlen.
  destruct (harmonize_columns all_columns a b) as (la & lb & H1 & H2).
  destruct (Polars.harmonize fmt_float all_columns a b) as [a' b']. cbn [fst snd] in *.
  destruct (concat_vertical a' b') as [e2|r] eqn:E2; [destruct e2; reflexivity|].
  exfalso. apply Hcols.
  assert (Ha' : a' <> []).
  { intros ->. destruct a; [contradiction | discriminate]. }
  pose proof (concat_vertical_names a' b' r Ha' E2) as Hn.
  rewrite H1, H2 in Hn.
  apply app_inj_1 in Hn as [Hn _]; [exact Hn|].
  unfold columns. now rewrite !length_map.
Qed.

End WithFormat.
End HarmonizeFacts.

(** C7, as the code has it.  The claim describes what the code sets out
    to do, but [pl.concat] raises [ShapeError] for a missing column and
    line 116 catches [SchemaError] only.  Two parts whose columns are
    not the same names in the same order, as when one has a column [X]
    that the other lacks, are never put together: either the first
    concatenation stops [create_individual_profiles] with [ShapeError],
    or an earlier column raises [SchemaError] first, the columns added
    by the harmonisation come last on each side, the second
    concatenation fails and the harmonised first part is kept, with the
    rows of the first part only.  Part A with the columns [X], [Y]
    and [household_id] and part B with [Y] and [household_id] give
    [ShapeError]; a part with [Y], [X], [household_id] and one with
    [Y] of another type, [Z], [household_id] give the first part
    harmonised, without the row of the second. *)
Theorem C7_missing_column_not_merged :
  (forall fmt all_columns (a b : Polars.DataFrame),
      a <> [] -> Polars.columns a <> Polars.columns b ->
      Polars.concat_part fmt all_columns a b = inl Polars.ShapeError
      \/ (Polars.concat_vertical a b = inl Polars.SchemaError
          /\ Polars.concat_part fmt all_columns a b
             = inr (Polars.harmonize fmt all_columns a b).1
          /\ Polars.height (Polars.harmonize fmt all_columns a b).1 = Polars.height a))
  /\ (forall fmt all_columns (a b : Polars.DataFrame) X,
      X ∈ Polars.columns a -> X ∉ Polars.columns b ->
      forall r, Polars.concat_part fmt all_columns a b = inr r ->
                Polars.height r = Polars.height a)
  /\ (forall fmt all_columns,
      Polars.concat_part fmt all_columns Samples.part_A Samples.part_B
      = inl Polars.ShapeError)
  /\ Polars.concat_part Py.str_float ["X"; "Y"; "Z"; "household_id"]
       Samples.part_C Samples.part_E
     = inr [Polars.mkSeries "Y" Polars.Utf8 [Some (VStr "2")];
            Polars.mkSeries "X" Polars.Int64 [Some (VInt 1)];
            Polars.mkSeries "household_id" Polars.Utf8 [Some (VStr "h1")];
            Polars.mkSeries "Z" Polars.Null [None]].
Proof.
  assert (H : forall fmt all_columns (a b : Polars.DataFrame),
      a <> [] -> Polars.columns a <> Polars.columns b ->
      Polars.concat_part fmt all_columns a b = inl Polars.ShapeError
      \/ (Polars.concat_vertical a b = inl Polars.SchemaError
          /\ Polars.concat_part fmt all_columns a b
             = inr (Polars.harmonize fmt all_columns a b).1
          /\ Polars.height (Polars.harmonize fmt all_columns a b).1 = Polars.height a)).
  { intros fmt all_columns a b Ha Hc.
    destruct (HarmonizeFacts.columns_differ_not_merged fmt all_columns a b Ha Hc)
      as [H | [H1 H2]]; [now left|].
    right. split; [exact H1|]. split; [exact H2|].
    apply HarmonizeFacts.harmonize_height. }
  split; [exact H|]. split.
  - intros fmt all_columns a b X Hin Hout r Hr.
    destruct (H fmt all_columns a b) as [Hs | (_ & Hp & Hh)].
    + intros ->. inversion Hin.
    + intros E. rewrite E in Hin. contradiction.
    + congruence.
    + rewrite Hp in Hr. injection Hr as <-. exact Hh.
  - split; [intros fmt all_columns; reflexivity|]. vm_compute. reflexivity.
Qed.

Lemma C7_missing_column_not_merged_witness :
  Polars.concat_part Py.str_float ["X"; "Y"; "household_id"] Samples.part_A Samples.part_B
  = inl Polars.ShapeError
  \/ (Polars.concat_vertical Samples.part_A Samples.part_B = inl Polars.SchemaError
      /\ Polars.concat_part Py.str_float ["X"; "Y"; "household_id"] Samples.part_A Samples.part_B
         = inr (Polars.harmonize Py.str_float ["X"; "Y"; "household_id"] Samples.part_A
                  Samples.part_B).1
      /\ Polars.height
           (Polars.harmonize Py.str_float ["X"; "Y"; "household_id"] Samples.part_A
                  Samples.part_B).1
         = Polars.height Samples.part_A).
Proof.
  apply (proj1 C7_missing_column_not_merged Py.str_float ["X"; "Y"; "household_id"]
           Samples.part_A Samples.part_B); discriminate.
Defined.

(** * Further properties of the two scripts *)

(** ** The lookup key of [clean_and_map] *)

(** Normalising a key twice changes nothing more: what comes out of
    lines 31-41 is either the rendering as it was or the rendering of an
    integer, which has no dot. *)
Theorem normalize_idempotent (s : string) :
  Pandas.normalize (Pandas.normalize s) = Pandas.normalize s.
Proof.
  assert (H : Pandas.normalize s = s \/ exists i, Pandas.normalize s = Py.str_int i).
  { unfold Pandas.normalize. destruct (has_char "." s); [|now left].
    destruct (Py.float_of_string s) as [f|]; [|now left].
    destruct (Py.is_integer f); [|now left].
    destruct (Py.int_of_float f) as [i|]; [right; eauto | now left]. }
  destruct H as [H | [i H]].
  - f_equal. exact H.
  - rewrite H. apply normalize_str_int.
Qed.

(** ** The keys of the district lookup *)

Lemma str_int_inj (a b : Z) : Py.str_int a = Py.str_int b -> a = b.
Proof.
  assert (Hnn : forall z, Z.to_int z <> Decimal.Pos Decimal.Nil
                          /\ Z.to_int z <> Decimal.Neg Decimal.Nil).
  { intros z. split; intros E; pose proof (DecimalZ.of_to z) as H;
      rewrite E in H; simpl in H; subst z; discriminate. }
  unfold Py.str_int. intros E.
  apply DecimalZ.to_int_inj.
  apply (f_equal NilZero.int_of_string) in E.
  rewrite !NilZero.isi in E by apply Hnn. congruence.
Qed.

Lemma str_int_no_underscore (z : Z) : has_char "_" (Py.str_int z) = false.
Proof.
  destruct (has_char "_" (Py.str_int z)) eqn:E; [|reflexivity].
  apply PyFacts.has_char_str_int in E as [E|E]; discriminate.
Qed.

Lemma split_at_first (c : ascii) (s1 s2 t1 t2 : string) :
  has_char c s1 = false -> has_char c s2 = false ->
  s1 +:+ String c t1 = s2 +:+ String c t2 -> s1 = s2 /\ t1 = t2.
Proof.
  revert s2. induction s1 as [|x s1 IH]; intros [|y s2] H1 H2 E.
  - injection E as ->. now split.
  - change (String y s2 +:+ String c t2) with (String y (s2 +:+ String c t2)) in E.
    injection E as <- _. cbn [has_char] in H2. now rewrite Ascii.eqb_refl in H2.
  - change (String x s1 +:+ String c t1) with (String x (s1 +:+ String c t1)) in E.
    injection E as -> _. cbn [has_char] in H1. now rewrite Ascii.eqb_refl in H1.
  - change (String x s1 +:+ String c t1) with (String x (s1 +:+ String c t1)) in E.
    change (String y s2 +:+ String c t2) with (String y (s2 +:+ String c t2)) in E.
    injection E as -> E. cbn [has_char] in H1, H2.
    apply orb_false_elim in H1 as [_ H1]. apply orb_false_elim in H2 as [_ H2].
    destruct (IH s2 H1 H2 E) as [-> ->]. now split.
Qed.

(** The key written at lines 111 and 128 tells the three codes apart:
    two triples of codes with the same key are the same triple. *)
Theorem mapping_key_inj (a b c a' b' c' : Z) :
  Pandas.mapping_key a b c = Pandas.mapping_key a' b' c' ->
  a = a' /\ b = b' /\ c = c'.
Proof.
  unfold Pandas.mapping_key. intros E.
  change ("_" +:+ ?x) with (String "_" x) in E.
  apply split_at_first in E as [Ea E]; try apply str_int_no_underscore.
  apply split_at_first in E as [Eb Ec]; try apply str_int_no_underscore.
  repeat split; now apply str_int_inj.
Qed.

(** Lines 106-114: the dictionary holds, for every key, the names of
    the last line of the reference table that has the key, and nothing
    for a key no line has. *)
Theorem build_mapping_dict_last (keys : list string) (names : list (cell * cell))
    (k : string) :
  Pandas.build_mapping_dict keys names !! k
  = snd <$> last (filter (fun kv => kv.1 = k) (zip keys names)).
Proof.
  unfold Pandas.build_mapping_dict.
  assert (H : forall (l : list (string * (cell * cell))) (d : gmap string (cell * cell)),
             foldl (fun d kv => <[kv.1 := kv.2]> d) d l !! k
             = match last (filter (fun kv => kv.1 = k) l) with
               | Some kv => Some kv.2
               | None => d !! k
               end).
  { induction l as [|[k' v] l IH]; intros d; [reflexivity|].
    cbn [foldl]. rewrite IH. rewrite filter_cons. cbn [fst snd].
    destruct (decide (k' = k)) as [->|Hne].
    - destruct (filter (fun kv => kv.1 = k) l) as [|x xs] eqn:Ef.
      + cbn. apply lookup_insert_eq.
      + rewrite last_cons_cons. destruct (last (x :: xs)) eqn:El; [reflexivity|].
        apply last_None in El. discriminate.
    - destruct (last (filter (fun kv => kv.1 = k) l)); [reflexivity|].
      now apply lookup_insert_ne. }
  rewrite H. destruct (last _); reflexivity.
Qed.

(** ** Rows the district lookup resolves, and codes it cannot read *)

Module DistrictMore.
Import Pandas.

Lemma for_each_app {A} (l1 l2 : list A) (f : A -> M unit) (df : DataFrame) :
  for_each (l1 ++ l2) f df
  = match for_each l1 f df with
    | (inr _, df1) => for_each l2 f df1
    | (inl e, df1) => (inl e, df1)
    end.
Proof.
  revert df. induction l1 as [|a l1 IH]; intros df; [reflexivity|].
  change ((a :: l1) ++ l2)%list with (a :: (l1 ++ l2))%list.
  cbn [for_each]. unfold bind.
  destruct (f a df) as [[e|[]] df1]; [reflexivity | apply IH].
Qed.

(** The turn of the loop whose key is the row's writes the two names
    into the row. *)
Lemma apply_entry_hit (keys : list string) (k : string) (v1 v2 : cell)
    (df : DataFrame) (st di : list cell) (i : nat) :
  keys !! i = Some k ->
  get_col df "state" = Some st -> get_col df "district" = Some di ->
  is_Some (st !! i) -> is_Some (di !! i) ->
  exists df' st' di',
    apply_entry keys (k, (v1, v2)) df = (inr tt, df')
    /\ get_col df' "state" = Some st' /\ st' !! i = Some v1
    /\ get_col df' "district" = Some di' /\ di' !! i = Some v2.
Proof.
  intros Hk Hst Hdi [x Hx] [y Hy]. unfold apply_entry.
  set (mask := map (String.eqb k) keys).
  assert (Hm : mask !! i = Some true).
  { unfold mask. rewrite list_lookup_fmap, Hk. simpl. now rewrite String.eqb_refl. }
  assert (Hany : existsb id mask = true).
  { apply existsb_exists. exists true. split; [|reflexivity].
    apply list_elem_of_In. now apply (list_elem_of_lookup_2 _ i). }
  rewrite Hany. unfold bind.
  rewrite (DistrictFacts.assign_where_present _ _ _ _ _ Hst).
  assert (Hdi' : get_col (set_col df "state"
                            (zip_with (fun (b : bool) o => if b then v1 else o) mask st))
                         "district" = Some di)
    by (rewrite PandasFacts.get_set_ne by discriminate; exact Hdi).
  rewrite (DistrictFacts.assign_where_present _ _ _ _ _ Hdi').
  eexists _, _, _. split; [reflexivity|]. split.
  { rewrite PandasFacts.get_set_ne by discriminate. apply PandasFacts.get_set_eq. }
  split; [now rewrite lookup_zip_with, Hm, Hx|].
  split; [apply PandasFacts.get_set_eq|]. now rewrite lookup_zip_with, Hm, Hy.
Qed.

End DistrictMore.

(** Lines 134-149 of [src/parse.py]: a row whose key the dictionary
    holds gets the state and district names stored under the key. *)
Theorem pandas_district_resolved (env : Pandas.Env) (districts_df df : Pandas.DataFrame)
    (md : gmap string (cell * cell)) (keys : list string) (i : nat) (k : string)
    (state_name district_name : cell) :
  Pandas.in_columns "FOD Sub-Region" df = true ->
  Pandas.in_columns "District" df = true ->
  Pandas.prepare_lookup env districts_df df = inr (md, keys) ->
  (i < Pandas.height df)%nat -> keys !! i = Some k ->
  md !! k = Some (state_name, district_name) ->
  exists st di,
    Pandas.get_col (Pandas.map_district_codes env districts_df df) "state" = Some st
    /\ st !! i = Some state_name
    /\ Pandas.get_col (Pandas.map_district_codes env districts_df df) "district" = Some di
    /\ di !! i = Some district_name.
Proof.
  intros H1 H2 E Hi Hk Hmd. unfold Pandas.map_district_codes. rewrite H1, H2.
  cbn [negb orb]. unfold Pandas.try_return_df.
  rewrite (DistrictFacts.district_body_ok env _ _ _ _ E). cbn [snd].
  set (df0 := Pandas.set_col (Pandas.set_col df "state" _) "district" _).
  assert (Hin : (k, (state_name, district_name)) ∈ map_to_list md)
    by now apply elem_of_map_to_list.
  apply list_elem_of_split in Hin as (l1 & l2 & Hl).
  pose proof (NoDup_fst_map_to_list md) as Hnd. rewrite Hl in Hnd.
  rewrite fmap_app, fmap_cons in Hnd. cbn [fst] in Hnd.
  apply NoDup_app in Hnd as (_ & Hl1 & Hnd). apply NoDup_cons in Hnd as [Hl2 _].
  assert (Hk1 : k ∉ map fst l1).
  { intros Hx. apply (Hl1 k Hx). now left. }
  rewrite Hl, DistrictMore.for_each_app.
  destruct (DistrictFacts.for_each_entries keys l1 df0) as (df1 & -> & _ & Hr1).
  destruct (Hr1 "state" (replicate (Pandas.height df) (Some (VStr "Unknown State"))))
    as (st1 & Hst1 & Hrow1); [now left | |].
  { unfold df0. rewrite PandasFacts.get_set_ne by discriminate.
    apply PandasFacts.get_set_eq. }
  destruct (Hr1 "district" (replicate (Pandas.height df) (Some (VStr "Unknown District"))))
    as (di1 & Hdi1 & Hrow1'); [now right | apply PandasFacts.get_set_eq |].
  cbn [Pandas.for_each]. unfold Pandas.bind.
  destruct (DistrictMore.apply_entry_hit keys k state_name district_name df1 st1 di1 i
              Hk Hst1 Hdi1)
    as (df2 & st2 & di2 & -> & Hst2 & Hv1 & Hdi2 & Hv2).
  { exists (Some (VStr "Unknown State")).
    etransitivity; [exact (Hrow1 i k Hk Hk1)|]. now apply lookup_replicate_2. }
  { exists (Some (VStr "Unknown District")).
    etransitivity; [exact (Hrow1' i k Hk Hk1)|]. now apply lookup_replicate_2. }
  destruct (DistrictFacts.for_each_entries keys l2 df2) as (df3 & -> & _ & Hr3).
  cbn [snd].
  destruct (Hr3 "state" st2 (or_introl eq_refl) Hst2) as (st3 & Hst3 & Hrow3).
  destruct (Hr3 "district" di2 (or_intror eq_refl) Hdi2) as (di3 & Hdi3 & Hrow3').
  exists st3, di3. split; [exact Hst3|]. split.
  { etransitivity; [exact (Hrow3 i k Hk Hl2)|]. exact Hv1. }
  split; [exact Hdi3|].
  etransitivity; [exact (Hrow3' i k Hk Hl2)|]. exact Hv2.
Qed.

Lemma pandas_district_resolved_witness :
  exists st di,
    Pandas.get_col
      (Pandas.map_district_codes Samples.env_no_logs Samples.districts_csv
         Samples.pandas_district) "state"
    = Some st
    /\ st !! 2%nat = Some (Some (VStr "Jammu & Kashmir"))
    /\ Pandas.get_col
         (Pandas.map_district_codes Samples.env_no_logs Samples.districts_csv
            Samples.pandas_district)
         "district" = Some di
    /\ di !! 2%nat = Some (Some (VStr "Badgam")).
Proof.
  apply (pandas_district_resolved Samples.env_no_logs Samples.districts_csv
           Samples.pandas_district
           (Pandas.build_mapping_dict ["11_1_1"; "12_2_1"]
              [(Some (VStr "Jammu & Kashmir"), Some (VStr "Kupwara"));
               (Some (VStr "Jammu & Kashmir"), Some (VStr "Badgam"))])
           ["11_1_1"; "99_5_1"; "12_2_1"] 2%nat "12_2_1").
  - reflexivity.
  - reflexivity.
  - vm_compute. reflexivity.
  - vm_compute. lia.
  - reflexivity.
  - vm_compute. reflexivity.
Defined.

Lemma convert_each_raises (f : cell -> Pandas.exn + Z) (vs : list cell) (c : cell) :
  c ∈ vs -> (exists e, f c = inl e) -> exists e, Pandas.convert_each f vs = inl e.
Proof.
  intros Hin Hc. induction vs as [|x vs IH]; [inversion Hin|].
  cbn [Pandas.convert_each].
  destruct (f x) as [e|z] eqn:Ex; [eauto|].
  apply elem_of_cons in Hin as [<-|Hin].
  - destruct Hc as [e He]. congruence.
  - destruct (IH Hin) as [e ->]. eauto.
Qed.

Lemma astype_int_missing (env : Pandas.Env) (vs : list cell) (c : cell) :
  c ∈ vs -> pd_isna c = true -> exists e, Pandas.astype_int env vs = inl e.
Proof.
  intros Hin Hna. apply (convert_each_raises _ vs c Hin).
  destruct c as [[z'|[]|t]|]; simpl in Hna; try discriminate; cbn; eauto.
Qed.

(** Lines 88-91 and 176-180 of [src/parse.py]: one missing value (None
    or NaN) among the [FOD Sub-Region] or [District] codes makes
    [astype(int)] raise, and the frame comes back without the [state]
    and [district] columns, exactly as it was given. *)
Theorem pandas_district_missing_code (env : Pandas.Env)
    (districts_df df : Pandas.DataFrame) (col : string) (vs : list cell) (c : cell) :
  col = "FOD Sub-Region" \/ col = "District" ->
  Pandas.get_col df col = Some vs -> c ∈ vs -> pd_isna c = true ->
  Pandas.map_district_codes env districts_df df = df.
Proof.
  intros Hcol Hvs Hin Hna.
  destruct (astype_int_missing env vs c Hin Hna) as [e He].
  assert (Hraise : exists e', Pandas.prepare_lookup env districts_df df = inl e').
  { unfold Pandas.prepare_lookup, Pandas.and_then.
    destruct (Pandas.makedirs env "logs"); [eauto|].
    destruct (Pandas.int_column env districts_df "Sub-region Code"); [eauto|].
    destruct (Pandas.int_column env districts_df "District Code"); [eauto|].
    destruct (Pandas.int_column env districts_df "State Code"); [eauto|].
    destruct Hcol as [-> | ->].
    - unfold Pandas.int_column at 1, Pandas.get_or_raise. rewrite Hvs, He. eauto.
    - destruct (Pandas.int_column env df "FOD Sub-Region"); [eauto|].
      unfold Pandas.int_column at 1, Pandas.get_or_raise. rewrite Hvs, He. eauto. }
  destruct Hraise as [e' He'].
  now apply (DistrictFacts.pandas_district_failure env _ _ e').
Qed.

Lemma pandas_district_missing_code_witness :
  Pandas.map_district_codes Samples.env_ok Samples.districts_csv
    Samples.pandas_district_nan
  = Samples.pandas_district_nan.
Proof.
  apply (pandas_district_missing_code Samples.env_ok Samples.districts_csv
           Samples.pandas_district_nan
           "District" _ (Some (VFloat Py.FNan)) (or_intror eq_refl) eq_refl).
  - eapply bool_decide_unpack; vm_compute; exact I.
  - reflexivity.
Defined.

(** Lines 94-103 of [src/parse.py]: for an integer region code from 0
    to 999, the state code that enters the key is the region code
    without its last digit, or the code itself when it has one digit. *)
Theorem extract_state_code_int (n : Z) :
  0 <= n < 1000 ->
  Py.int_of_string (Pandas.extract_state_code (Some (VInt n)))
  = Some (if n <? 10 then n else n / 10).
Proof.
  intros Hn.
  assert (Hall : forallb (fun k =>
             bool_decide (Py.int_of_string (Pandas.extract_state_code (Some (VInt k)))
                          = Some (if k <? 10 then k else k / 10)))
           (seqZ 0 1000) = true) by (vm_compute; reflexivity).
  rewrite forallb_forall in Hall.
  assert (Hmem : In n (seqZ 0 1000)) by (apply list_elem_of_In, elem_of_seqZ; lia).
  apply Hall in Hmem. now apply bool_decide_eq_true in Hmem.
Qed.

Lemma extract_state_code_int_witness :
  Py.int_of_string (Pandas.extract_state_code (Some (VInt 273))) = Some 27.
Proof. apply (extract_state_code_int 273). lia. Defined.

(** ** More on the household key of the polars script *)

Module KeyMore.
Import Polars.

Section WithFormat.
Variable fmt_float : Py.float -> string.

Local Abbreviation cast_cell := (cast_cell fmt_float).
Local Abbreviation cast_utf8 := (cast_utf8 fmt_float).
Local Abbreviation concat_cells := (concat_cells fmt_float).
Local Abbreviation cast_str := (cast_str fmt_float).

Lemma concat_cells_None (cells : list cell) :
  concat_cells cells = None <-> None ∈ cells.
Proof.
  induction cells as [|[v|] cells IH]; cbn [Polars.concat_cells].
  - split; [discriminate | intros H; inversion H].
  - rewrite elem_of_cons. destruct (concat_cells cells) eqn:E; simpl.
    + split; [discriminate|]. intros [H|H]; [discriminate|]. apply IH in H. discriminate.
    + split; [|reflexivity]. intros _. right. now apply IH.
  - split; [|reflexivity]. intros _. now left.
Qed.

Lemma concat_cells_values (vs : list value) :
  concat_cells (map Some vs) = Some (foldr String.append EmptyString (map cast_str vs)).
Proof.
  induction vs as [|v vs IH]; [reflexivity|]. cbn [map Polars.concat_cells foldr].
  now rewrite IH.
Qed.

Lemma cast_utf8_is_text (s : Series) : is_text (cast_utf8 s).
Proof.
  split; [reflexivity|]. intros c Hc. simpl in Hc.
  apply list_elem_of_fmap in Hc as ([v|] & -> & _); simpl; eauto.
Qed.

Lemma cast_step_text (df : DataFrame) (c col : string) (s : Series) :
  get_column df col = Some s -> is_text s ->
  exists s', get_column (match get_column df c with
                         | Some t => with_column df (cast_utf8 t)
                         | None => df
                         end) col = Some s' /\ is_text s'.
Proof.
  intros Hs Ht. destruct (get_column df c) as [t|] eqn:Hc; [|eauto].
  pose proof (PolarsFacts.get_column_name _ _ _ Hc) as Hn.
  destruct (String.eqb_spec c col) as [->|Hne].
  - exists (cast_utf8 t). split; [|apply cast_utf8_is_text].
    rewrite <- Hn. exact (PolarsFacts.get_with_eq df (cast_utf8 t)).
  - exists s. split; [|exact Ht].
    rewrite PolarsFacts.get_with_ne; [exact Hs | simpl; congruence].
Qed.

Lemma cast_all_text (cols : list string) (df : DataFrame) (col : string) :
  col ∈ cols -> col ∈ columns df ->
  exists s, get_column
              (foldl (fun df col =>
                        match get_column df col with
                        | Some s => with_column df (cast_utf8 s)
                        | None => df
                        end) df cols) col = Some s /\ is_text s.
Proof.
  assert (Hkeep : forall cols df s, get_column df col = Some s -> is_text s ->
            exists s', get_column
                         (foldl (fun df col =>
                                   match get_column df col with
                                   | Some s => with_column df (cast_utf8 s)
                                   | None => df
                                   end) df cols) col = Some s' /\ is_text s').
  { clear. induction cols as [|c cols IH]; intros df s Hs Ht; [eauto|].
    cbn [foldl]. destruct (cast_step_text df c col s Hs Ht) as (s1 & Hs1 & Ht1).
    exact (IH _ s1 Hs1 Ht1). }
  revert df. induction cols as [|c cols IH]; intros df Hin Hcol; [inversion Hin|].
  cbn [foldl]. destruct (decide (col = c)) as [->|Hne].
  - apply PolarsFacts.get_column_in in Hcol as [t Ht]. rewrite Ht.
    apply (Hkeep cols _ (cast_utf8 t)); [|apply cast_utf8_is_text].
    rewrite <- (PolarsFacts.get_column_name _ _ _ Ht).
    exact (PolarsFacts.get_with_eq df (cast_utf8 t)).
  - apply elem_of_cons in Hin as [Hin|Hin]; [contradiction|].
    apply IH; [exact Hin|].
    destruct (get_column df c) as [t|] eqn:Hc; [|exact Hcol].
    rewrite PolarsFacts.columns_with_present; [exact Hcol|].
    simpl. rewrite (PolarsFacts.get_column_name _ _ _ Hc).
    apply PolarsFacts.get_column_in. eauto.
Qed.


Lemma add_household_id_some (group_by : list string) (df : DataFrame) :
  filter (fun col => col ∈ columns df) group_by <> [] ->
  exists ids,
    add_household_id fmt_float group_by df
    = Some (with_column
              (foldl (fun df col =>
                        match get_column df col with
                        | Some s => with_column df (cast_utf8 s)
                        | None => df
                        end) df (filter (fun col => col ∈ columns df) group_by))
              (mkSeries "household_id" Utf8 (map (option_map VStr) ids))).
Proof.
  intros Hne. unfold add_household_id.
  set (avail := filter (fun col => col ∈ columns df) group_by) in *.
  rewrite bool_decide_eq_false_2 by exact Hne.
  pose proof (KeyFacts.same_text_cast_all fmt_float avail df) as (Hcols & _ & _).
  set (df1 := foldl _ df avail) in *.
  destruct (KeyFacts.select_columns_present df1 avail) as (ss & Hsel & _).
  { apply Forall_forall. intros n Hn. rewrite Hcols.
    unfold avail in Hn. now apply list_elem_of_filter in Hn as [Hn _]. }
  unfold concat_str. rewrite Hsel.
  exists (map concat_cells (rows_of (height df1) (map values ss))).
  now rewrite map_map.
Qed.

End WithFormat.
End KeyMore.

Lemma no_key_column (group_by cols : list string) :
  filter (fun col => col ∈ cols) group_by = []
  <-> forall col, col ∈ group_by -> col ∉ cols.
Proof.
  split.
  - intros Hnil col Hcol Hin.
    assert (Hmem : col ∈ filter (fun col => col ∈ cols) group_by)
      by (apply list_elem_of_filter; split; assumption).
    rewrite Hnil in Hmem. inversion Hmem.
  - intros Hall. destruct (filter _ group_by) as [|c l] eqn:E; [reflexivity|].
    assert (Hc : c ∈ filter (fun col => col ∈ cols) group_by)
      by (rewrite E; now left).
    apply list_elem_of_filter in Hc as [Hc1 Hc2]. now destruct (Hall c Hc2).
Qed.

(** Lines 38-67 of [src/2019/parse.py]: the key is built whenever the
    frame has at least one of the key columns, so the step gives no
    frame exactly when it has none of them. *)
Theorem add_household_id_none_iff (fmt : Py.float -> string) (group_by : list string)
    (df : Polars.DataFrame) :
  Polars.add_household_id fmt group_by df = None
  <-> forall col, col ∈ group_by -> col ∉ Polars.columns df.
Proof.
  rewrite <- no_key_column. split.
  - intros Hnone.
    destruct (decide (filter (fun col => col ∈ Polars.columns df) group_by = []))
      as [Hnil|Hsome]; [exact Hnil|].
    destruct (KeyMore.add_household_id_some fmt group_by df Hsome) as [ids Hids].
    congruence.
  - intros Hnil. unfold Polars.add_household_id.
    now rewrite bool_decide_eq_true_2 by exact Hnil.
Qed.

(** Lines 20-71: a file gives no frame exactly when it has fewer than
    two columns or when, after the first, third and fourth columns are
    set aside and the aliases renamed, none of the grouping columns is
    left. *)
Theorem process_parquet_file_none (fmt : Py.float -> string) (df : Polars.DataFrame) :
  Polars.process_parquet_file fmt df = None
  <-> (length df < 2)%nat
      \/ exists kept, Polars.keep_columns df = inr kept
           /\ forall col, col ∈ Polars.GROUP_BY_COLUMNS ->
                col ∉ Polars.columns (Polars.normalize_names kept).
Proof.
  unfold Polars.process_parquet_file.
  destruct df as [|a [|b rest]]; cbn [Polars.keep_columns length].
  - split; [intros _; left; lia | reflexivity].
  - split; [intros _; left; lia | reflexivity].
  - split.
    + intros Hnone. right. eexists. split; [reflexivity|].
      apply no_key_column.
      destruct (decide (filter (fun col => col ∈ Polars.columns
                                  (Polars.normalize_names (b :: skipn 2 rest)))
                          Polars.GROUP_BY_COLUMNS = [])) as [Hnil|Hsome]; [exact Hnil|].
      destruct (KeyMore.add_household_id_some fmt _ _ Hsome) as [ids Hids].
      congruence.
    + intros [H | (kept & [= <-] & H)]; [lia|].
      apply no_key_column in H. unfold Polars.add_household_id.
      now rewrite bool_decide_eq_true_2 by exact H.
Qed.

(** Lines 50-60: a null in any key cell of a row makes the row's
    [household_id] null; when no key cell is null, the key is the cast
    parts joined in order. *)
Theorem household_id_null_or_joined (fmt : Py.float -> string) (group_by : list string)
    (df : Polars.DataFrame) (i : nat) (cells : list cell) :
  filter (fun col => col ∈ Polars.columns df) group_by <> [] ->
  "household_id" ∉ Polars.columns df ->
  (i < Polars.height df)%nat ->
  Forall2 (fun col c => exists s, Polars.get_column df col = Some s
                                  /\ Polars.values s !! i = Some c)
          (filter (fun col => col ∈ Polars.columns df) group_by) cells ->
  exists df' hh,
    Polars.add_household_id fmt group_by df = Some df'
    /\ Polars.get_column df' "household_id" = Some hh
    /\ (None ∈ cells -> Polars.values hh !! i = Some None)
    /\ (forall vs, cells = map Some vs ->
          Polars.values hh !! i
          = Some (Some (VStr (foldr String.append EmptyString
                                (map (Polars.cast_str fmt) vs))))).
Proof.
  intros H1 H2 H3 H4.
  destruct (KeyFacts.add_household_id_row fmt group_by df i cells H1 H2 H3 H4)
    as (df' & hh & Hadd & _ & Hget & _ & Hrow).
  exists df', hh. split; [exact Hadd|]. split; [exact Hget|]. split.
  - intros Hnull. rewrite Hrow.
    apply (proj2 (KeyMore.concat_cells_None fmt cells)) in Hnull. now rewrite Hnull.
  - intros vs ->. rewrite Hrow. now rewrite KeyMore.concat_cells_values.
Qed.

(** The parts are joined with nothing between them, so two rows whose
    parts differ but join to the same string get the same key. *)
Theorem household_id_collision (fmt : Py.float -> string) (group_by : list string)
    (df : Polars.DataFrame) (i j : nat) (vi vj : list value) :
  filter (fun col => col ∈ Polars.columns df) group_by <> [] ->
  "household_id" ∉ Polars.columns df ->
  (i < Polars.height df)%nat -> (j < Polars.height df)%nat ->
  Forall2 (fun col c => exists s, Polars.get_column df col = Some s
                                  /\ Polars.values s !! i = Some c)
          (filter (fun col => col ∈ Polars.columns df) group_by) (map Some vi) ->
  Forall2 (fun col c => exists s, Polars.get_column df col = Some s
                                  /\ Polars.values s !! j = Some c)
          (filter (fun col => col ∈ Polars.columns df) group_by) (map Some vj) ->
  foldr String.append EmptyString (map (Polars.cast_str fmt) vi)
  = foldr String.append EmptyString (map (Polars.cast_str fmt) vj) ->
  exists df' hh,
    Polars.add_household_id fmt group_by df = Some df'
    /\ Polars.get_column df' "household_id" = Some hh
    /\ Polars.values hh !! i = Polars.values hh !! j.
Proof.
  intros H1 H2 Hi Hj Hci Hcj Heq.
  destruct (KeyFacts.add_household_id_row fmt group_by df i _ H1 H2 Hi Hci)
    as (df' & hh & Hadd & _ & Hget & _ & Hrow).
  destruct (KeyFacts.add_household_id_row fmt group_by df j _ H1 H2 Hj Hcj)
    as (df'' & hh' & Hadd' & _ & Hget' & _ & Hrow').
  rewrite KeyMore.concat_cells_values in Hrow, Hrow'.
  assert (df'' = df') by congruence. subst df''.
  assert (hh' = hh) by congruence. subst hh'.
  exists df', hh. split; [exact Hadd|]. split; [exact Hget|].
  etransitivity; [exact Hrow|]. symmetry.
  etransitivity; [exact Hrow'|]. cbn [option_map]. now rewrite Heq.
Qed.

(** Lines 53-54: in the frame that comes out, every key column the
    input had is a column of strings. *)
Theorem household_key_columns_text (fmt : Py.float -> string) (group_by : list string)
    (df df' : Polars.DataFrame) (col : string) :
  Polars.add_household_id fmt group_by df = Some df' ->
  col ∈ group_by -> col ∈ Polars.columns df ->
  exists s, Polars.get_column df' col = Some s /\ Polars.is_text s.
Proof.
  intros Hadd Hg Hc.
  assert (Hav : col ∈ filter (fun col => col ∈ Polars.columns df) group_by)
    by (apply list_elem_of_filter; split; assumption).
  destruct (KeyMore.add_household_id_some fmt group_by df) as [ids Hids].
  { intros Hnil. rewrite Hnil in Hav. inversion Hav. }
  rewrite Hids in Hadd. injection Hadd as <-.
  destruct (String.eqb_spec col "household_id") as [->|Hne].
  - eexists. split.
    + match goal with |- Polars.get_column (Polars.with_column ?d ?t) _ = _ =>
        exact (PolarsFacts.get_with_eq d t) end.
    + split; [reflexivity|]. intros c Hin. simpl in Hin.
      apply list_elem_of_fmap in Hin as ([t|] & -> & _); simpl; eauto.
  - destruct (KeyMore.cast_all_text fmt _ df col Hav Hc) as (s & Hs & Ht).
    exists s. split; [|exact Ht].
    rewrite PolarsFacts.get_with_ne; [exact Hs | simpl; congruence].
Qed.


Lemma household_id_null_or_joined_witness :
  exists df' hh,
    Polars.add_household_id Py.str_float ["State"; "District"] Samples.polars_district
    = Some df'
    /\ Polars.get_column df' "household_id" = Some hh
    /\ Polars.values hh !! 2%nat = Some None
    /\ Polars.values hh !! 1%nat = Some (Some (VStr "17")).
Proof.
  destruct (household_id_null_or_joined Py.str_float ["State"; "District"]
              Samples.polars_district 2%nat [None; Some (VInt 1)])
    as (df' & hh & Hadd & Hget & Hnull & _).
  - vm_compute. discriminate.
  - eapply bool_decide_unpack; vm_compute; exact I.
  - vm_compute. lia.
  - vm_compute. repeat constructor; eexists; split; reflexivity.
  - destruct (household_id_null_or_joined Py.str_float ["State"; "District"]
                Samples.polars_district 1%nat [Some (VInt 1); Some (VInt 7)])
      as (df'' & hh' & Hadd' & Hget' & _ & Hjoin).
    + vm_compute. discriminate.
    + eapply bool_decide_unpack; vm_compute; exact I.
    + vm_compute. lia.
    + vm_compute. repeat constructor; eexists; split; reflexivity.
    + assert (df'' = df') by congruence. subst df''.
      assert (hh' = hh) by congruence. subst hh'.
      exists df', hh. split; [exact Hadd|]. split; [exact Hget|]. split.
      * apply Hnull. now left.
      * exact (Hjoin [VInt 1; VInt 7] eq_refl).
Defined.

Lemma household_id_collision_witness :
  exists df' hh,
    Polars.add_household_id Py.str_float ["State"; "District"]
      Samples.polars_two_households = Some df'
    /\ Polars.get_column df' "household_id" = Some hh
    /\ Polars.values hh !! 0%nat = Polars.values hh !! 1%nat.
Proof.
  apply (household_id_collision Py.str_float ["State"; "District"]
           Samples.polars_two_households 0%nat 1%nat
           [VStr "1"; VStr "23"] [VStr "12"; VStr "3"]).
  - vm_compute. discriminate.
  - eapply bool_decide_unpack; vm_compute; exact I.
  - vm_compute. lia.
  - vm_compute. lia.
  - vm_compute. repeat constructor; eexists; split; reflexivity.
  - vm_compute. repeat constructor; eexists; split; reflexivity.
  - reflexivity.
Defined.

Lemma household_key_columns_text_witness :
  exists s,
    Polars.get_column
      [Polars.mkSeries "State" Polars.Utf8
         [Some (VStr "1"); Some (VStr "1"); None; Some (VStr "9")];
       Polars.mkSeries "District" Polars.Utf8
         [Some (VStr "1"); Some (VStr "7"); Some (VStr "1"); Some (VStr "1")];
       Polars.mkSeries "Age" Polars.Int64
         [Some (VInt 30); Some (VInt 31); Some (VInt 32); Some (VInt 33)];
       Polars.mkSeries "household_id" Polars.Utf8
         [Some (VStr "11"); Some (VStr "17"); None; Some (VStr "91")]] "State" = Some s
    /\ Polars.is_text s.
Proof.
  apply (household_key_columns_text Py.str_float ["State"; "District"]
           Samples.polars_district).
  - vm_compute. reflexivity.
  - eapply bool_decide_unpack; vm_compute; exact I.
  - eapply bool_decide_unpack; vm_compute; exact I.
Defined.

(** ** Column aliases of the polars script *)

Module AliasFacts.
Import Polars.

Local Set Warnings "-inconsistent-scopes".

(** One turn of the inner loop of lines 33-36. *)
Local Abbreviation alias_step standard_name df alias :=
  (if bool_decide (alias ∈ columns df) && negb (bool_decide (standard_name ∈ columns df))
   then rename df alias standard_name else df).

Lemma rename_data (df : DataFrame) (old new : string) :
  map values (rename df old new) = map values df
  /\ map dtype_of (rename df old new) = map dtype_of df.
Proof.
  unfold rename. rewrite !map_map. split; apply map_ext; intros s;
    now destruct (String.eqb (name s) old).
Qed.

Lemma height_values (df df' : DataFrame) :
  map values df' = map values df -> height df' = height df.
Proof.
  destruct df' as [|s' r'], df as [|s r]; try discriminate; [reflexivity|].
  cbn. now intros [= -> _].
Qed.

Lemma normalize_names_steps (df : DataFrame) :
  normalize_names df
  = alias_step "Sl.No."
      (alias_step "Sl.No." (alias_step "Schedule" df ", Schedule") "Person serial no.")
      "Serial no.of member".
Proof. reflexivity. Qed.

Lemma alias_step_data (standard_name alias : string) (df : DataFrame) :
  map values (alias_step standard_name df alias) = map values df
  /\ map dtype_of (alias_step standard_name df alias) = map dtype_of df.
Proof.
  destruct (_ && _); [apply rename_data | split; reflexivity].
Qed.

Lemma alias_step_present (standard_name alias : string) (df : DataFrame) :
  standard_name ∈ columns df -> alias_step standard_name df alias = df.
Proof.
  intros H. rewrite (bool_decide_eq_true_2 _ H).
  now rewrite andb_false_r.
Qed.

Lemma alias_step_other (standard_name alias c : string) (df : DataFrame) :
  c <> alias -> c <> standard_name ->
  get_column (alias_step standard_name df alias) c = get_column df c.
Proof.
  intros H1 H2. destruct (_ && _); [|reflexivity].
  now apply PolarsDistrictFacts.get_column_rename_ne.
Qed.

Lemma alias_step_other_in (standard_name alias c : string) (df : DataFrame) :
  c <> alias -> c <> standard_name ->
  c ∈ columns (alias_step standard_name df alias) <-> c ∈ columns df.
Proof.
  intros H1 H2.
  etransitivity; [apply PolarsFacts.get_column_in|].
  etransitivity; [|symmetry; apply PolarsFacts.get_column_in].
  now rewrite (alias_step_other standard_name alias c df H1 H2).
Qed.

Lemma alias_step_hit (standard_name alias : string) (df : DataFrame) (s : Series) :
  get_column df alias = Some s -> standard_name ∉ columns df ->
  get_column (alias_step standard_name df alias) standard_name
  = Some (mkSeries standard_name (dtype_of s) (values s)).
Proof.
  intros Hs Hn.
  assert (Hin : alias ∈ columns df) by (apply PolarsFacts.get_column_in; eauto).
  rewrite (bool_decide_eq_true_2 _ Hin), (bool_decide_eq_false_2 _ Hn).
  cbn [andb negb]. now apply PolarsDistrictFacts.get_column_rename.
Qed.

End AliasFacts.

(** The renaming of lines 33-36 touches names only: the cells and the
    types of the columns, their number and their order stay as they
    were read. *)
Theorem normalize_names_keeps_data (df : Polars.DataFrame) :
  map Polars.values (Polars.normalize_names df) = map Polars.values df
  /\ map Polars.dtype_of (Polars.normalize_names df) = map Polars.dtype_of df
  /\ Polars.height (Polars.normalize_names df) = Polars.height df.
Proof.
  assert (H : map Polars.values (Polars.normalize_names df) = map Polars.values df
              /\ map Polars.dtype_of (Polars.normalize_names df) = map Polars.dtype_of df).
  { rewrite AliasFacts.normalize_names_steps.
    split.
    - etransitivity; [apply AliasFacts.alias_step_data|].
      etransitivity; [apply AliasFacts.alias_step_data|].
      apply AliasFacts.alias_step_data.
    - etransitivity; [apply AliasFacts.alias_step_data|].
      etransitivity; [apply AliasFacts.alias_step_data|].
      apply AliasFacts.alias_step_data. }
  destruct H as [Hv Hd]. split; [exact Hv|]. split; [exact Hd|].
  now apply AliasFacts.height_values.
Qed.

(** A file that already carries the canonical names [Schedule] and
    [Sl.No.] is left as it is, whatever aliases it carries besides. *)
Theorem normalize_names_canonical (df : Polars.DataFrame) :
  "Schedule" ∈ Polars.columns df -> "Sl.No." ∈ Polars.columns df ->
  Polars.normalize_names df = df.
Proof.
  intros H1 H2. rewrite AliasFacts.normalize_names_steps.
  rewrite (AliasFacts.alias_step_present "Schedule" ", Schedule" df H1).
  rewrite (AliasFacts.alias_step_present "Sl.No." "Person serial no." df H2).
  exact (AliasFacts.alias_step_present "Sl.No." "Serial no.of member" df H2).
Qed.

Lemma normalize_names_canonical_witness :
  Polars.normalize_names
    [Polars.mkSeries "Schedule" Polars.Int64 [Some (VInt 10)];
     Polars.mkSeries "Person serial no." Polars.Int64 [Some (VInt 7)];
     Polars.mkSeries "Sl.No." Polars.Int64 [Some (VInt 1)]]
  = [Polars.mkSeries "Schedule" Polars.Int64 [Some (VInt 10)];
     Polars.mkSeries "Person serial no." Polars.Int64 [Some (VInt 7)];
     Polars.mkSeries "Sl.No." Polars.Int64 [Some (VInt 1)]].
Proof.
  apply normalize_names_canonical; eapply bool_decide_unpack; vm_compute; exact I.
Defined.

(** Without a [Sl.No.] column the member's serial number is taken from
    [Person serial no.] when the file has it, and from
    [Serial no.of member] only when it has not: the first alias of the
    list wins, with the cells and the type of the column it names. *)
Theorem normalize_names_serial (df : Polars.DataFrame) (s : Polars.Series) :
  "Sl.No." ∉ Polars.columns df ->
  Polars.get_column df "Person serial no." = Some s
  \/ (("Person serial no." ∉ Polars.columns df)
      /\ Polars.get_column df "Serial no.of member" = Some s) ->
  Polars.get_column (Polars.normalize_names df) "Sl.No."
  = Some (Polars.mkSeries "Sl.No." (Polars.dtype_of s) (Polars.values s)).
Proof.
  intros Hn H. rewrite AliasFacts.normalize_names_steps.
  pose proof (AliasFacts.alias_step_other_in "Schedule" ", Schedule" "Sl.No." df
                ltac:(discriminate) ltac:(discriminate)) as Hn1.
  pose proof (AliasFacts.alias_step_other_in "Schedule" ", Schedule" "Person serial no." df
                ltac:(discriminate) ltac:(discriminate)) as Hp1.
  pose proof (AliasFacts.alias_step_other "Schedule" ", Schedule" "Person serial no." df
                ltac:(discriminate) ltac:(discriminate)) as Hg1.
  pose proof (AliasFacts.alias_step_other "Schedule" ", Schedule" "Serial no.of member" df
                ltac:(discriminate) ltac:(discriminate)) as Hg2.
  revert Hn1 Hp1 Hg1 Hg2.
  generalize (if bool_decide (", Schedule" ∈ Polars.columns df) && negb (bool_decide ("Schedule" ∈ Polars.columns df))
       then Polars.rename df ", Schedule" "Schedule" else df).
  intros d1 Hn1 Hp1 Hg1 Hg2.
  assert (Hn' : "Sl.No." ∉ Polars.columns d1) by (now rewrite Hn1).
  destruct H as [Hs | [Hp Hs]].
  - rewrite <- Hg1 in Hs.
    pose proof (AliasFacts.alias_step_hit "Sl.No." "Person serial no." d1 s Hs Hn') as Hhit.
    rewrite AliasFacts.alias_step_present; [exact Hhit|].
    apply PolarsFacts.get_column_in. rewrite Hhit. eauto.
  - assert (Hp' : "Person serial no." ∉ Polars.columns d1) by (now rewrite Hp1).
    rewrite (bool_decide_eq_false_2 _ Hp'). cbn [andb].
    rewrite <- Hg2 in Hs.
    exact (AliasFacts.alias_step_hit "Sl.No." "Serial no.of member" d1 s Hs Hn').
Qed.

Lemma normalize_names_serial_witness :
  Polars.get_column
    (Polars.normalize_names
       [Polars.mkSeries ", Schedule" Polars.Int64 [Some (VInt 10)];
        Polars.mkSeries "Serial no.of member" Polars.Int64 [Some (VInt 2)];
        Polars.mkSeries "Person serial no." Polars.Int64 [Some (VInt 7)]])
    "Sl.No."
  = Some (Polars.mkSeries "Sl.No." Polars.Int64 [Some (VInt 7)]).
Proof.
  apply (normalize_names_serial _ (Polars.mkSeries "Person serial no." Polars.Int64 [Some (VInt 7)])).
  - eapply bool_decide_unpack; vm_compute; exact I.
  - left. reflexivity.
Defined.

(** ** Rows kept while the parts of one table are put together *)

Module ConcatFacts.
Import Polars.

Section WithFormat.
Variable fmt_float : Py.float -> string.
Local Abbreviation cast_utf8 := (cast_utf8 fmt_float).
Local Abbreviation harmonize := (harmonize fmt_float).

(** What the harmonisation leaves of a column of the accumulated frame. *)
Lemma harmonize_left (all_columns : list string) (a b : DataFrame) (c : string) (s : Series) :
  NoDup all_columns -> get_column a c = Some s ->
  get_column (harmonize all_columns a b).1 c = Some s
  \/ get_column (harmonize all_columns a b).1 c = Some (cast_utf8 s).
Proof.
  intros Hnd Hs. destruct (decide (c ∈ all_columns)) as [Hin|Hin].
  - pose proof (HarmonizeFacts.harmonize_spec fmt_float all_columns a b c Hnd Hin) as H.
    destruct (Polars.harmonize fmt_float all_columns a b) as [a' b']. cbn [fst].
    unfold Polars.harmonized in H. rewrite Hs in H.
    destruct (get_column b c) as [t|].
    + destruct (bool_decide (dtype_of s <> dtype_of t)); injection H as -> _; auto.
    + injection H as -> _; auto.
  - pose proof (HarmonizeFacts.harmonize_other fmt_float all_columns a b c Hin) as H.
    destruct (Polars.harmonize fmt_float all_columns a b) as [a' b']. cbn [fst].
    destruct H as (_ & _ & -> & _). auto.
Qed.

End WithFormat.
End ConcatFacts.

(** One more part put under the accumulated frame (lines 112-151).  The
    step stops [create_individual_profiles] exactly when the first
    concatenation raises [ShapeError], the exception line 116 does not
    catch.  When it goes on, it has not cost a row already there: the
    new frame has the rows of both parts, or, when the second
    concatenation fails, those of the accumulated frame alone; and each
    column of the accumulated frame is still there under its name, its
    cells first, as they were or cast to strings. *)
Theorem concat_part_keeps_rows
    (fmt : Py.float -> string) (all_columns : list string)
    (a b : Polars.DataFrame) :
  NoDup all_columns ->
  (forall e, Polars.concat_part fmt all_columns a b = inl e
             <-> e = Polars.ShapeError /\ Polars.concat_vertical a b = inl Polars.ShapeError)
  /\ forall r,
       Polars.concat_part fmt all_columns a b = inr r ->
       (Polars.height r = (Polars.height a + Polars.height b)%nat
        \/ Polars.height r = Polars.height a)
       /\ forall c s,
            Polars.get_column a c = Some s ->
            exists s' rest,
              Polars.get_column r c = Some s'
              /\ (Polars.values s' = (Polars.values s ++ rest)%list
                  \/ Polars.values s'
                     = (Polars.values (Polars.cast_utf8 fmt s) ++ rest)%list).
Proof.
  intros Hnd. unfold Polars.concat_part.
  destruct (Polars.concat_vertical a b) as [e1|r1] eqn:E1.
  - destruct (HarmonizeFacts.concat_vertical_error a b e1 E1) as [-> | ->].
    + split.
      * intros e. split; [intros [= <-]; now split | intros [-> _]; reflexivity].
      * intros r Hr. discriminate Hr.
    + pose proof (HarmonizeFacts.harmonize_height fmt all_columns a b) as [Hh1 Hh2].
      pose proof (fun c s => ConcatFacts.harmonize_left fmt all_columns a b c s Hnd) as Hl.
      destruct (Polars.harmonize fmt all_columns a b) as [a' b']. cbn [fst snd] in *.
      split.
      * intros e. split.
        -- destruct (Polars.concat_vertical a' b'); intros H; discriminate H.
        -- intros [_ H]. discriminate H.
      * intros r Hr.
        destruct (Polars.concat_vertical a' b') as [e2|r2] eqn:E2; injection Hr as <-.
        -- split; [right; exact Hh1|].
           intros c s Hs. destruct (Hl c s Hs) as [H|H].
           ++ exists s, []. rewrite !app_nil_r. auto.
           ++ exists (Polars.cast_utf8 fmt s), []. rewrite !app_nil_r. auto.
        -- split; [left; rewrite <- Hh1, <- Hh2;
                   now apply HarmonizeFacts.concat_vertical_height|].
           intros c s Hs. destruct (Hl c s Hs) as [H|H].
           ++ destruct (HarmonizeFacts.concat_vertical_prefix a' b' r2 c s E2 H)
                as (rest & Hr).
              eexists _, rest. split; [exact Hr|]. left. reflexivity.
           ++ destruct (HarmonizeFacts.concat_vertical_prefix a' b' r2 c _ E2 H)
                as (rest & Hr).
              eexists _, rest. split; [exact Hr|]. right. reflexivity.
  - split.
    + intros e. split; [intros H; discriminate H | intros [_ H]; discriminate H].
    + intros r [= <-].
      split; [left; now apply HarmonizeFacts.concat_vertical_height|].
      intros c s Hs.
      destruct (HarmonizeFacts.concat_vertical_prefix a b r1 c s E1 Hs) as (rest & Hr).
      eexists _, rest. split; [exact Hr|]. left. reflexivity.
Qed.

(** ** Order of the mapping steps *)

Module CommuteFacts.

Lemma set_col_comm (df : Pandas.DataFrame) (a b : string) (va vb : list cell) :
  a <> b -> is_Some (Pandas.get_col df a) ->
  Pandas.set_col (Pandas.set_col df a va) b vb
  = Pandas.set_col (Pandas.set_col df b vb) a va.
Proof.
  intros Hab. induction df as [|[k old] df IH]; cbn [Pandas.get_col Pandas.set_col].
  - intros [? ?]; discriminate.
  - destruct (String.eqb_spec k a) as [->|Hka].
    + intros _. destruct (String.eqb_spec a b) as [?|_]; [contradiction|].
      cbn [Pandas.set_col]. rewrite String.eqb_refl.
      destruct (String.eqb_spec a b) as [?|_]; [contradiction | reflexivity].
    + intros H. destruct (String.eqb_spec k b) as [->|Hkb]; cbn [Pandas.set_col].
      * rewrite String.eqb_refl.
        destruct (String.eqb_spec b a) as [?|_]; [congruence | reflexivity].
      * destruct (String.eqb_spec k a) as [?|_]; [contradiction|].
        destruct (String.eqb_spec k b) as [?|_]; [contradiction|].
        f_equal. exact (IH H).
Qed.

Lemma with_column_comm (df : Polars.DataFrame) (s t : Polars.Series) :
  Polars.name s <> Polars.name t -> is_Some (Polars.get_column df (Polars.name s)) ->
  Polars.with_column (Polars.with_column df s) t
  = Polars.with_column (Polars.with_column df t) s.
Proof.
  intros Hst. induction df as [|u df IH]; cbn [Polars.get_column Polars.with_column].
  - intros [? ?]; discriminate.
  - intros H.
    destruct (String.eqb_spec (Polars.name u) (Polars.name s)) as [E|Hus];
      destruct (String.eqb_spec (Polars.name u) (Polars.name t)) as [E'|Hut];
      cbn [Polars.with_column];
      repeat match goal with
             | |- context [String.eqb ?x ?y] => destruct (String.eqb_spec x y)
             end; try congruence.
    f_equal. exact (IH H).
Qed.

Lemma polars_map_codes_absent (fmt : Py.float -> string) (df : Polars.DataFrame)
    (col : string) (m : CodeMap) :
  Polars.get_column df col = None -> Polars.map_codes_to_descriptions fmt df col m = df.
Proof.
  intros H. unfold Polars.map_codes_to_descriptions.
  rewrite bool_decide_eq_false_2; [reflexivity|].
  intros Hin. apply PolarsFacts.get_column_in in Hin as [? ?]. congruence.
Qed.

End CommuteFacts.

(** The mapping steps of two different columns can be run in either
    order: in both scripts the frame is the same, whether or not the
    columns are there. *)
Theorem map_codes_commute (fmt : Py.float -> string)
    (c1 c2 : string) (m1 m2 : CodeMap) :
  c1 <> c2 ->
  (forall df : Pandas.DataFrame,
     Pandas.map_codes_to_descriptions (Pandas.map_codes_to_descriptions df c1 m1) c2 m2
     = Pandas.map_codes_to_descriptions (Pandas.map_codes_to_descriptions df c2 m2) c1 m1)
  /\ (forall df : Polars.DataFrame,
        Polars.map_codes_to_descriptions fmt
          (Polars.map_codes_to_descriptions fmt df c1 m1) c2 m2
        = Polars.map_codes_to_descriptions fmt
            (Polars.map_codes_to_descriptions fmt df c2 m2) c1 m1).
Proof.
  intros Hne. split; intros df.
  - destruct (Pandas.get_col df c1) as [v1|] eqn:E1.
    + destruct (Pandas.get_col df c2) as [v2|] eqn:E2.
      * rewrite (PandasFacts.pandas_map_codes_unfold df c1 m1 v1 E1).
        rewrite (PandasFacts.pandas_map_codes_unfold df c2 m2 v2 E2).
        rewrite (PandasFacts.pandas_map_codes_unfold _ c2 m2 v2)
          by (rewrite PandasFacts.get_set_ne by exact Hne; exact E2).
        rewrite (PandasFacts.pandas_map_codes_unfold _ c1 m1 v1)
          by (rewrite PandasFacts.get_set_ne by congruence; exact E1).
        apply CommuteFacts.set_col_comm; [exact Hne | rewrite E1; eauto].
      * rewrite (PandasFacts.map_codes_absent df c2 m2 E2).
        apply PandasFacts.map_codes_absent.
        rewrite (proj2 (pandas_map_codes_local df c1 m1) c2) by congruence. exact E2.
    + rewrite (PandasFacts.map_codes_absent df c1 m1 E1). symmetry.
      apply PandasFacts.map_codes_absent.
      rewrite (proj2 (pandas_map_codes_local df c2 m2) c1) by congruence. exact E1.
  - destruct (Polars.get_column df c1) as [s1|] eqn:E1.
    + destruct (Polars.get_column df c2) as [s2|] eqn:E2.
      * rewrite (PolarsFacts.polars_map_codes_unfold fmt df c1 m1 s1 E1).
        rewrite (PolarsFacts.polars_map_codes_unfold fmt df c2 m2 s2 E2).
        rewrite (PolarsFacts.polars_map_codes_unfold fmt _ c2 m2 s2)
          by (rewrite PolarsFacts.get_with_ne by exact Hne; exact E2).
        rewrite (PolarsFacts.polars_map_codes_unfold fmt _ c1 m1 s1)
          by (rewrite PolarsFacts.get_with_ne by (cbn; congruence); exact E1).
        apply CommuteFacts.with_column_comm; [exact Hne | cbn; rewrite E1; eauto].
      * rewrite (CommuteFacts.polars_map_codes_absent fmt df c2 m2 E2).
        apply CommuteFacts.polars_map_codes_absent.
        rewrite (proj2 (polars_map_codes_local fmt df c1 m1) c2) by congruence. exact E2.
    + rewrite (CommuteFacts.polars_map_codes_absent fmt df c1 m1 E1). symmetry.
      apply CommuteFacts.polars_map_codes_absent.
      rewrite (proj2 (polars_map_codes_local fmt df c2 m2) c1) by congruence. exact E1.
Qed.

Lemma map_codes_commute_witness :
  Pandas.map_codes_to_descriptions
    (Pandas.map_codes_to_descriptions Samples.pandas_activity "multiple_activity" Samples.YES_NO)
    "person" Samples.GENDER_MAPPING
  = Pandas.map_codes_to_descriptions
      (Pandas.map_codes_to_descriptions Samples.pandas_activity "person" Samples.GENDER_MAPPING)
      "multiple_activity" Samples.YES_NO.
Proof.
  apply (proj1 (map_codes_commute Py.str_float "multiple_activity" "person"
                  Samples.YES_NO Samples.GENDER_MAPPING ltac:(discriminate))).
Defined.

Lemma concat_part_keeps_rows_witness :
  (Polars.height [Polars.mkSeries "Y" Polars.Utf8
                    [Some (VStr "2"); Some (VStr "3"); Some (VStr "4")];
                  Polars.mkSeries "X" Polars.Int64
                    [Some (VInt 1); Some (VInt 5); Some (VInt 6)];
                  Polars.mkSeries "household_id" Polars.Utf8
                    [Some (VStr "h1"); Some (VStr "h2"); Some (VStr "h3")]]
   = (Polars.height Samples.part_C + Polars.height Samples.part_D)%nat
   \/ Polars.height [Polars.mkSeries "Y" Polars.Utf8
                       [Some (VStr "2"); Some (VStr "3"); Some (VStr "4")];
                     Polars.mkSeries "X" Polars.Int64
                       [Some (VInt 1); Some (VInt 5); Some (VInt 6)];
                     Polars.mkSeries "household_id" Polars.Utf8
                       [Some (VStr "h1"); Some (VStr "h2"); Some (VStr "h3")]]
      = Polars.height Samples.part_C)
  /\ forall c s,
       Polars.get_column Samples.part_C c = Some s ->
       exists s' rest,
         Polars.get_column
           [Polars.mkSeries "Y" Polars.Utf8
              [Some (VStr "2"); Some (VStr "3"); Some (VStr "4")];
            Polars.mkSeries "X" Polars.Int64
              [Some (VInt 1); Some (VInt 5); Some (VInt 6)];
            Polars.mkSeries "household_id" Polars.Utf8
              [Some (VStr "h1"); Some (VStr "h2"); Some (VStr "h3")]] c = Some s'
         /\ (Polars.values s' = (Polars.values s ++ rest)%list
             \/ Polars.values s'
                = (Polars.values (Polars.cast_utf8 Py.str_float s) ++ rest)%list).
Proof.
  apply (proj2 (concat_part_keeps_rows Py.str_float ["X"; "Y"; "household_id"]
                  Samples.part_C Samples.part_D
                  ltac:(eapply bool_decide_unpack; vm_compute; exact I))).
  vm_compute. reflexivity.
Defined.

Lemma mapping_key_inj_witness : 1 = 1 /\ 23 = 23 /\ 4 = 4.
Proof. apply (mapping_key_inj 1 23 4 1 23 4). reflexivity. Defined.

(** ** When the pandas person key can be built *)

Module PersonIdFacts.
Import Pandas.

Lemma add_columns_ok (df : DataFrame) (h : nat) (keys : list string) (acc : list string) :
  Forall (fun k => exists vs, get_col df k = Some vs /\ length vs = h) keys ->
  length acc = h ->
  exists r, add_columns df acc keys = inr r /\ length r = h.
Proof.
  revert acc. induction keys as [|k keys IH]; intros acc Hk Hacc; cbn [add_columns].
  - eauto.
  - apply Forall_cons in Hk as [(vs & Hvs & Hlen) Hk].
    unfold get_or_raise. rewrite Hvs. apply IH; [exact Hk|].
    unfold series_add, astype_str. rewrite length_zip_with, length_map. lia.
Qed.

(** The rest of line 217 after its first operand: the other key
    columns, then the serial number. *)
Lemma rest_key_error (df : DataFrame) (serial : string) (keys pre post : list string)
    (k : string) (acc : list string) :
  (keys ++ [serial])%list = (pre ++ k :: post)%list ->
  Forall (fun k => is_Some (get_col df k)) pre -> get_col df k = None ->
  match add_columns df acc keys with
  | inl e => inl e
  | inr hh =>
      match get_or_raise df serial with
      | inl e => inl e
      | inr ps => inr (series_add (map (fun s => s +:+ "_") hh) (astype_str ps))
      end
  end = inl (KeyError k).
Proof.
  revert pre acc. induction keys as [|k1 keys IH]; intros pre acc Heq Hpre Hk;
    cbn [add_columns].
  - destruct pre as [|p pre]; cbn in Heq.
    + injection Heq as <- _. unfold get_or_raise. now rewrite Hk.
    + injection Heq as _ Heq. destruct pre; discriminate.
  - destruct pre as [|p pre]; cbn in Heq; injection Heq as <- Heq.
    + unfold get_or_raise. now rewrite Hk.
    + apply Forall_cons in Hpre as [[vs Hvs] Hpre].
      unfold get_or_raise at 1. rewrite Hvs. now apply (IH pre).
Qed.

End PersonIdFacts.

(** Line 217 of the pandas script builds a key for every row exactly
    when the frame has all the key columns and the serial-number
    column; otherwise it stops with a [KeyError] that names the first
    column it misses, reading the key columns left to right and the
    serial number last. *)
Theorem pandas_person_id_defined (df : Pandas.DataFrame) (keys : list string)
    (serial : string) (h : nat) :
  keys <> [] ->
  (Forall (fun k => exists vs, Pandas.get_col df k = Some vs /\ length vs = h)
          (keys ++ [serial])%list ->
   exists ids, Pandas.person_id_series keys serial df = inr ids /\ length ids = h)
  /\ (forall pre k post,
        (keys ++ [serial])%list = (pre ++ k :: post)%list ->
        Forall (fun k => is_Some (Pandas.get_col df k)) pre ->
        Pandas.get_col df k = None ->
        Pandas.person_id_series keys serial df = inl (Pandas.KeyError k)).
Proof.
  intros Hne. destruct keys as [|k0 keys]; [contradiction|]. split.
  - intros Hall. cbn in Hall. apply Forall_cons in Hall as [(vs & Hvs & Hlen) Hall].
    apply Forall_app in Hall as [Hkeys Hserial].
    apply Forall_cons in Hserial as [(ps & Hps & Hplen) _].
    unfold Pandas.person_id_series, Pandas.get_or_raise. rewrite Hvs.
    destruct (PersonIdFacts.add_columns_ok df h keys (Pandas.astype_str vs) Hkeys)
      as (hh & -> & Hhh).
    { unfold Pandas.astype_str. now rewrite length_map. }
    rewrite Hps. eexists. split; [reflexivity|].
    unfold Pandas.series_add, Pandas.astype_str.
    rewrite length_zip_with, !length_map. lia.
  - intros pre k post Heq Hpre Hk. unfold Pandas.person_id_series.
    destruct pre as [|p pre]; cbn in Heq; injection Heq as <- Heq.
    + unfold Pandas.get_or_raise. now rewrite Hk.
    + apply Forall_cons in Hpre as [[vs Hvs] Hpre].
      unfold Pandas.get_or_raise at 1. rewrite Hvs.
      now apply (PersonIdFacts.rest_key_error df serial keys pre post).
Qed.

Lemma pandas_person_id_defined_witness :
  exists ids,
    Pandas.person_id_series Pandas.join_keys "Person serial no." Samples.pandas_person
    = inr ids
    /\ length ids = 1%nat.
Proof.
  apply (proj1 (pandas_person_id_defined Samples.pandas_person Pandas.join_keys
                  "Person serial no." 1%nat ltac:(discriminate))).
  unfold Pandas.join_keys. cbn [app].
  repeat (apply Forall_cons; split; [eexists; split; reflexivity|]).
  apply Forall_nil_2.
Defined.

(** ** The files of one table *)

Module GroupFacts.
Import Polars.

Lemma split_nonempty (sep : ascii) (s : string) : split sep s <> [].
Proof.
  destruct s as [|c s]; cbn [split]; [discriminate|].
  destruct (Ascii.eqb c sep); [discriminate|].
  destruct (split sep s); discriminate.
Qed.

Lemma split_none (sep : ascii) (s : string) :
  has_char sep s = false -> split sep s = [s].
Proof.
  induction s as [|c s IH]; cbn [has_char split]; [reflexivity|].
  intros H. apply orb_false_elim in H as [-> H]. now rewrite (IH H).
Qed.

Lemma split_app (sep : ascii) (a b : string) :
  split sep (a +:+ String sep b) = (split sep a ++ split sep b)%list.
Proof.
  induction a as [|c a IH].
  - change (EmptyString +:+ String sep b) with (String sep b).
    cbn [split]. now rewrite Ascii.eqb_refl.
  - change (String c a +:+ String sep b) with (String c (a +:+ String sep b)).
    cbn [split]. rewrite IH. destruct (Ascii.eqb c sep); [reflexivity|].
    pose proof (split_nonempty sep a) as Hne.
    destruct (split sep a) as [|x xs]; [contradiction | reflexivity].
Qed.

Lemma join_split (sep : ascii) (s : string) :
  join (String sep EmptyString) (split sep s) = s.
Proof.
  induction s as [|c s IH]; [reflexivity|]. cbn [split].
  pose proof (split_nonempty sep s) as Hne.
  destruct (Ascii.eqb_spec c sep) as [->|_].
  - destruct (split sep s) as [|x xs]; [contradiction|].
    change (join (String sep EmptyString) (EmptyString :: x :: xs))
      with (String sep (join (String sep EmptyString) (x :: xs))).
    now rewrite IH.
  - destruct (split sep s) as [|x xs]; [contradiction|].
    destruct xs as [|y ys].
    + cbn [join] in *. now rewrite IH.
    + change (join (String sep EmptyString) (String c x :: y :: ys))
        with (String c (x +:+ String sep EmptyString
                          +:+ join (String sep EmptyString) (y :: ys))).
      change (join (String sep EmptyString) (x :: y :: ys))
        with (x +:+ String sep EmptyString +:+ join (String sep EmptyString) (y :: ys)) in IH.
      now rewrite IH.
Qed.

Lemma lower_string_app (a b : string) :
  Py.lower_string (a +:+ b) = Py.lower_string a +:+ Py.lower_string b.
Proof.
  induction a as [|c a IH]; [reflexivity|].
  change (String c a +:+ b) with (String c (a +:+ b)). cbn [Py.lower_string].
  now rewrite IH.
Qed.

Lemma lower_string_digits (d : string) :
  Py.all_digits d = true -> Py.lower_string d = d.
Proof.
  induction d as [|c d IH]; [reflexivity|]. cbn [Py.all_digits Py.lower_string].
  intros H. apply andb_prop in H as [Hc H].
  destruct (PyFacts.digit_char c Hc) as (_ & _ & -> & _). now rewrite (IH H).
Qed.

Lemma has_char_digits (c : ascii) (d : string) :
  Py.is_digit c = false -> Py.all_digits d = true -> has_char c d = false.
Proof.
  intros Hc. induction d as [|x d IH]; [reflexivity|]. cbn [Py.all_digits has_char].
  intros H. apply andb_prop in H as [Hx H]. rewrite (IH H), orb_false_r.
  destruct (Ascii.eqb_spec x c) as [->|_]; [congruence | reflexivity].
Qed.

Lemma isdigit_all (d : string) : isdigit d = true -> Py.all_digits d = true.
Proof. destruct d; [discriminate | exact id]. Qed.

Lemma basename_of (prefix name : string) :
  has_char "/" name = false ->
  prefix = EmptyString \/ (exists d, prefix = d +:+ "/") ->
  basename (prefix +:+ name) = name.
Proof.
  intros Hn [->|[d ->]]; unfold basename.
  - change (EmptyString +:+ name) with name. now rewrite (split_none _ _ Hn).
  - rewrite string_app_assoc.
    change ("/" +:+ name) with (String "/" name).
    rewrite split_app, (split_none _ _ Hn). apply List.last_last.
Qed.

(** [file_groups] read as a dictionary. *)
Local Abbreviation as_dict g := (list_to_map g : gmap string (list string)).

Lemma append_to_group_dict (g : list (string * list string)) (k p : string) :
  as_dict (append_to_group g k p)
  = <[k := (default [] (as_dict g !! k) ++ [p])%list]> (as_dict g).
Proof.
  induction g as [|[k1 ps1] g IH]; cbn [append_to_group].
  - reflexivity.
  - destruct (String.eqb_spec k1 k) as [->|Hne]; cbn [list_to_map foldr uncurry].
    + cbn. rewrite lookup_insert_eq. cbn. now rewrite insert_insert_eq.
    + cbn. rewrite IH. rewrite lookup_insert_ne by exact Hne.
      apply insert_insert_ne. exact Hne.
Qed.

Lemma append_to_group_keys (g : list (string * list string)) (k p x : string) :
  x ∈ map fst (append_to_group g k p) <-> x = k \/ x ∈ map fst g.
Proof.
  induction g as [|[k1 ps1] g IH]; cbn [append_to_group map fst].
  - rewrite list_elem_of_singleton. split; [auto | intros [H|H]; [exact H | inversion H]].
  - destruct (String.eqb_spec k1 k) as [->|Hne]; cbn [map fst].
    + rewrite !elem_of_cons. tauto.
    + rewrite !elem_of_cons, IH. tauto.
Qed.

Lemma append_to_group_NoDup (g : list (string * list string)) (k p : string) :
  NoDup (map fst g) -> NoDup (map fst (append_to_group g k p)).
Proof.
  induction g as [|[k1 ps1] g IH]; cbn [append_to_group map fst].
  - intros _. apply NoDup_singleton.
  - intros H. apply NoDup_cons in H as [H1 H2].
    destruct (String.eqb_spec k1 k) as [->|Hne]; cbn [map fst].
    + apply NoDup_cons. split; assumption.
    + apply NoDup_cons. split; [|exact (IH H2)].
      rewrite append_to_group_keys. intros [?|?]; [congruence | contradiction].
Qed.

Section Grouping.
Variable key : string -> string.

Local Abbreviation groups_from g files :=
  (foldl (fun g p => append_to_group g (key p) p) g files).

Lemma groups_NoDup (files : list string) (g : list (string * list string)) :
  NoDup (map fst g) -> NoDup (map fst (groups_from g files)).
Proof.
  revert g. induction files as [|p files IH]; intros g H; cbn [foldl]; [exact H|].
  apply IH. now apply append_to_group_NoDup.
Qed.

Lemma groups_dict (files : list string) (g : list (string * list string)) (k : string) :
  as_dict (groups_from g files) !! k
  = match filter (fun p => key p = k) files with
    | [] => as_dict g !! k
    | later => Some (default [] (as_dict g !! k) ++ later)%list
    end.
Proof.
  revert g. induction files as [|p files IH]; intros g; cbn [foldl]; [reflexivity|].
  rewrite IH, append_to_group_dict.
  destruct (decide (key p = k)) as [E|E].
  - rewrite (filter_cons_True (fun p => key p = k)) by exact E.
    rewrite E, lookup_insert_eq. cbn [default from_option id].
    destruct (filter (fun p => key p = k) files); [reflexivity|].
    now rewrite <- app_assoc.
  - rewrite (filter_cons_False (fun p => key p = k)) by exact E.
    now rewrite lookup_insert_ne by exact E.
Qed.

End Grouping.
End GroupFacts.

(** The numbered parts of a table are filed under the table's name:
    a file [STEM_<digits>.ext], in any directory or in none, has the
    lower-cased [STEM] as its base name. *)
Theorem base_name_numbered (prefix stem digits ext : string) :
  prefix = EmptyString \/ (exists d, prefix = d +:+ "/") ->
  has_char "/" stem = false -> has_char "." stem = false ->
  (forall c, has_char c stem = true -> (nat_of_ascii c < 128)%nat) ->
  Polars.isdigit digits = true ->
  has_char "/" ext = false ->
  Polars.base_name (prefix +:+ stem +:+ "_" +:+ digits +:+ "." +:+ ext)
  = Py.lower_string stem.
Proof.
  intros Hp Hs1 Hs2 _ Hd He.
  pose proof (GroupFacts.isdigit_all digits Hd) as Hall.
  assert (Hstem : forall c, Py.is_digit c = false -> Ascii.eqb "_" c = false ->
            has_char c stem = false ->
            has_char c (stem +:+ "_" +:+ digits) = false).
  { intros c Hc Hu Hst. rewrite PyFacts.has_char_app, Hst.
    change ("_" +:+ digits) with (String "_" digits). cbn [has_char orb].
    rewrite Hu. now apply GroupFacts.has_char_digits. }
  unfold Polars.base_name.
  rewrite (GroupFacts.basename_of prefix); [| |exact Hp].
  2:{ rewrite !PyFacts.has_char_app, Hs1, He.
      now rewrite (GroupFacts.has_char_digits "/" digits eq_refl Hall). }
  replace (stem +:+ "_" +:+ digits +:+ "." +:+ ext)
    with ((stem +:+ "_" +:+ digits) +:+ String "." ext)
    by (now rewrite !string_app_assoc).
  rewrite GroupFacts.split_app.
  rewrite (GroupFacts.split_none "." _ (Hstem "."%char eq_refl eq_refl Hs2)).
  cbn [app List.hd].
  rewrite GroupFacts.lower_string_app.
  change ("_" +:+ digits) with (String "_" digits). cbn [Py.lower_string].
  change (Py.lower "_") with "_"%char.
  rewrite (GroupFacts.lower_string_digits digits Hall).
  rewrite PyFacts.has_char_app. cbn [has_char]. rewrite Ascii.eqb_refl, orb_true_r.
  rewrite GroupFacts.split_app.
  rewrite (GroupFacts.split_none "_" digits)
    by (now apply GroupFacts.has_char_digits).
  rewrite List.last_last, Hd. cbn [andb].
  rewrite List.removelast_last. apply GroupFacts.join_split.
Qed.

Lemma base_name_numbered_witness :
  Polars.base_name ("raw/2019/" +:+ "TUS106_L05" +:+ "_" +:+ "12" +:+ "." +:+ "parquet")
  = Py.lower_string "TUS106_L05".
Proof.
  apply base_name_numbered.
  - right. exists "raw/2019". reflexivity.
  - reflexivity.
  - reflexivity.
  - intros c H. cbn [has_char] in H.
    repeat (apply orb_prop in H as [H|H];
            [apply Ascii.eqb_eq in H; subst c; vm_compute; lia|]).
    discriminate.
  - reflexivity.
  - reflexivity.
Defined.

(** The files are grouped by base name without loss: each base name
    met is a key once, and its group is the list of the files with that
    base name, in the order in which they were given.  So a table has
    the single-file treatment exactly when one file carries its name. *)
Theorem file_groups_by_base_name (parquet_files : list string) :
  NoDup (map fst (Polars.file_groups parquet_files))
  /\ forall base_name file_paths,
       (base_name, file_paths) ∈ Polars.file_groups parquet_files
       <-> file_paths <> []
           /\ file_paths = filter (fun p => Polars.base_name p = base_name) parquet_files.
Proof.
  assert (Hnd : NoDup (map fst (Polars.file_groups parquet_files))).
  { apply (GroupFacts.groups_NoDup Polars.base_name). apply NoDup_nil_2. }
  split; [exact Hnd|]. intros k ps.
  etransitivity; [exact (elem_of_list_to_map (M := gmap string) _ k ps Hnd)|].
  unfold Polars.file_groups.
  rewrite (GroupFacts.groups_dict Polars.base_name parquet_files [] k).
  destruct (filter (fun p => Polars.base_name p = k) parquet_files) as [|x l].
  - cbn. rewrite lookup_empty. split; [discriminate | intros [H ->]; contradiction].
  - cbn. rewrite lookup_empty. cbn. split.
    + intros [= <-]. split; [discriminate | reflexivity].
    + intros [_ ->]. reflexivity.
Qed.

(** ** Parts that differ in types only *)

Module TypeConflictFacts.
Import Polars.

Lemma get_column_head (df : DataFrame) (s : Series) :
  get_column (s :: df) (name s) = Some s.
Proof. cbn [get_column]. now rewrite String.eqb_refl. Qed.

Lemma get_column_tail (df : DataFrame) (u s : Series) (c : string) :
  name u ∉ columns df -> get_column df c = Some s -> get_column (u :: df) c = Some s.
Proof.
  intros Hu Hs. cbn [get_column].
  destruct (String.eqb_spec (name u) c) as [E|_]; [|exact Hs].
  exfalso. apply Hu. rewrite E. apply PolarsFacts.get_column_in. eauto.
Qed.

(** Frames with the same names in the same order, each column of the
    second of the type of the column above it or of type [Null], can be
    stacked, and a column of the same type goes under as it is. *)
Lemma vstack_compatible (a b : DataFrame) :
  columns b = columns a -> NoDup (columns a) ->
  (forall c s t, get_column a c = Some s -> get_column b c = Some t ->
                 dtype_of t = dtype_of s \/ dtype_of t = Null) ->
  exists r,
    vstack a b = inr r
    /\ columns r = columns a
    /\ forall c s t, get_column a c = Some s -> get_column b c = Some t ->
         dtype_of t = dtype_of s ->
         get_column r c = Some (mkSeries c (dtype_of s) (values s ++ values t)).
Proof.
  revert b. induction a as [|s a IH]; intros [|t b] Hc Hnd Hty; try discriminate.
  - exists []. split; [reflexivity|]. split; [reflexivity|]. discriminate.
  - cbn [columns map] in Hc, Hnd. injection Hc as Hn Hc.
    apply NoDup_cons in Hnd as [Hs Hnd].
    assert (Ht : name t ∉ columns b).
    { rewrite Hn. unfold columns at 1. rewrite Hc. exact Hs. }
    destruct (IH b Hc Hnd) as (r & Hr & Hcr & Hvr).
    { intros c s' t' Hs' Ht'. apply (Hty c s' t').
      - now apply get_column_tail.
      - now apply get_column_tail. }
    assert (Hst : dtype_of t = dtype_of s \/ dtype_of t = Null).
    { apply (Hty (name s)); [apply get_column_head|].
      rewrite <- Hn. apply get_column_head. }
    cbn [vstack]. unfold append_series.
    rewrite Hn, String.eqb_refl. cbn [negb]. rewrite Hr.
    destruct (bool_decide (dtype_of t = dtype_of s)) eqn:E1.
    + eexists. split; [reflexivity|]. split.
      { cbn [columns map name]. f_equal. exact Hcr. }
      intros c s' t'. cbn [get_column name]. rewrite Hn.
      destruct (String.eqb_spec (name s) c) as [<-|_].
      * intros [= <-] [= <-] _. reflexivity.
      * apply Hvr.
    + apply bool_decide_eq_false_1 in E1. destruct Hst as [Hst|Hst]; [contradiction|].
      rewrite (bool_decide_eq_true_2 _ Hst).
      eexists. split; [reflexivity|]. split.
      { cbn [columns map name]. f_equal. exact Hcr. }
      intros c s' t'. cbn [get_column name]. rewrite Hn.
      destruct (String.eqb_spec (name s) c) as [<-|_].
      * intros [= <-] [= <-] Heq. contradiction.
      * apply Hvr.
Qed.

Section WithFormat.
Variable fmt_float : Py.float -> string.

(** On frames with the same columns the harmonisation adds none. *)
Lemma harmonize_same_columns (cols : list string) (a b : DataFrame) :
  columns b = columns a ->
  columns (harmonize fmt_float cols a b).1 = columns a
  /\ columns (harmonize fmt_float cols a b).2 = columns a.
Proof.
  unfold Polars.harmonize. revert a b.
  induction cols as [|c cols IH]; intros a b Hc; cbn [foldl]; [now split|].
  assert (Hstep : columns (harmonize_column fmt_float (a, b) c).1 = columns a
                  /\ columns (harmonize_column fmt_float (a, b) c).2 = columns a).
  { unfold Polars.harmonize_column.
    destruct (get_column a c) as [s|] eqn:Ha, (get_column b c) as [t|] eqn:Hb.
    - destruct (bool_decide (dtype_of s <> dtype_of t)); cbn [fst snd]; [|now split].
      split.
      + apply PolarsFacts.columns_with_present. cbn.
        rewrite (PolarsFacts.get_column_name _ _ _ Ha).
        apply PolarsFacts.get_column_in. eauto.
      + rewrite <- Hc. apply PolarsFacts.columns_with_present. cbn.
        rewrite (PolarsFacts.get_column_name _ _ _ Hb).
        apply PolarsFacts.get_column_in. eauto.
    - exfalso. assert (Hin : c ∈ columns b).
      { rewrite Hc. apply PolarsFacts.get_column_in. eauto. }
      apply PolarsFacts.get_column_in in Hin as [? ?]. congruence.
    - exfalso. assert (Hin : c ∈ columns a).
      { rewrite <- Hc. apply PolarsFacts.get_column_in. eauto. }
      apply PolarsFacts.get_column_in in Hin as [? ?]. congruence.
    - now split. }
  destruct (harmonize_column fmt_float (a, b) c) as [a1 b1]. cbn [fst snd] in Hstep.
  destruct Hstep as [H1 H2].
  destruct (IH a1 b1) as [H3 H4]; [congruence|]. split; congruence.
Qed.

End WithFormat.
End TypeConflictFacts.

(** Two parts with the same columns in the same order are always put
    together, whatever their types (lines 112-151, with the union of
    the names walked once each): when the first concatenation raises
    [SchemaError], every column typed differently on the two sides is
    cast to strings on both, the second concatenation succeeds, and the
    result has the columns of the parts, the rows of both, and in each
    such column the strings of the first part followed by those of the
    second. *)
Theorem type_conflicts_merged
    (fmt : Py.float -> string) (all_columns : list string) (a b : Polars.DataFrame) :
  NoDup (Polars.columns a) -> Polars.columns b = Polars.columns a ->
  NoDup all_columns -> (forall c, c ∈ Polars.columns a -> c ∈ all_columns) ->
  exists r,
    Polars.concat_part fmt all_columns a b = inr r
    /\ Polars.columns r = Polars.columns a
    /\ Polars.height r = (Polars.height a + Polars.height b)%nat
    /\ (Polars.concat_vertical a b = inl Polars.SchemaError ->
        forall c s t,
          Polars.get_column a c = Some s -> Polars.get_column b c = Some t ->
          Polars.dtype_of s <> Polars.dtype_of t ->
          Polars.get_column r c
          = Some (Polars.mkSeries c Polars.Utf8
                    (Polars.values (Polars.cast_utf8 fmt s)
                     ++ Polars.values (Polars.cast_utf8 fmt t)))).
Proof.
  intros Hnd Hcols Hall Hcover.
  assert (Hlen : length a = length b).
  { apply (f_equal (@length string)) in Hcols. unfold Polars.columns in Hcols.
    rewrite !length_map in Hcols. congruence. }
  unfold Polars.concat_part.
  destruct (Polars.concat_vertical a b) as [e1|r1] eqn:E1.
  - assert (He : e1 = Polars.SchemaError).
    { destruct (HarmonizeFacts.concat_vertical_error a b e1 E1) as [-> | ->];
        [|reflexivity].
      exfalso. revert E1. unfold Polars.concat_vertical.
      rewrite (bool_decide_eq_true_2 _ Hlen). clear Hlen Hnd Hcover.
      revert b Hcols. induction a as [|s a IH]; intros [|t b] Hc; try discriminate.
      cbn [Polars.columns map] in Hc. injection Hc as Hn Hc.
      cbn [Polars.vstack]. unfold Polars.append_series.
      rewrite Hn, String.eqb_refl. cbn [negb].
      destruct (bool_decide (Polars.dtype_of t = Polars.dtype_of s)).
      - destruct (Polars.vstack a b) as [e|r] eqn:E; [|discriminate].
        intros [= ->]. exact (IH b Hc E).
      - destruct (bool_decide (Polars.dtype_of t = Polars.Null)); [|discriminate].
        destruct (Polars.vstack a b) as [e|r] eqn:E; [|discriminate].
        intros [= ->]. exact (IH b Hc E). }
    subst e1.
    pose proof (TypeConflictFacts.harmonize_same_columns fmt all_columns a b Hcols)
      as [Hca Hcb].
    pose proof (HarmonizeFacts.harmonize_height fmt all_columns a b) as [Hh1 Hh2].
    assert (Hspec : forall c, c ∈ Polars.columns a ->
              (Polars.get_column (Polars.harmonize fmt all_columns a b).1 c,
               Polars.get_column (Polars.harmonize fmt all_columns a b).2 c)
              = Polars.harmonized fmt a b c).
    { intros c Hc.
      pose proof (HarmonizeFacts.harmonize_spec fmt all_columns a b c Hall (Hcover c Hc))
        as H.
      now destruct (Polars.harmonize fmt all_columns a b). }
    destruct (Polars.harmonize fmt all_columns a b) as [a' b']. cbn [fst snd] in *.
    assert (Hpair : forall c s' t',
              Polars.get_column a' c = Some s' -> Polars.get_column b' c = Some t' ->
              exists s t, Polars.get_column a c = Some s /\ Polars.get_column b c = Some t
                /\ ((Polars.dtype_of s <> Polars.dtype_of t
                     /\ s' = Polars.cast_utf8 fmt s /\ t' = Polars.cast_utf8 fmt t)
                    \/ (Polars.dtype_of s = Polars.dtype_of t /\ s' = s /\ t' = t))).
    { intros c s' t' Hs' Ht'.
      assert (Hc : c ∈ Polars.columns a).
      { rewrite <- Hca. apply PolarsFacts.get_column_in. eauto. }
      pose proof (Hspec c Hc) as H. rewrite Hs', Ht' in H.
      unfold Polars.harmonized in H.
      destruct (proj1 (PolarsFacts.get_column_in a c) Hc) as [s Ha].
      assert (Hcb' : c ∈ Polars.columns b) by (rewrite Hcols; exact Hc).
      destruct (proj1 (PolarsFacts.get_column_in b c) Hcb') as [t Hb].
      rewrite Ha, Hb in H.
      exists s, t. split; [exact Ha|]. split; [exact Hb|].
      destruct (bool_decide (Polars.dtype_of s <> Polars.dtype_of t)) eqn:Ed.
      - apply bool_decide_eq_true_1 in Ed. injection H as -> ->. left. auto.
      - apply bool_decide_eq_false_1 in Ed. injection H as -> ->. right.
        split; [|auto]. destruct (decide (Polars.dtype_of s = Polars.dtype_of t));
          [assumption | contradiction]. }
    destruct (TypeConflictFacts.vstack_compatible a' b') as (r & Hr & Hcr & Hvr).
    { congruence. }
    { now rewrite Hca. }
    { intros c s' t' Hs' Ht'.
      destruct (Hpair c s' t' Hs' Ht') as (s & t & _ & _ & [(_ & -> & ->) | (E & -> & ->)]).
      - left. reflexivity.
      - left. now symmetry. }
    assert (Hlen' : length a' = length b').
    { assert (H : Polars.columns a' = Polars.columns b') by congruence.
      apply (f_equal (@length string)) in H. unfold Polars.columns in H.
      now rewrite !length_map in H. }
    assert (E2 : Polars.concat_vertical a' b' = inr r).
    { unfold Polars.concat_vertical. now rewrite (bool_decide_eq_true_2 _ Hlen'). }
    rewrite E2. exists r. split; [reflexivity|]. split; [congruence|]. split.
    { rewrite <- Hh1, <- Hh2. now apply HarmonizeFacts.concat_vertical_height. }
    intros _ c s t Hs Ht Hne.
    assert (Hc : c ∈ Polars.columns a) by (apply PolarsFacts.get_column_in; eauto).
    pose proof (Hspec c Hc) as H. unfold Polars.harmonized in H.
    rewrite Hs, Ht in H. rewrite (bool_decide_eq_true_2 _ Hne) in H.
    injection H as Ha' Hb'.
    exact (Hvr c _ _ Ha' Hb' eq_refl).
  - exists r1. split; [reflexivity|].
    split; [|split; [now apply HarmonizeFacts.concat_vertical_height
                    | intros H; discriminate H]].
    revert E1. unfold Polars.concat_vertical.
    rewrite (bool_decide_eq_true_2 _ Hlen). clear -Hlen.
    revert b r1 Hlen. induction a as [|s a IH]; intros [|t b] r Hlen;
      cbn [Polars.vstack]; try discriminate Hlen; [intros [= <-]; reflexivity|].
    destruct (Polars.append_series s t) as [e|st] eqn:E; [discriminate|].
    destruct (Polars.vstack a b) as [e|r'] eqn:E'; [discriminate|]. intros [= <-].
    destruct (HarmonizeFacts.append_series_inv s t st E) as (_ & rest & -> & _).
    cbn [Polars.columns map Polars.name]. f_equal.
    apply (IH b r'); [cbn in Hlen; lia | exact E'].
Qed.

Lemma type_conflicts_merged_witness :
  exists r,
    Polars.concat_part Py.str_float ["X"; "Y"; "household_id"]
      Samples.part_C Samples.part_D = inr r
    /\ Polars.columns r = Polars.columns Samples.part_C
    /\ Polars.height r = (Polars.height Samples.part_C + Polars.height Samples.part_D)%nat
    /\ (Polars.concat_vertical Samples.part_C Samples.part_D = inl Polars.SchemaError ->
        forall c s t,
          Polars.get_column Samples.part_C c = Some s ->
          Polars.get_column Samples.part_D c = Some t ->
          Polars.dtype_of s <> Polars.dtype_of t ->
          Polars.get_column r c
          = Some (Polars.mkSeries c Polars.Utf8
                    (Polars.values (Polars.cast_utf8 Py.str_float s)
                     ++ Polars.values (Polars.cast_utf8 Py.str_float t)))).
Proof.
  apply (type_conflicts_merged Py.str_float ["X"; "Y"; "household_id"]
           Samples.part_C Samples.part_D).
  - eapply bool_decide_unpack; vm_compute; exact I.
  - reflexivity.
  - eapply bool_decide_unpack; vm_compute; exact I.
  - intros c Hc. vm_compute in Hc.
    apply elem_of_cons in Hc as [->|Hc]; [eapply bool_decide_unpack; vm_compute; exact I|].
    apply elem_of_cons in Hc as [->|Hc]; [eapply bool_decide_unpack; vm_compute; exact I|].
    apply elem_of_cons in Hc as [->|Hc]; [eapply bool_decide_unpack; vm_compute; exact I|].
    inversion Hc.
Defined.
